(** * Medzo shop: the proximity-aware fulfilment and transaction engine

    A shallow embedding of the database routines of the shop
    ([process_sale], [submit_review], [get_nearby_pharmacies],
    [get_medicine_availability]) and of the client code that calls them
    ([fetchPharmacies], [fetchNearbyStores], [findShops], [localMedicines]).

    Conventions of the embedding.
    - SQL [int] is a [Z] kept inside the 32-bit range: arithmetic leaving the
      range raises [IntegerOutOfRange], as PostgreSQL does.
    - SQL [float] columns and JavaScript numbers that are only stored, added,
      multiplied, divided and compared are exact rationals ([Q]).  The
      great-circle distance, which goes through [cos], [sin] and [acos], is
      carried by the rows as a real number ([R]); the expression itself is
      also given as the server evaluates it, in [float8] with its rounding
      ([Float8]).
    - A nullable column is an [option]; SQL comparisons against [NULL] do
      not select the row.
    - A table is the list of its rows; [UPDATE ... WHERE] rewrites every
      row the condition selects.
    - A routine runs in one transaction: on an error every table is as
      before the call.  Only [nextval] survives a rollback. *)

From Stdlib Require Import ZArith QArith Qabs List String Ascii Bool Lia.
From Stdlib Require Import DecimalString DecimalPos DecimalZ.
From Stdlib Require Import Reals Lra.
From Stdlib Require Floats.
From Stdlib Require Import Sorted Permutation Psatz.
Import ListNotations.

Local Open Scope string_scope.
Local Open Scope Z_scope.

(** ** SQL values and errors *)

Module Sql.

Definition uuid := string.

Inductive error : Type :=
| ForeignKeyViolation
| UniqueViolation
| CheckViolation
| IntegerOutOfRange
| DivisionByZero
| SequenceLimit
| InvalidDatetime.

Inductive result (A : Type) : Type :=
| Ok (a : A)
| Raise (e : error).
Arguments Ok {A} a.
Arguments Raise {A} e.

Definition bind {A B} (r : result A) (k : A -> result B) : result B :=
  match r with
  | Ok a => k a
  | Raise e => Raise e
  end.

Definition int4_min : Z := - 2147483648.
Definition int4_max : Z := 2147483647.
Definition int8_max : Z := 9223372036854775807.

Definition in_int4 (z : Z) : bool := (int4_min <=? z) && (z <=? int4_max).

(** [int + int] and [int - int]: the exact result when it fits. *)
Definition int4 (z : Z) : result Z :=
  if in_int4 z then Ok z else Raise IntegerOutOfRange.

(** [COALESCE(x, d)]. *)
Definition coalesce {A} (x : option A) (d : A) : A :=
  match x with
  | Some a => a
  | None => d
  end.

(** [x = y] on a nullable left operand, used as a [WHERE] condition: a
    [NULL] comparison does not select. *)
Definition eq_uuid (x : option uuid) (y : uuid) : bool :=
  match x with
  | Some a => String.eqb a y
  | None => false
  end.

Definition is_true (x : option bool) : bool :=
  match x with
  | Some b => b
  | None => false
  end.

(** Text of an integer, as [||] concatenation renders it. *)
Definition text_of_int (z : Z) : string := NilZero.string_of_int (Z.to_int z).

(** The inverse reading, used to take an invoice number apart. *)
Definition int_of_text (s : string) : option Z :=
  option_map Z.of_int (NilZero.int_of_string s).

End Sql.

Notation "x <- r ;; k" := (Sql.bind r (fun x => k))
  (at level 61, r at next level, right associativity).

(** ** Schema *)

Module Schema.
Import Sql.

Record pharmacy : Type := mkPharmacy {
  ph_id : uuid;
  ph_name : string;
  ph_address : string;
  ph_latitude : option Q;
  ph_longitude : option Q;
  ph_rating : option Q;
  ph_review_count : option Z;
  ph_verified : option bool;
  ph_verification_status : option string
}.

Record medicine : Type := mkMedicine {
  med_id : uuid;
  med_pharmacy_id : option uuid;
  med_name : string;
  med_selling_price : option Q;
  med_stock : option Z
}.

Record booking : Type := mkBooking {
  bk_id : string;
  bk_is_rated : option bool
}.

Record sale : Type := mkSale {
  sale_id : uuid;
  sale_pharmacy_id : option uuid;
  sale_invoice_number : string;
  sale_customer_name : string;
  sale_customer_phone : string;
  sale_doctor_name : string;
  sale_payment_method : string;
  sale_subtotal : Q;
  sale_discount : Q;
  sale_taxable_amount : Q;
  sale_tax_amount : Q;
  sale_total : Q;
  sale_status : string
}.

Record sale_item : Type := mkSaleItem {
  si_sale_id : uuid;
  si_medicine_id : uuid;
  si_name : string;
  si_batch_number : option string;
  si_expiry_date : option string;
  si_quantity : Z;
  si_price : Q;
  si_total : Q;
  si_gst_percentage : Q
}.

Record review : Type := mkReview {
  rv_booking_id : string;
  rv_pharmacy_id : uuid;
  rv_user_id : uuid;
  rv_rating : Z;
  rv_comment : string
}.

(** The store.  [invoice_seq] holds the value the next [nextval] returns;
    the sequence is created with [START 1001]. *)
Record db : Type := mkDb {
  pharmacies : list pharmacy;
  medicines : list medicine;
  bookings : list booking;
  sales : list sale;
  sale_items : list sale_item;
  reviews : list review;
  auth_users : list uuid;
  invoice_seq : Z
}.

Definition invoice_seq_start : Z := 1001.

Definition with_invoice_seq (d : db) (n : Z) : db :=
  mkDb (pharmacies d) (medicines d) (bookings d) (sales d) (sale_items d)
       (reviews d) (auth_users d) n.

Definition with_medicines (d : db) (ms : list medicine) : db :=
  mkDb (pharmacies d) ms (bookings d) (sales d) (sale_items d)
       (reviews d) (auth_users d) (invoice_seq d).

Definition with_sales (d : db) (ss : list sale) : db :=
  mkDb (pharmacies d) (medicines d) (bookings d) ss (sale_items d)
       (reviews d) (auth_users d) (invoice_seq d).

Definition with_sale_items (d : db) (si : list sale_item) : db :=
  mkDb (pharmacies d) (medicines d) (bookings d) (sales d) si
       (reviews d) (auth_users d) (invoice_seq d).

Definition with_reviews (d : db) (rs : list review) : db :=
  mkDb (pharmacies d) (medicines d) (bookings d) (sales d) (sale_items d)
       rs (auth_users d) (invoice_seq d).

Definition with_bookings (d : db) (bs : list booking) : db :=
  mkDb (pharmacies d) (medicines d) bs (sales d) (sale_items d)
       (reviews d) (auth_users d) (invoice_seq d).

Definition with_pharmacies (d : db) (ps : list pharmacy) : db :=
  mkDb ps (medicines d) (bookings d) (sales d) (sale_items d)
       (reviews d) (auth_users d) (invoice_seq d).

Definition has_pharmacy (d : db) (i : uuid) : bool :=
  existsb (fun p => String.eqb (ph_id p) i) (pharmacies d).

Definition has_medicine (d : db) (i : uuid) : bool :=
  existsb (fun m => String.eqb (med_id m) i) (medicines d).

Definition has_sale (d : db) (i : uuid) : bool :=
  existsb (fun s => String.eqb (sale_id s) i) (sales d).

Definition has_user (d : db) (i : uuid) : bool :=
  existsb (String.eqb i) (auth_users d).

(** [SELECT ... FROM pharmacies WHERE id = i], first row. *)
Definition find_pharmacy (d : db) (i : uuid) : option pharmacy :=
  find (fun p => String.eqb (ph_id p) i) (pharmacies d).

(** [SELECT stock FROM medicines WHERE id = i], first row. *)
Definition find_medicine (d : db) (i : uuid) : option medicine :=
  find (fun m => String.eqb (med_id m) i) (medicines d).

Definition stock_of (d : db) (i : uuid) : option Z :=
  match find_medicine d i with
  | Some m => med_stock m
  | None => None
  end.

End Schema.

(** ** process_sale: the billing transaction *)

Module Billing.
Import Sql Schema.

(** One element of [p_items], with the keys the routine reads. *)
Record cart_item : Type := mkCartItem {
  ci_id : uuid;
  ci_name : string;
  ci_batchNumber : option string;
  ci_expiryDate : option string;
  ci_quantity : Z;
  ci_sellingPrice : Q;
  ci_total : Q;
  ci_gstPercentage : Q
}.

Record sale_args : Type := mkSaleArgs {
  p_pharmacy_id : option uuid;
  p_customer_name : string;
  p_customer_phone : string;
  p_doctor_name : string;
  p_payment_method : string;
  p_subtotal : Q;
  p_discount : Q;
  p_taxable_amount : Q;
  p_tax_amount : Q;
  p_total : Q;
  p_items : list cart_item
}.

(** What the call reads from its environment: the calendar day of [now()],
    the key [gen_random_uuid()] hands to the new [sales] row, and which
    texts the server reads as a date under its settings. *)
Record sale_env : Type := mkSaleEnv {
  now_year : Z;
  now_month : Z;
  now_day : Z;
  fresh_sale_id : uuid;
  reads_as_date : string -> bool
}.

(** [json_build_object('id', ..., 'invoice_number', ...)]. *)
Record receipt : Type := mkReceipt {
  rc_id : uuid;
  rc_invoice_number : string
}.

(** The month and the day of a calendar date. *)
Definition calendar_day (e : sale_env) : Prop :=
  1 <= now_month e <= 12 /\ 1 <= now_day e <= 31.

Definition two_digits (n : Z) : string :=
  if n <? 10 then "0" ++ text_of_int n else text_of_int n.

(** [to_char(now(), 'YYMMDD')]. *)
Definition to_char_YYMMDD (e : sale_env) : string :=
  two_digits (now_year e mod 100) ++ two_digits (now_month e)
    ++ two_digits (now_day e).

(** [nextval('invoice_seq')]: hands out the stored value and moves on. *)
Definition nextval (d : db) : result (Z * db) :=
  if invoice_seq d <=? int8_max
  then Ok (invoice_seq d, with_invoice_seq d (invoice_seq d + 1))
  else Raise SequenceLimit.

Definition invoice_number (e : sale_env) (n : Z) : string :=
  "INV-" ++ to_char_YYMMDD e ++ "-" ++ text_of_int n.

(** The sequence component of an invoice number: the text after the
    eleven characters of [INV-YYMMDD-]. *)
Definition invoice_sequence (s : string) : option Z :=
  int_of_text (substring 11 (String.length s - 11) s).

(** [INSERT INTO sales ... RETURNING id]. *)
Definition insert_sale (d : db) (e : sale_env) (a : sale_args) (inv : string)
  : result (uuid * db) :=
  if has_sale d (fresh_sale_id e) then Raise UniqueViolation
  else if match p_pharmacy_id a with
          | Some i => has_pharmacy d i
          | None => true
          end
  then Ok (fresh_sale_id e,
           with_sales d (sales d ++ [mkSale (fresh_sale_id e) (p_pharmacy_id a)
             inv (p_customer_name a) (p_customer_phone a) (p_doctor_name a)
             (p_payment_method a) (p_subtotal a) (p_discount a)
             (p_taxable_amount a) (p_tax_amount a) (p_total a) "Completed"]))
  else Raise ForeignKeyViolation.

(** [(item->>'expiryDate')::date] under its [CASE]: a text that is not
    empty has to read as a date. *)
Definition cast_expiry_date (e : sale_env) (item : cart_item) : result unit :=
  match ci_expiryDate item with
  | Some s => if (String.eqb s "" || reads_as_date e s)%bool then Ok tt
              else Raise InvalidDatetime
  | None => Ok tt
  end.

(** [INSERT INTO sale_items ...] for one cart element. *)
Definition insert_sale_item (d : db) (e : sale_env) (v_sale_id : uuid)
  (item : cart_item) : result db :=
  _ <- cast_expiry_date e item ;;
  q <- int4 (ci_quantity item) ;;
  if has_medicine d (ci_id item)
  then Ok (with_sale_items d (sale_items d ++ [mkSaleItem v_sale_id
             (ci_id item) (ci_name item) (ci_batchNumber item)
             (match ci_expiryDate item with
              | Some "" => None
              | x => x
              end)
             q (ci_sellingPrice item) (ci_total item)
             (ci_gstPercentage item)]))
  else Raise ForeignKeyViolation.

Definition set_stock (m : medicine) (s : option Z) : medicine :=
  mkMedicine (med_id m) (med_pharmacy_id m) (med_name m)
             (med_selling_price m) s.

(** [UPDATE medicines SET stock = stock - q WHERE id = i]. *)
Fixpoint decrease_stock (ms : list medicine) (i : uuid) (q : Z)
  : result (list medicine) :=
  match ms with
  | [] => Ok []
  | m :: ms' =>
      m' <- (if String.eqb (med_id m) i
             then match med_stock m with
                  | Some s => s' <- int4 (s - q) ;; Ok (set_stock m (Some s'))
                  | None => Ok m
                  end
             else Ok m) ;;
      rest <- decrease_stock ms' i q ;;
      Ok (m' :: rest)
  end.

(** The body of the [FOR item IN ... LOOP]. *)
Fixpoint process_items (d : db) (e : sale_env) (v_sale_id : uuid)
  (items : list cart_item) : result db :=
  match items with
  | [] => Ok d
  | item :: rest =>
      d1 <- insert_sale_item d e v_sale_id item ;;
      ms <- decrease_stock (medicines d1) (ci_id item) (ci_quantity item) ;;
      process_items (with_medicines d1 ms) e v_sale_id rest
  end.

(** The statements after [nextval], inside the transaction. *)
Definition sale_body (d : db) (e : sale_env) (a : sale_args) (n : Z)
  : result (db * receipt) :=
  let v_invoice_number := invoice_number e n in
  ins <- insert_sale d e a v_invoice_number ;;
  d2 <- process_items (snd ins) e (fst ins) (p_items a) ;;
  Ok (d2, mkReceipt (fst ins) v_invoice_number).

(** [process_sale]: the store after the call and what the caller gets.  A
    raised error undoes the tables; the sequence keeps its step. *)
Definition process_sale (d : db) (e : sale_env) (a : sale_args)
  : db * result receipt :=
  match nextval d with
  | Raise err => (d, Raise err)
  | Ok (n, d1) =>
      match sale_body d1 e a n with
      | Ok (d2, r) => (d2, Ok r)
      | Raise err => (d1, Raise err)
      end
  end.

End Billing.

(** ** submit_review: reviews and the running average *)

Module Reviews.
Import Sql Schema.

Record review_args : Type := mkReviewArgs {
  p_booking_id : string;
  p_pharmacy_id : uuid;
  p_user_id : uuid;
  p_rating : Z;
  p_comment : string
}.

(** [INSERT INTO reviews ...]: the column check on [rating] and the two
    references.  The table has no uniqueness rule on [booking_id]. *)
Definition insert_review (d : db) (a : review_args) : result db :=
  if negb ((1 <=? p_rating a) && (p_rating a <=? 5)) then Raise CheckViolation
  else if negb (has_pharmacy d (p_pharmacy_id a)) then Raise ForeignKeyViolation
  else if negb (has_user d (p_user_id a)) then Raise ForeignKeyViolation
  else Ok (with_reviews d (reviews d ++ [mkReview (p_booking_id a)
             (p_pharmacy_id a) (p_user_id a) (p_rating a) (p_comment a)])).

(** [UPDATE bookings SET is_rated = true WHERE id = p_booking_id]. *)
Definition mark_rated (bs : list booking) (i : string) : list booking :=
  map (fun b => if String.eqb (bk_id b) i then mkBooking (bk_id b) (Some true)
                else b) bs.

Definition set_stats (p : pharmacy) (r : Q) (c : Z) : pharmacy :=
  mkPharmacy (ph_id p) (ph_name p) (ph_address p) (ph_latitude p)
             (ph_longitude p) (Some r) (Some c) (ph_verified p)
             (ph_verification_status p).

(** [UPDATE pharmacies SET rating = r, review_count = c WHERE id = i]. *)
Definition update_stats (ps : list pharmacy) (i : uuid) (r : Q) (c : Z)
  : list pharmacy :=
  map (fun p => if String.eqb (ph_id p) i then set_stats p r c else p) ps.

(** The [IF v_old_count = 0 ... ELSE ... END IF] of the routine. *)
Definition new_rating (v_old_rating : Q) (v_old_count : Z) (rating : Z)
  : result Q :=
  if v_old_count =? 0 then Ok (inject_Z rating)
  else
    den <- int4 (v_old_count + 1) ;;
    if den =? 0 then Raise DivisionByZero
    else Ok (((v_old_rating * inject_Z v_old_count) + inject_Z rating)
               / inject_Z den)%Q.

Definition review_body (d : db) (a : review_args) : result db :=
  d1 <- insert_review d a ;;
  let d2 := with_bookings d1 (mark_rated (bookings d1) (p_booking_id a)) in
  match find_pharmacy d2 (p_pharmacy_id a) with
  | None => Ok d2
  | Some p =>
      let v_old_rating := coalesce (ph_rating p) 0%Q in
      let v_old_count := coalesce (ph_review_count p) 0 in
      v_new_rating <- new_rating v_old_rating v_old_count (p_rating a) ;;
      c <- int4 (v_old_count + 1) ;;
      Ok (with_pharmacies d2
            (update_stats (pharmacies d2) (p_pharmacy_id a) v_new_rating c))
  end.

(** [submit_review]: the store after the call; a raised error leaves it
    as it was. *)
Definition submit_review (d : db) (a : review_args) : db * result unit :=
  match review_body d a with
  | Ok d' => (d', Ok tt)
  | Raise err => (d, Raise err)
  end.

(** How many rows of [reviews] point at one booking. *)
Definition reviews_of_booking (d : db) (i : string) : nat :=
  List.length (filter (fun r => String.eqb (rv_booking_id r) i) (reviews d)).

End Reviews.

(** ** Ordering rows *)

Section Ordering.
Context {A : Type} (leb : A -> A -> bool).

(** Stable insertion: a row goes in front of the first row it does not
    exceed. *)
Fixpoint insert_row (x : A) (l : list A) : list A :=
  match l with
  | [] => [x]
  | y :: l' => if leb x y then x :: l else y :: insert_row x l'
  end.

Definition order_by (l : list A) : list A := fold_right insert_row [] l.

End Ordering.

(** ** get_nearby_pharmacies and get_medicine_availability *)

Module Geo.
Import Sql Schema.

Definition radians (x : R) : R := (x * (PI / 180))%R.

(** The distance expression both routines carry, in kilometres, in exact
    arithmetic; [Float8.distance_km] is the same expression in [float8]. *)
Definition distance_km (user_lat user_lng latitude longitude : R) : R :=
  (6371 * acos (Rmin 1 (Rmax (-1)
     (cos (radians user_lat) * cos (radians latitude) *
      cos (radians longitude - radians user_lng) +
      sin (radians user_lat) * sin (radians latitude)))))%R.

(** The sum under the clamp, on columns that may be [NULL]: it is [NULL] as
    soon as the latitude or the longitude of the row is. *)
Definition angle_cosine (user_lat user_lng : Q) (p : pharmacy) : option R :=
  match ph_latitude p, ph_longitude p with
  | Some la, Some lo =>
      Some (cos (radians (Q2R user_lat)) * cos (radians (Q2R la)) *
            cos (radians (Q2R lo) - radians (Q2R user_lng)) +
            sin (radians (Q2R user_lat)) * sin (radians (Q2R la)))%R
  | _, _ => None
  end.

(** [greatest(-1.0, x)]: [GREATEST] passes over an argument that is
    [NULL]. *)
Definition greatest (a : R) (x : option R) : R :=
  match x with
  | Some v => Rmax a v
  | None => a
  end.

(** The distance expression on a row.  It is never [NULL]: with a coordinate
    missing the clamp is left with -1, and the distance is 6371 * acos(-1),
    half the circumference. *)
Definition row_distance (user_lat user_lng : Q) (p : pharmacy) : option R :=
  Some (6371 * acos (Rmin 1 (greatest (-1)
                               (angle_cosine user_lat user_lng p))))%R.

Definition Rleb (a b : R) : bool := if Rle_dec a b then true else false.

(** [ORDER BY distance_km ASC]: [NULL] sorts last. *)
Definition distance_leb (a b : option R) : bool :=
  match a, b with
  | Some x, Some y => Rleb x y
  | Some _, None => true
  | None, Some _ => false
  | None, None => true
  end.

(** [p.latitude IS NOT NULL AND p.latitude <> 0 AND p.verified = true]. *)
Definition located_and_verified (p : pharmacy) : bool :=
  match ph_latitude p with
  | Some la => negb (Qeq_bool la 0) && is_true (ph_verified p)
  | None => false
  end.

(** The rule that a trigger of the database, [auto_verify_shop], is said
    to keep (the administration screen sets the status and leaves the flag
    to it): the flag is raised only on a shop whose status is [verified]. *)
Definition flag_follows_status (d : db) : Prop :=
  forall p, In p (pharmacies d) -> ph_verified p = Some true ->
    ph_verification_status p = Some "verified".

Record nearby_row : Type := mkNearby {
  nr_id : uuid;
  nr_name : string;
  nr_address : string;
  nr_latitude : option Q;
  nr_longitude : option Q;
  nr_distance_km : option R;
  nr_rating : Q;
  nr_review_count : Z;
  nr_verified : bool;
  nr_verification_status : string
}.

Definition nearby_of (user_lat user_lng : Q) (p : pharmacy) : nearby_row :=
  mkNearby (ph_id p) (ph_name p) (ph_address p) (ph_latitude p)
    (ph_longitude p) (row_distance user_lat user_lng p)
    (coalesce (ph_rating p) 0%Q) (coalesce (ph_review_count p) 0)
    (coalesce (ph_verified p) false)
    (coalesce (ph_verification_status p) "unverified").

(** [sub.distance_km <= radius_km]. *)
Definition within (radius_km : Q) (r : nearby_row) : bool :=
  match nr_distance_km r with
  | Some x => Rleb x (Q2R radius_km)
  | None => false
  end.

Definition get_nearby_pharmacies (d : db) (user_lat user_lng radius_km : Q)
  : list nearby_row :=
  order_by (fun a b => distance_leb (nr_distance_km a) (nr_distance_km b))
    (filter (within radius_km)
       (map (nearby_of user_lat user_lng)
          (filter located_and_verified (pharmacies d)))).

(** *** ILIKE *)

Definition lower (c : ascii) : ascii :=
  let n := nat_of_ascii c in
  if (Nat.leb 65 n && Nat.leb n 90)%bool then ascii_of_nat (n + 32) else c.

Definition same_letter (a b : ascii) : bool := Ascii.eqb (lower a) (lower b).

(** Text within ASCII, where a character is one byte and [lower] folds
    every letter. *)
Definition ascii_text (s : string) : bool :=
  forallb (fun c => Nat.ltb (nat_of_ascii c) 128) (list_ascii_of_string s).

(** [s ILIKE pat]: [%] stands for any run of characters, [_] for one
    character, a backslash takes the next character literally; letters
    compare without case.  A character is a byte here and letters fold as
    [lower] folds them, which is the server's reading of a pattern and a
    name within ASCII ([ascii_text]).  A pattern ending in a lone backslash
    is refused by the server, so no row comes back for it. *)
Fixpoint ilike (pat : string) : string -> bool :=
  match pat with
  | EmptyString =>
      fun s => match s with EmptyString => true | String _ _ => false end
  | String c pat' =>
      if Ascii.eqb c "%" then
        fix any (s : string) : bool :=
          (ilike pat' s
           || match s with
              | EmptyString => false
              | String _ s' => any s'
              end)%bool
      else if Ascii.eqb c "_" then
        fun s => match s with
                 | EmptyString => false
                 | String _ s' => ilike pat' s'
                 end
      else if Ascii.eqb c "\" then
        match pat' with
        | EmptyString => fun _ => false
        | String e pat'' =>
            fun s => match s with
                     | EmptyString => false
                     | String a s' => (same_letter e a && ilike pat'' s')%bool
                     end
        end
      else
        fun s => match s with
                 | EmptyString => false
                 | String a s' => (same_letter c a && ilike pat' s')%bool
                 end
  end.

Record availability_row : Type := mkAvailability {
  ar_pharmacy_id : uuid;
  ar_pharmacy_name : string;
  ar_pharmacy_address : string;
  ar_latitude : option Q;
  ar_longitude : option Q;
  ar_distance_km : option R;
  ar_rating : Q;
  ar_review_count : Z;
  ar_price : option Q;
  ar_stock : option Z;
  ar_verified : option bool
}.

(** [m.stock > 0]. *)
Definition in_stock (m : medicine) : bool :=
  match med_stock m with
  | Some s => 0 <? s
  | None => false
  end.

(** The [WHERE] clause on one joined pair. *)
Definition available (search_name : string) (m : medicine) (p : pharmacy)
  : bool :=
  (ilike search_name (med_name m) && in_stock m && located_and_verified p)%bool.

Definition availability_of (user_lat user_lng : Q) (m : medicine)
  (p : pharmacy) : availability_row :=
  mkAvailability (ph_id p) (ph_name p) (ph_address p) (ph_latitude p)
    (ph_longitude p) (row_distance user_lat user_lng p)
    (coalesce (ph_rating p) 0%Q) (coalesce (ph_review_count p) 0)
    (med_selling_price m) (med_stock m) (ph_verified p).

(** [medicines m JOIN pharmacies p ON m.pharmacy_id = p.id]. *)
Definition joined (d : db) : list (medicine * pharmacy) :=
  flat_map (fun m =>
    map (fun p => (m, p))
      (filter (fun p => eq_uuid (med_pharmacy_id m) (ph_id p)) (pharmacies d)))
    (medicines d).

(** [radius_km] is a parameter of the routine that its body never reads. *)
Definition get_medicine_availability (d : db) (search_name : string)
  (user_lat user_lng radius_km : Q) : list availability_row :=
  order_by (fun a b => distance_leb (ar_distance_km a) (ar_distance_km b))
    (map (fun mp => availability_of user_lat user_lng (fst mp) (snd mp))
       (filter (fun mp => available search_name (fst mp) (snd mp))
          (joined d))).

End Geo.

(** ** The distance expression as the server evaluates it

    [float] columns and arguments are [float8], IEEE binary64, and so are
    Rocq's primitive floats: products, sums and differences round as the
    server's do.  The cosine, sine and arc cosine are those of the math
    library of the platform; an error of the server, of whatever kind, is
    [None]. *)

Module Float8.
Import SpecFloat PrimFloat FloatOps.

Record libm : Type := mkLibm {
  cos : float -> float;
  sin : float -> float;
  acos : float -> float
}.

(** [isnan], [isinf] and the test against 0.0 of C. *)
Definition isnan (x : float) : bool :=
  match Prim2SF x with S754_nan => true | _ => false end.

Definition isinf (x : float) : bool :=
  match Prim2SF x with S754_infinity _ => true | _ => false end.

Definition iszero (x : float) : bool :=
  match Prim2SF x with S754_zero _ => true | _ => false end.

Definition bind {A B : Type} (x : option A) (f : A -> option B) : option B :=
  match x with
  | Some v => f v
  | None => None
  end.

(** [float8_mul]: the product, refused when it overflows or underflows. *)
Definition float8_mul (val1 val2 : float) : option float :=
  let result := (val1 * val2)%float in
  if (isinf result && negb (isinf val1) && negb (isinf val2))%bool then None
  else if (iszero result && negb (iszero val1) && negb (iszero val2))%bool
       then None
       else Some result.

(** [float8_pl] and [float8_mi]: refused when the result overflows. *)
Definition float8_pl (val1 val2 : float) : option float :=
  let result := (val1 + val2)%float in
  if (isinf result && negb (isinf val1) && negb (isinf val2))%bool then None
  else Some result.

Definition float8_mi (val1 val2 : float) : option float :=
  let result := (val1 - val2)%float in
  if (isinf result && negb (isinf val1) && negb (isinf val2))%bool then None
  else Some result.

(** [RADIANS_PER_DEGREE], 0.0174532925199432957692 as a double. *)
Definition radians_per_degree : float := 0x1.1df46a2529d39p-6%float.

Definition radians (arg1 : float) : option float :=
  float8_mul arg1 radians_per_degree.

(** [cos] and [sin] of SQL: a NaN is handed back, an infinite argument and
    an infinite result are refused. *)
Definition dcos (L : libm) (arg1 : float) : option float :=
  if isnan arg1 then Some nan
  else if isinf arg1 then None
  else if isinf (cos L arg1) then None
  else Some (cos L arg1).

Definition dsin (L : libm) (arg1 : float) : option float :=
  if isnan arg1 then Some nan
  else if isinf arg1 then None
  else if isinf (sin L arg1) then None
  else Some (sin L arg1).

(** [acos] of SQL: an argument outside [-1, 1] is refused. *)
Definition dacos (L : libm) (arg1 : float) : option float :=
  if isnan arg1 then Some nan
  else if ((arg1 <? -1) || (1 <? arg1))%float then None
  else if isinf (acos L arg1) then None
  else Some (acos L arg1).

(** The order of [float8]: a NaN is above every number. *)
Definition float8_lt (a b : float) : bool :=
  if isnan a then false else if isnan b then true else (a <? b)%float.

(** [least(a, b)] and [greatest(a, b)] on values that are not [NULL]. *)
Definition least (a b : float) : float := if float8_lt b a then b else a.
Definition greatest (a b : float) : float := if float8_lt a b then b else a.

(** The operators on operands that may have failed. *)
Definition times (x y : option float) : option float :=
  bind x (fun a => bind y (fun b => float8_mul a b)).

Definition plus (x y : option float) : option float :=
  bind x (fun a => bind y (fun b => float8_pl a b)).

Definition minus (x y : option float) : option float :=
  bind x (fun a => bind y (fun b => float8_mi a b)).

(** The distance expression of the two routines. *)
Definition distance_km (L : libm) (user_lat user_lng latitude longitude : float)
  : option float :=
  times (Some 6371%float)
    (bind
       (option_map (fun t => least 1 (greatest (-1) t))
          (plus
             (times
                (times (bind (radians user_lat) (dcos L))
                       (bind (radians latitude) (dcos L)))
                (bind (minus (radians longitude) (radians user_lng))
                      (dcos L)))
             (times (bind (radians user_lat) (dsin L))
                    (bind (radians latitude) (dsin L)))))
       (dacos L)).

(** *** A math library that rounds correctly

    Each function is evaluated in fixed point, to [places] binary places,
    and rounded to the nearest double.  The math library of a platform
    promises results within one unit in the last place and returns this
    value wherever its result is correctly rounded. *)

Definition places : Z := 192.
Definition reduction_places : Z := 1280.

(** The magnitude of a finite double, in units of [2^-k]; [k] is at least
    1074, so nothing is lost. *)
Definition magnitude (k : Z) (x : spec_float) : Z :=
  match x with
  | S754_finite _ m e => Z.shiftl (Zpos m) (e + k)
  | _ => 0
  end.

(** The nearest double to [v * 2^-k]. *)
Definition nearest (k : Z) (v : Z) : float :=
  SF2Prim (binary_normalize prec emax v (- k) false).

(** [atan(1/n)] by its power series, and pi by Machin's formula. *)
Fixpoint atan_inv_loop (fuel : nat) (n2 term i : Z) (minus : bool) (acc : Z)
  : Z :=
  match fuel with
  | O => acc
  | S fuel' =>
      atan_inv_loop fuel' n2 (term / n2) (i + 2) (negb minus)
        (if minus then acc - term / i else acc + term / i)
  end.

Definition atan_inv (k n : Z) : Z :=
  atan_inv_loop 320 (n * n) (Z.shiftl 1 k / n) 1 false 0.

Definition pi_scaled (k : Z) : Z :=
  Z.shiftr (16 * atan_inv (k + 32) 5 - 4 * atan_inv (k + 32) 239) 32.

(** The angle in (-pi, pi] that differs from a magnitude by a multiple of
    2 pi, to [places] places. *)
Definition reduced (x : spec_float) : Z :=
  let two_pi := 2 * pi_scaled reduction_places in
  let r := (magnitude reduction_places x) mod two_pi in
  Z.shiftr (if two_pi / 2 <? r then r - two_pi else r)
           (reduction_places - places).

Fixpoint series (fuel : nat) (r2 term i acc : Z) : Z :=
  match fuel with
  | O => acc
  | S fuel' =>
      let term' := - (Z.shiftr (term * r2) places / (i * (i + 1))) in
      series fuel' r2 term' (i + 2) (acc + term')
  end.

Definition cos_fixed (r : Z) : Z :=
  series 50 (Z.shiftr (r * r) places) (Z.shiftl 1 places) 1
         (Z.shiftl 1 places).

Definition sin_fixed (r : Z) : Z :=
  series 50 (Z.shiftr (r * r) places) r 2 r.

(** The cosine takes the magnitude of its argument only. *)
Definition cos_of (x : spec_float) : float :=
  match x with
  | S754_nan | S754_infinity _ => nan
  | S754_zero _ => 1%float
  | S754_finite _ _ _ => nearest places (cos_fixed (reduced x))
  end.

(** The sine of the magnitude, with the sign of the argument; below
    [2^-27] the sine of a double is that double. *)
Definition sin_of (x : spec_float) : float :=
  match x with
  | S754_nan | S754_infinity _ => nan
  | S754_zero _ => SF2Prim x
  | S754_finite s m e =>
      if Z.shiftr (magnitude reduction_places x) (reduction_places - 27) =? 0
      then SF2Prim x
      else let v := nearest places (sin_fixed (reduced x)) in
           if s then (- v)%float else v
  end.

(** [asin(y)] by its power series, for [y] up to the square root of
    one half. *)
Fixpoint asin_loop (fuel : nat) (y2 term i acc : Z) : Z :=
  match fuel with
  | O => acc
  | S fuel' =>
      let term' := Z.shiftr (term * y2) places * i / (i + 1) in
      asin_loop fuel' y2 term' (i + 2) (acc + term' / (i + 2))
  end.

Definition asin_fixed (y : Z) : Z :=
  asin_loop 240 (Z.shiftr (y * y) places) y 1 y.

(** [acos(t)] as twice the arc sine of the square root of [(1 - t) / 2],
    and as pi less that of [- t] below 0. *)
Definition acos_of (x : spec_float) : float :=
  let one := Z.shiftl 1 places in
  let t := match x with
           | S754_finite s m e =>
               (if s then Z.opp else fun v => v) (Z.shiftl (Zpos m) (e + places))
           | _ => 0
           end in
  match x with
  | S754_nan | S754_infinity _ => nan
  | _ =>
      if one <? Z.abs t then nan
      else
        let y := Z.sqrt (Z.shiftl ((one - Z.abs t) / 2) places) in
        let a := 2 * asin_fixed y in
        nearest places (if t <? 0 then pi_scaled places - a else a)
  end.

Definition correctly_rounded : libm :=
  mkLibm (fun x => cos_of (Prim2SF x)) (fun x => sin_of (Prim2SF x))
         (fun x => acos_of (Prim2SF x)).

End Float8.

(** ** The client: screens that call the routines *)

Module Client.
Import Sql Schema Geo.

(** [{lat: number, lng: number}]; the screen holds [null] until the device
    reports a position. *)
Record coordinates : Type := mkCoordinates {
  lat : Q;
  lng : Q
}.

(** [x || 0] on a number that may be missing. *)
Definition or_zero (x : option Q) : Q :=
  match x with
  | Some q => if Qeq_bool q 0 then 0%Q else q
  | None => 0%Q
  end.

Definition or_zeroZ (x : option Z) : Z :=
  match x with
  | Some z => z
  | None => 0
  end.

Inductive StockStatus : Type := InStock | LowStock | OutOfStock.

Definition StockStatus_eqb (a b : StockStatus) : bool :=
  match a, b with
  | InStock, InStock | LowStock, LowStock | OutOfStock, OutOfStock => true
  | _, _ => false
  end.

(** The [Pharmacy] interface, with the members the two lists fill in. *)
Record Pharmacy : Type := mkPharmacyView {
  id : string;
  name : string;
  address : string;
  latitude : option Q;
  longitude : option Q;
  distance : option R;
  rating : Q;
  reviewCount : Z;
  price : option Q;
  stock : option Z;
  stockStatus : option StockStatus;
  verified : option bool;
  verification_status : option string
}.

(** *** MedicineDetail: fetchPharmacies *)

Inductive sort_by : Type := nearest | cheapest | by_rating.
Inductive stock_filter : Type := all | only (s : StockStatus).

(** [p.stock > 10 ? 'In Stock' : (p.stock > 0 ? 'Low Stock' : 'Out of Stock')] *)
Definition stock_status (s : option Z) : StockStatus :=
  match s with
  | Some n => if 10 <? n then InStock else if 0 <? n then LowStock
              else OutOfStock
  | None => OutOfStock
  end.

Definition view_of_availability (p : availability_row) : Pharmacy :=
  mkPharmacyView (ar_pharmacy_id p) (ar_pharmacy_name p)
    (ar_pharmacy_address p)
    (Some (or_zero (ar_latitude p))) (Some (or_zero (ar_longitude p)))
    (ar_distance_km p) (or_zero (Some (ar_rating p)))
    (ar_review_count p) (ar_price p) (ar_stock p)
    (Some (stock_status (ar_stock p))) None None.

(** [a.distance || 99999]. *)
Definition distance_or_far (x : option R) : R :=
  match x with
  | Some r => if Req_dec_T r 0 then 99999%R else r
  | None => 99999%R
  end.

(** A comparator [cmp] puts [a] no later than [b] when [cmp(a, b) <= 0]. *)
Definition sort_leb (s : sort_by) (a b : Pharmacy) : bool :=
  match s with
  | nearest => Rleb (distance_or_far (distance a)) (distance_or_far (distance b))
  | cheapest => Qle_bool (coalesce (price a) 0%Q) (coalesce (price b) 0%Q)
  | by_rating => Qle_bool (rating b) (rating a)
  end.

Definition keep (f : stock_filter) (p : Pharmacy) : bool :=
  match f, stockStatus p with
  | all, _ => true
  | only s, Some t => StockStatus_eqb t s
  | only _, None => false
  end.

(** The position sent to the server. *)
Definition sent_lat (userCoordinates : option coordinates) : Q :=
  or_zero (option_map lat userCoordinates).

Definition sent_lng (userCoordinates : option coordinates) : Q :=
  or_zero (option_map lng userCoordinates).

(** [fetchPharmacies]: the list handed to [setPharmacies]. *)
Definition fetchPharmacies (d : db) (userCoordinates : option coordinates)
  (medicine_name : string) (sortBy : sort_by) (stockFilter : stock_filter)
  : list Pharmacy :=
  let data := get_medicine_availability d medicine_name
                (sent_lat userCoordinates) (sent_lng userCoordinates) 50%Q in
  order_by (sort_leb sortBy)
    (filter (keep stockFilter) (map view_of_availability data)).

(** *** App: fetchNearbyStores *)

Definition view_of_nearby (p : nearby_row) : Pharmacy :=
  mkPharmacyView (nr_id p) (nr_name p) (nr_address p) (nr_latitude p)
    (nr_longitude p) (nr_distance_km p) (nr_rating p) (nr_review_count p)
    None None None (Some (nr_verified p)) (Some (nr_verification_status p)).

(** [fetchNearbyStores]: the new [nearbyPharmacies] and [nearbyStoreCount]. *)
Definition fetchNearbyStores (d : db) (userCoordinates : option coordinates)
  : list Pharmacy * nat :=
  let data := get_nearby_pharmacies d (sent_lat userCoordinates)
                (sent_lng userCoordinates) 50%Q in
  (map view_of_nearby data,
   List.length (nodup string_dec (map nr_id data))).

End Client.

(** ** Home: the catalogue shown to a consumer *)

Module Catalog.
Import Sql.

(** The [Medicine] interface, with the members [localMedicines] reads or
    writes; the other members ride along untouched. *)
Record Medicine : Type := mkMedicineView {
  id : string;
  name : string;
  pharmacyId : option string;
  sellingPrice : option Q;
  stock : option Z;
  availableStores : option Z
}.

Definition with_availableStores (m : Medicine) (n : Z) : Medicine :=
  mkMedicineView (id m) (name m) (pharmacyId m) (sellingPrice m) (stock m)
                 (Some n).

(** [m.sellingPrice || 0]. *)
Definition price_or_zero (m : Medicine) : Q :=
  match sellingPrice m with
  | Some q => if Qeq_bool q 0 then 0%Q else q
  | None => 0%Q
  end.

(** [x.availableStores || 1]. *)
Definition stores_or_one (m : Medicine) : Z :=
  match availableStores m with
  | Some n => if n =? 0 then 1 else n
  | None => 1
  end.

Definition Qltb (a b : Q) : bool := negb (Qle_bool b a).

(** [unique]: a record keyed by medicine name, kept in the order the keys
    were first written, which is the order [Object.values] lists them in
    for names that are not numerals.  Names the empty record inherits
    ([constructor], [toString] and the like, see [inherited]) are outside
    the model. *)
Definition record := list (string * Medicine).

Fixpoint get (u : record) (k : string) : option Medicine :=
  match u with
  | [] => None
  | (k', v) :: u' => if String.eqb k' k then Some v else get u' k
  end.

Fixpoint put (u : record) (k : string) (v : Medicine) : record :=
  match u with
  | [] => [(k, v)]
  | (k', v') :: u' =>
      if String.eqb k' k then (k, v) :: u' else (k', v') :: put u' k v
  end.

(** The keys a record answers to before anything is written to it: the
    members of [Object.prototype]. *)
Definition inherited : list string :=
  ["constructor"; "hasOwnProperty"; "isPrototypeOf"; "propertyIsEnumerable";
   "toLocaleString"; "toString"; "valueOf"; "__proto__";
   "__defineGetter__"; "__defineSetter__"; "__lookupGetter__";
   "__lookupSetter__"].

(** A name the record holds only once it has been written. *)
Definition own_name (n : string) : bool :=
  negb (existsb (String.eqb n) inherited).

(** The body of [filtered.forEach(m => ...)]. *)
Definition visit (unique : record) (m : Medicine) : record :=
  match get unique (name m) with
  | None => put unique (name m) (with_availableStores m 1)
  | Some cur =>
      let counted := with_availableStores cur (stores_or_one cur + 1) in
      if Qltb (price_or_zero m) (price_or_zero counted)
      then put unique (name m)
             (with_availableStores m (stores_or_one cur + 1))
      else put unique (name m) counted
  end.

(** The de-duplication of [localMedicines]: one pass over the listings,
    then [Object.values(unique)]. *)
Definition aggregateCatalog (filtered : list Medicine) : list Medicine :=
  map snd (fold_left visit filtered []).

(** [m.pharmacyId && nearbyIds.has(m.pharmacyId)]. *)
Definition is_nearby (nearbyIds : list string) (m : Medicine) : bool :=
  match pharmacyId m with
  | Some i => negb (String.eqb i "") && existsb (String.eqb i) nearbyIds
  | None => false
  end.

(** [localMedicines], from the listings on hand and the identifiers of the
    pharmacies in range. *)
Definition localMedicines (medicines : list Medicine)
  (nearbyPharmacies : list string) : list Medicine :=
  match medicines, nearbyPharmacies with
  | _ :: _, [] => medicines
  | [], _ => []
  | _, _ =>
      aggregateCatalog (filter (is_nearby nearbyPharmacies) medicines)
  end.

(** The listings of a name, and the pharmacies that carry it. *)
Definition group (filtered : list Medicine) (n : string) : list Medicine :=
  filter (fun m => String.eqb (name m) n) filtered.

Definition pharmacyId_dec (a b : option string) : {a = b} + {a <> b}.
Proof. decide equality; apply string_dec. Defined.

Definition carriers (filtered : list Medicine) (n : string)
  : list (option string) :=
  nodup pharmacyId_dec (map pharmacyId (group filtered n)).

(** What the record holds once the listings [seen] have been visited: one
    entry per name met; the entry is one of the listings of that name, at
    the lowest price of the group, and its counter is the size of the
    group. *)
Definition entry_of (seen : list Medicine) (k : string) (v : Medicine)
  : Prop :=
  name v = k
  /\ (exists m, In m (group seen k)
        /\ v = with_availableStores m (Z.of_nat (List.length (group seen k))))
  /\ forall m, In m (group seen k) -> (price_or_zero v <= price_or_zero m)%Q.

Definition summarises (seen : list Medicine) (u : record) : Prop :=
  NoDup (map fst u)
  /\ (forall k, In k (map fst u) <-> In k (map name seen))
  /\ forall k v, In (k, v) u -> entry_of seen k v.

End Catalog.

(** ** PrescriptionUpload: matching a prescription *)

Module Prescription.
Import Sql Schema Geo.

Record PrescriptionItem : Type := mkPrescriptionItem {
  name : string;
  category : option string;
  dosagePattern : string;
  days : Z;
  quantity : Z
}.

(** One element of the [items] argument: [{ name, qty }]. *)
Record requested : Type := mkRequested {
  rq_name : string;
  rq_qty : Z
}.

(** One row of the answer, with the columns [findShops] reads. *)
Record match_row : Type := mkMatch {
  mr_pharmacy_id : uuid;
  mr_pharmacy_name : string;
  mr_pharmacy_address : string;
  mr_total_cost : Q;
  mr_distance_km : option R
}.

Definition lower_text (s : string) : string :=
  string_of_list_ascii (map lower (list_ascii_of_string s)).

(** Modelled from the spec: the matching routine is not among the database
    routines of the repository; this and the next definitions are its
    parts.  Names match by literal equality, without case. *)
Definition same_name (a b : string) : bool :=
  String.eqb (lower_text a) (lower_text b).

(** Modelled from the spec: part of the missing matching routine.  A
    listing of pharmacy [p] covers a requested item when it has the name of
    the item and a quantity at least the requested one. *)
Definition covers (p : pharmacy) (it : requested) (m : medicine) : bool :=
  (eq_uuid (med_pharmacy_id m) (ph_id p)
   && same_name (med_name m) (rq_name it)
   && match med_stock m with
      | Some s => rq_qty it <=? s
      | None => false
      end)%bool.

(** Modelled from the spec: part of the missing matching routine.  The
    listing a pharmacy fills an item from: the first one that covers it. *)
Definition listing_for (d : db) (p : pharmacy) (it : requested)
  : option medicine :=
  find (covers p it) (medicines d).

(** Modelled from the spec: part of the missing matching routine.  The
    unit price of a listing. *)
Definition unit_price (m : medicine) : Q := coalesce (med_selling_price m) 0%Q.

(** Modelled from the spec: part of the missing matching routine.  The
    cost of the whole request at one pharmacy; [None] as soon as one item is
    missing or short. *)
Fixpoint total_cost (d : db) (p : pharmacy) (items : list requested)
  : option Q :=
  match items with
  | [] => Some 0%Q
  | it :: rest =>
      match listing_for d p it, total_cost d p rest with
      | Some m, Some c => Some (unit_price m * inject_Z (rq_qty it) + c)%Q
      | _, _ => None
      end
  end.

(** The words of the policy: a pharmacy can supply one item in full when it
    holds a listing of that name with at least the requested quantity. *)
Definition supplies (d : db) (p : pharmacy) (it : requested) : Prop :=
  exists m, In m (medicines d)
    /\ med_pharmacy_id m = Some (ph_id p)
    /\ same_name (med_name m) (rq_name it) = true
    /\ exists s, med_stock m = Some s /\ rq_qty it <= s.

(** The price a pharmacy asks for one item: that of its listing that
    covers the item. *)
Definition price_at (d : db) (p : pharmacy) (it : requested) : Q :=
  match listing_for d p it with
  | Some m => unit_price m
  | None => 0%Q
  end.

Definition sum_of_lines (d : db) (p : pharmacy) (items : list requested) : Q :=
  fold_right (fun it acc => (price_at d p it * inject_Z (rq_qty it) + acc)%Q)
    0%Q items.

(** Modelled from the spec: part of the missing matching routine.  The row
    of a pharmacy that qualifies; no row for one that does not. *)
Definition match_of (d : db) (items : list requested) (user_lat user_lng : Q)
  (p : pharmacy) : list match_row :=
  match total_cost d p items with
  | Some c => [mkMatch (ph_id p) (ph_name p) (ph_address p) c
                 (row_distance user_lat user_lng p)]
  | None => []
  end.

(** Modelled from the spec: the routine [find_pharmacies_for_prescription]
    that [findShops] calls is not among the database routines of the
    repository.  All-or-nothing fulfilment: a pharmacy is in the answer only
    if for every requested item it holds a listing with quantity at least
    the requested quantity; its total cost is the sum over the items of unit
    price times requested quantity at its own prices; rows come with their
    distance, nearest first. *)
Definition find_pharmacies_for_prescription (d : db) (items : list requested)
  (user_lat user_lng : Q) : list match_row :=
  order_by (fun a b => distance_leb (mr_distance_km a) (mr_distance_km b))
    (flat_map (match_of d items user_lat user_lng) (pharmacies d)).

Record PrescriptionShopResult : Type := mkShop {
  pharmacyId : string;
  shop_name : string;
  address : string;
  totalCost : Q;
  distance : option R
}.

Inductive outcome : Type :=
| EnableLocation
| AddMedicineName
| Compare (shops : list PrescriptionShopResult).

(** White space that [trim] strips, within ASCII. *)
Definition is_space (c : ascii) : bool :=
  let n := nat_of_ascii c in
  (Nat.eqb n 32 || (Nat.leb 9 n && Nat.leb n 13))%bool.

(** [i.name.trim() !== '']. *)
Definition has_name (i : PrescriptionItem) : bool :=
  negb (forallb is_space (list_ascii_of_string (name i))).

(** [findShops], from the position on hand and the items on the screen. *)
Definition findShops (d : db) (userCoordinates : option Client.coordinates)
  (detectedItems : list PrescriptionItem) : outcome :=
  match userCoordinates with
  | None => EnableLocation
  | Some c =>
      let validItems := filter has_name detectedItems in
      match validItems with
      | [] => AddMedicineName
      | _ :: _ =>
          let searchPayload :=
            map (fun i => mkRequested (name i) (quantity i)) validItems in
          Compare
            (map (fun s => mkShop (mr_pharmacy_id s) (mr_pharmacy_name s)
                             (mr_pharmacy_address s) (mr_total_cost s)
                             (mr_distance_km s))
               (find_pharmacies_for_prescription d searchPayload
                  (Client.lat c) (Client.lng c)))
      end
  end.

End Prescription.

(** ** MedicineDetail: the picture carousel *)

Module Carousel.

(** [medicine.images && medicine.images.length > 0 ? medicine.images
    : [medicine.imageUrl]]. *)
Definition images_of (images : option (list string)) (imageUrl : string)
  : list string :=
  match images with
  | Some (x :: l) => x :: l
  | _ => [imageUrl]
  end.

(** The state the handlers share: the picture shown and the two ends of
    the touch in progress ([clientX], or [null]). *)
Record state : Type := mkState {
  currentImageIndex : Z;
  touchStart : option Q;
  touchEnd : option Q
}.

(** [(prev + 1) % images.length]; [%] keeps the sign of its left side. *)
Definition nextImage (images : list string) (s : state) : state :=
  mkState (Z.rem (currentImageIndex s + 1) (Z.of_nat (List.length images)))
          (touchStart s) (touchEnd s).

(** [(prev - 1 + images.length) % images.length]. *)
Definition prevImage (images : list string) (s : state) : state :=
  mkState (Z.rem (currentImageIndex s - 1 + Z.of_nat (List.length images))
                 (Z.of_nat (List.length images)))
          (touchStart s) (touchEnd s).

Definition minSwipeDistance : Q := 50.

Definition onTouchStart (clientX : Q) (s : state) : state :=
  mkState (currentImageIndex s) (Some clientX) None.

Definition onTouchMove (clientX : Q) (s : state) : state :=
  mkState (currentImageIndex s) (touchStart s) (Some clientX).

(** [!x] on a coordinate that may be [null]: true for [null] and for 0. *)
Definition falsy (x : option Q) : bool :=
  match x with
  | Some q => Qeq_bool q 0
  | None => true
  end.

Definition onTouchEnd (images : list string) (s : state) : state :=
  if (falsy (touchStart s) || falsy (touchEnd s))%bool then s
  else
    let distance := (Client.or_zero (touchStart s)
                     - Client.or_zero (touchEnd s))%Q in
    let isLeftSwipe := Catalog.Qltb minSwipeDistance distance in
    let isRightSwipe := Catalog.Qltb distance (- minSwipeDistance)%Q in
    let s1 := if isLeftSwipe then nextImage images s else s in
    if isRightSwipe then prevImage images s1 else s1.

Inductive event : Type :=
| Next
| Prev
| TouchStart (clientX : Q)
| TouchMove (clientX : Q)
| TouchEnd.

Definition handle (images : list string) (s : state) (ev : event) : state :=
  match ev with
  | Next => nextImage images s
  | Prev => prevImage images s
  | TouchStart x => onTouchStart x s
  | TouchMove x => onTouchMove x s
  | TouchEnd => onTouchEnd images s
  end.

(** The state a fresh screen starts from. *)
Definition initial : state := mkState 0 None None.

(** [images[currentImageIndex]]. *)
Definition shown (images : list string) (s : state) : option string :=
  if currentImageIndex s <? 0 then None
  else nth_error images (Z.to_nat (currentImageIndex s)).

(** The picture index points into the list. *)
Definition in_range (images : list string) (s : state) : Prop :=
  0 <= currentImageIndex s < Z.of_nat (List.length images).

End Carousel.

(** ** App: following the position of the device *)

Module Location.
Import Client.

Record state : Type := mkState {
  prevCoordsRef : option coordinates;
  userCoordinates : option coordinates;
  locationName : string
}.

(** [!prev || Math.abs(prev.lat - lat) > t || Math.abs(prev.lng - lng) > t] *)
Definition isSignificant (t : Q) (prev : option coordinates) (la lo : Q)
  : bool :=
  match prev with
  | None => true
  | Some p => (Catalog.Qltb t (Qabs (lat p - la))
               || Catalog.Qltb t (Qabs (lng p - lo)))%bool
  end.

(** The success callback of [watchPosition], threshold 0.0002. *)
Definition onPosition (s : state) (latitude longitude : Q) : state :=
  if isSignificant 0.0002 (prevCoordsRef s) latitude longitude
  then mkState (Some (mkCoordinates latitude longitude))
               (Some (mkCoordinates latitude longitude)) (locationName s)
  else s.

(** [updateLocationState], threshold 0.0001; the copy it sends to the
    profile of the user is not part of the state here. *)
Definition updateLocationState (s : state) (la lo : Q) (address : string)
  : state :=
  if isSignificant 0.0001 (prevCoordsRef s) la lo
  then mkState (Some (mkCoordinates la lo)) (Some (mkCoordinates la lo))
               address
  else s.

(** The part of [fetchUserProfile] that reads the stored position:
    [if (data.latitude && data.longitude)] and [if (data.address)]. *)
Definition fromProfile (s : state) (latitude longitude : option Q)
  (address : option string) : state :=
  let s1 :=
    match latitude, longitude with
    | Some la, Some lo =>
        if (Qeq_bool la 0 || Qeq_bool lo 0)%bool then s
        else mkState (Some (mkCoordinates la lo))
                     (Some (mkCoordinates la lo)) (locationName s)
    | _, _ => s
    end in
  match address with
  | Some a => if String.eqb a "" then s1
              else mkState (prevCoordsRef s1) (userCoordinates s1) a
  | None => s1
  end.

Inductive event : Type :=
| Position (latitude longitude : Q)
| Located (la lo : Q) (address : string)
| Profile (latitude longitude : option Q) (address : option string).

Definition handle (s : state) (ev : event) : state :=
  match ev with
  | Position la lo => onPosition s la lo
  | Located la lo a => updateLocationState s la lo a
  | Profile la lo a => fromProfile s la lo a
  end.

Definition initial : state := mkState None None "Detecting Location...".

End Location.

(** ** SalesBilling and AdminDashboard: the counter of the shop *)

Module Pos.

(** The [Medicine] interface, with the members the billing screen reads. *)
Record Medicine : Type := mkMedicine {
  id : string;
  name : string;
  stock : option Z;
  sellingPrice : option Q;
  gstPercentage : option Q
}.

(** [CartItem]: the medicine it was made from, and the members of the
    line. *)
Record CartItem : Type := mkCartItem {
  medicine : Medicine;
  quantity : Z;
  price : Q;
  taxableAmount : Q;
  gstAmount : Q;
  total : Q
}.

(** [item.id]: a line keeps the key of its medicine. *)
Definition line_id (item : CartItem) : string := id (medicine item).

(** [m.stock || 0]. *)
Definition stock_or_zero (m : Medicine) : Z :=
  match stock m with
  | Some z => z
  | None => 0
  end.

(** [m.sellingPrice || 0]. *)
Definition price_or_zero (m : Medicine) : Q := Client.or_zero (sellingPrice m).

(** [(g || 12) / 100]: a missing rate and a rate of 0 both count as 12. *)
Definition gstDecimal (g : option Q) : Q :=
  (match g with
   | Some q => if Qeq_bool q 0 then 12 else q
   | None => 12
   end / 100)%Q.

Definition with_quantity (item : CartItem) (q : Z) : CartItem :=
  mkCartItem (medicine item) q (price item) (taxableAmount item)
             (gstAmount item) (price item * inject_Z q)%Q.

(** [medicine.sellingPrice ? medicine.sellingPrice / (1 + gstDecimal) : 0] *)
Definition initialTaxable (m : Medicine) : Q :=
  match sellingPrice m with
  | Some p => if Qeq_bool p 0 then 0%Q
              else (p / (1 + gstDecimal (gstPercentage m)))%Q
  | None => 0%Q
  end.

Definition new_line (m : Medicine) : CartItem :=
  mkCartItem m 1 (price_or_zero m) (initialTaxable m)
             (price_or_zero m - initialTaxable m)%Q (price_or_zero m).

(** [addToCart]: the cart it leaves. *)
Definition addToCart (m : Medicine) (cart : list CartItem) : list CartItem :=
  if stock_or_zero m <=? 0 then cart
  else
    match find (fun item => String.eqb (line_id item) (id m)) cart with
    | Some existing =>
        if stock_or_zero m <=? quantity existing then cart
        else map (fun item =>
                    if String.eqb (line_id item) (id m)
                    then with_quantity item (quantity item + 1)
                    else item) cart
    | None => cart ++ [new_line m]
    end.

(** [updateQuantity]: [inventory] is the stock list of the screen. *)
Definition updateQuantity (inventory : list Medicine) (i : string) (delta : Z)
  (cart : list CartItem) : list CartItem :=
  map (fun item =>
         if String.eqb (line_id item) i
         then
           let maxStock :=
             match find (fun m => String.eqb (id m) i) inventory with
             | Some med => stock_or_zero med
             | None => 0
             end in
           let newQty := Z.max 1 (quantity item + delta) in
           if ((0 <? delta) && (maxStock <? newQty))%bool then item
           else with_quantity item newQty
         else item) cart.

Definition removeFromCart (i : string) (cart : list CartItem) : list CartItem :=
  filter (fun item => negb (String.eqb (line_id item) i)) cart.

(** What the clerk does to a cart. *)
Inductive action : Type :=
| Add (m : Medicine)
| Update (i : string) (delta : Z)
| Remove (i : string).

Definition act (inventory : list Medicine) (cart : list CartItem)
  (a : action) : list CartItem :=
  match a with
  | Add m => addToCart m cart
  | Update i delta => updateQuantity inventory i delta cart
  | Remove i => removeFromCart i cart
  end.

(** The stock the screen shows for key [i]. *)
Definition shown_stock (inventory : list Medicine) (i : string) : Z :=
  match find (fun m => String.eqb (id m) i) inventory with
  | Some med => stock_or_zero med
  | None => 0
  end.

(** The medicines offered for adding are those of the stock list, each
    under its own key. *)
Definition offered (inventory : list Medicine) (a : action) : Prop :=
  match a with
  | Add m => find (fun x => String.eqb (id x) (id m)) inventory = Some m
  | _ => True
  end.

(** A cart in order: one line per medicine, each line for at least one
    unit and at most the stock shown, its total the price times the
    quantity. *)
Definition in_order (inventory : list Medicine) (cart : list CartItem)
  : Prop :=
  NoDup (map line_id cart)
  /\ forall item, In item cart ->
       1 <= quantity item <= shown_stock inventory (line_id item)
       /\ (total item == price item * inject_Z (quantity item))%Q.

(** The update of the stock list in [handleAddSale], once the sale is
    confirmed: [Math.max(0, (invItem.stock || 0) - soldItem.quantity)]. *)
Definition take (inventory : list Medicine) (soldItem : CartItem)
  : list Medicine :=
  map (fun invItem =>
         if String.eqb (id invItem) (line_id soldItem)
         then mkMedicine (id invItem) (name invItem)
                (Some (Z.max 0 (stock_or_zero invItem - quantity soldItem)))
                (sellingPrice invItem) (gstPercentage invItem)
         else invItem) inventory.

Definition take_all (inventory : list Medicine) (items : list CartItem)
  : list Medicine :=
  fold_left take items inventory.

(** The stock list shows what the table holds. *)
Definition mirrors (inventory : list Medicine) (d : Schema.db) : Prop :=
  forall m, In m inventory -> stock m = Schema.stock_of d (id m).

(** The cart of the screen and the lines sent to [process_sale] name the
    same listings with the same quantities. *)
Definition sent_as (cart : list CartItem) (items : list Billing.cart_item)
  : Prop :=
  map (fun c => (line_id c, quantity c)) cart
  = map (fun i => (Billing.ci_id i, Billing.ci_quantity i)) items.

(** What one medicine of the stock list becomes when a line is sold. *)
Definition take_one (soldItem : CartItem) (invItem : Medicine) : Medicine :=
  if String.eqb (id invItem) (line_id soldItem)
  then mkMedicine (id invItem) (name invItem)
         (Some (Z.max 0 (stock_or_zero invItem - quantity soldItem)))
         (sellingPrice invItem) (gstPercentage invItem)
  else invItem.

End Pos.

(** ** PrescriptionUpload: the rows of a prescription under edit *)

Module Editing.

(** A [PrescriptionItem] on the screen.  Numbers are exact integers here;
    [quantity] is [None] where the script holds [NaN]. *)
Record Item : Type := mkItem {
  name : string;
  category : option string;
  dosagePattern : string;
  days : Z;
  quantity : option Z
}.

(** The leading white space [parseInt] skips, within ASCII. *)
Fixpoint skip_white (s : list ascii) : list ascii :=
  match s with
  | c :: r => if Prescription.is_space c then skip_white r else s
  | [] => []
  end.

(** The value of a character as a digit of radix [R], if it is one. *)
Definition digit (R : Z) (c : ascii) : option Z :=
  let n := Z.of_nat (nat_of_ascii c) in
  let v := if ((48 <=? n) && (n <=? 57))%bool then Some (n - 48)
           else if ((97 <=? n) && (n <=? 122))%bool then Some (n - 87)
           else if ((65 <=? n) && (n <=? 90))%bool then Some (n - 55)
           else None in
  match v with
  | Some d => if d <? R then Some d else None
  | None => None
  end.

(** The longest run of digits at the head of [s], read in radix [R];
    [acc] is what has been read so far, [None] before the first digit. *)
Fixpoint digits (R : Z) (acc : option Z) (s : list ascii) : option Z :=
  match s with
  | c :: r =>
      match digit R c with
      | Some v => digits R (Some (R * Client.or_zeroZ acc + v)) r
      | None => acc
      end
  | [] => acc
  end.

(** The sign [parseInt] reads, and what follows it. *)
Definition sign_of (s1 : list ascii) : Z * list ascii :=
  match s1 with
  | c :: r => if Ascii.eqb c "-" then (-1, r)
              else if Ascii.eqb c "+" then (1, r) else (1, s1)
  | [] => (1, s1)
  end.

(** The radix [parseInt] settles on when none is given, and what follows
    the prefix. *)
Definition radix_of (s2 : list ascii) : Z * list ascii :=
  match s2 with
  | z :: x :: r =>
      if (Ascii.eqb z "0" && (Ascii.eqb x "x" || Ascii.eqb x "X"))%bool
      then (16, r) else (10, s2)
  | _ => (10, s2)
  end.

(** [parseInt(s)] with no radix given: white space is skipped, a sign is
    read, [0x] or [0X] switches to radix 16, the digits that follow are
    read and the rest is ignored; [None] is [NaN]. *)
Definition parseInt (s : string) : option Z :=
  let s1 := skip_white (list_ascii_of_string s) in
  let '(sign, s2) := sign_of s1 in
  let '(R, s3) := radix_of s2 in
  option_map (Z.mul sign) (digits R None s3).

(** [pattern.includes('-')]. *)
Definition includes_dash (s : string) : bool :=
  existsb (fun c => Ascii.eqb c "-") (list_ascii_of_string s).

(** [pattern.split('-')]. *)
Fixpoint split_dash (s : string) : list string :=
  match s with
  | EmptyString => [EmptyString]
  | String c r =>
      if Ascii.eqb c "-" then EmptyString :: split_dash r
      else match split_dash r with
           | h :: t => String c h :: t
           | [] => [String c EmptyString]
           end
  end.

(** [a + b] on numbers that may be [NaN]. *)
Definition plus (a b : option Z) : option Z :=
  match a, b with
  | Some x, Some y => Some (x + y)
  | _, _ => None
  end.

(** The daily quantity [updateItem] reads off a dosage pattern. *)
Definition dailyQty (pattern : string) : option Z :=
  let parsed :=
    if includes_dash pattern
    then fold_left
           (fun sum n =>
              plus sum (parseInt (if String.eqb n "" then "0" else n)))
           (split_dash pattern) (Some 0)
    else match parseInt pattern with
         | Some q => Some q
         | None => Some 0
         end in
  match parsed with
  | Some q => if q =? 0 then Some 1 else Some q
  | None => None
  end.

(** A field of the row and the value typed into it. *)
Inductive change : Type :=
| Name (value : string)
| Category (value : option string)
| DosagePattern (value : string)
| Days (value : Z)
| Quantity (value : option Z).

(** [{ ...updated[index], [field]: value }]. *)
Definition set (c : change) (item : Item) : Item :=
  match c with
  | Name v => mkItem v (category item) (dosagePattern item) (days item)
                (quantity item)
  | Category v => mkItem (name item) v (dosagePattern item) (days item)
                    (quantity item)
  | DosagePattern v => mkItem (name item) (category item) v (days item)
                         (quantity item)
  | Days v => mkItem (name item) (category item) (dosagePattern item) v
                (quantity item)
  | Quantity v => mkItem (name item) (category item) (dosagePattern item)
                    (days item) v
  end.

(** The row [updateItem] writes back. *)
Definition edited (c : change) (old : Item) : Item :=
  let item := set c old in
  match c with
  | Days _ | DosagePattern _ =>
      mkItem (name item) (category item) (dosagePattern item) (days item)
        (option_map (fun q => q * days item) (dailyQty (dosagePattern item)))
  | _ => item
  end.

(** [updated[index] = item] on an index inside the list. *)
Fixpoint put_at (index : nat) (item : Item) (l : list Item) : list Item :=
  match l, index with
  | [], _ => []
  | _ :: r, O => item :: r
  | x :: r, S i => x :: put_at i item r
  end.

(** [updateItem]: the list handed to [setDetectedItems].  The handlers of
    the screen are bound to the rows of the list; for an index outside it
    the script builds a row with missing members, which is left out here
    ([None]). *)
Definition updateItem (index : nat) (c : change) (detectedItems : list Item)
  : option (list Item) :=
  match nth_error detectedItems index with
  | Some old => Some (put_at index (edited c old) detectedItems)
  | None => None
  end.

(** [prev.filter((_, i) => i !== index)], [i] counting from [from]. *)
Fixpoint removeItem_from (from index : nat) (prev : list Item) : list Item :=
  match prev with
  | [] => []
  | x :: r => if Nat.eqb from index then removeItem_from (S from) index r
              else x :: removeItem_from (S from) index r
  end.

Definition removeItem (index : nat) (prev : list Item) : list Item :=
  removeItem_from 0 index prev.

Definition addNewItem (detectedItems : list Item) : list Item :=
  (detectedItems ++ [mkItem "" (Some "General") "1-0-1" 3 (Some 6)])%list.

End Editing.

(** ** Calls that write to the store *)

Module Engine.
Import Sql Schema.

Inductive call : Type :=
| Sale (e : Billing.sale_env) (a : Billing.sale_args)
| Review (a : Reviews.review_args).

(** The store a call leaves behind, accepted or not. *)
Definition perform (d : db) (c : call) : db :=
  match c with
  | Sale e a => fst (Billing.process_sale d e a)
  | Review a => fst (Reviews.submit_review d a)
  end.

Definition after (d : db) (cs : list call) : db := fold_left perform cs d.

End Engine.

(** ** A small shop, for running the routines *)

Module Sample.
Import Sql Schema.

Definition apollo : pharmacy :=
  mkPharmacy "ph1" "Apollo" "MG Road" (Some 12.97%Q) (Some 77.59%Q)
    (Some 4%Q) (Some 2) (Some true) (Some "verified").

Definition crocin : medicine :=
  mkMedicine "m1" (Some "ph1") "Crocin" (Some 30%Q) (Some 10).

Definition shop : db :=
  mkDb [apollo] [crocin] [mkBooking "b1" (Some false)] [] [] [] ["u1"]
       invoice_seq_start.

(** A date written [YYYY-MM-DD], the form every setting of the server
    reads. *)
Definition days_in (year month : Z) : Z :=
  if month =? 2
  then if ((year mod 4 =? 0)
           && (negb (year mod 100 =? 0) || (year mod 400 =? 0)))%bool
       then 29 else 28
  else if ((month =? 4) || (month =? 6) || (month =? 9) || (month =? 11))%bool
       then 30 else 31.

Definition iso_date (s : string) : bool :=
  match list_ascii_of_string s with
  | [y1; y2; y3; y4; d1; m1; m2; d2; a1; a2] =>
      let value c := Z.of_nat (nat_of_ascii c) - 48 in
      let digit c := ((0 <=? value c) && (value c <=? 9))%bool in
      let year := 1000 * value y1 + 100 * value y2 + 10 * value y3
                  + value y4 in
      let month := 10 * value m1 + value m2 in
      let day := 10 * value a1 + value a2 in
      (forallb digit [y1; y2; y3; y4; m1; m2; a1; a2]
       && Ascii.eqb d1 "-" && Ascii.eqb d2 "-"
       && (1 <=? year) && (1 <=? month) && (month <=? 12)
       && (1 <=? day) && (day <=? days_in year month))%bool
  | _ => false
  end.

Definition first_of_december (sale : uuid) : Billing.sale_env :=
  Billing.mkSaleEnv 2024 12 1 sale iso_date.

(** A one-line cart of [q] strips of Crocin. *)
Definition sell (q : Z) : Billing.sale_args :=
  Billing.mkSaleArgs (Some "ph1") "Asha" "9000000000" "Dr Rao" "Cash"
    (30 * inject_Z q) 0 (30 * inject_Z q) 0 (30 * inject_Z q)
    [Billing.mkCartItem "m1" "Crocin" None None q 30 (30 * inject_Z q) 12].

Definition rate (r : Z) : Reviews.review_args :=
  Reviews.mkReviewArgs "b1" "ph1" "u1" r "quick service".

(** The store after a first sale of three strips, and after a second sale
    of two. *)
Definition after_first_sale : db :=
  fst (Billing.process_sale shop (first_of_december "s1") (sell 3)).

Definition after_second_sale : db :=
  fst (Billing.process_sale after_first_sale (first_of_december "s2") (sell 2)).

(** Listings for the catalogue: one medicine name at a pharmacy and a
    price. *)
Definition listing (i n ph : string) (p : Q) : Catalog.Medicine :=
  Catalog.mkMedicineView i n (Some ph) (Some p) (Some 5) (Some 0).

Definition crocin_in_three_shops : list Catalog.Medicine :=
  [listing "m1" "Crocin" "ph1" 30; listing "m2" "Crocin" "ph2" 25;
   listing "m3" "Crocin" "ph3" 28].

(** Two batches of one medicine on the shelves of one pharmacy. *)
Definition crocin_twice_in_one_shop : list Catalog.Medicine :=
  [listing "m1" "Crocin" "ph1" 30; listing "m2" "Crocin" "ph1" 25].

(** Two pharmacies for a prescription of Paracetamol and Amoxicillin: the
    first stocks both, the second has no Amoxicillin. *)
Definition medplus : pharmacy :=
  mkPharmacy "ph2" "MedPlus" "Brigade Road" (Some 12.98%Q) (Some 77.6%Q)
    (Some 0%Q) (Some 0) (Some true) (Some "verified").

Definition two_shops : db :=
  mkDb [apollo; medplus]
       [mkMedicine "a1" (Some "ph1") "Paracetamol" (Some 2%Q) (Some 40);
        mkMedicine "a2" (Some "ph1") "Amoxicillin" (Some 9%Q) (Some 6);
        mkMedicine "b1" (Some "ph2") "Paracetamol" (Some 1.5%Q) (Some 100);
        mkMedicine "b2" (Some "ph2") "Amoxicillin" (Some 8%Q) (Some 0)]
       [] [] [] [] ["u1"] invoice_seq_start.

Definition prescription : list Prescription.requested :=
  [Prescription.mkRequested "Paracetamol" 10;
   Prescription.mkRequested "Amoxicillin" 6].

(** A shop that was verified and later rejected: the status was changed,
    the flag was left as it stood. *)
Definition struck_off : pharmacy :=
  mkPharmacy "ph3" "Wellness" "Park Street" (Some 12.96%Q) (Some 77.58%Q)
    (Some 0%Q) (Some 0) (Some true) (Some "rejected").

Definition with_struck_off : db :=
  mkDb [struck_off]
       [mkMedicine "c1" (Some "ph3") "Crocin" (Some 30%Q) (Some 10)]
       [] [] [] [] ["u1"] invoice_seq_start.

(** A shop on its first day: no sale and no review yet. *)
Definition opening : db :=
  mkDb [medplus]
       [mkMedicine "b1" (Some "ph2") "Paracetamol" (Some 1.5%Q) (Some 100)]
       [mkBooking "k1" (Some false); mkBooking "k2" None] [] [] [] ["u1"]
       invoice_seq_start.

Definition rate_medplus (booking : string) (r : Z) : Reviews.review_args :=
  Reviews.mkReviewArgs booking "ph2" "u1" r "".

End Sample.

(** ** Reading the ledger of sales and reviews *)

Module Ledger.
Import Sql Schema.

(** The quantity a cart asks of listing [i], all its lines together. *)
Fixpoint asked (items : list Billing.cart_item) (i : uuid) : Z :=
  match items with
  | [] => 0
  | item :: rest =>
      (if String.eqb (Billing.ci_id item) i then Billing.ci_quantity item
       else 0) + asked rest i
  end.

(** The row of [sale_items] written for one line of the cart. *)
Definition sale_item_row (v_sale_id : uuid) (item : Billing.cart_item)
  : sale_item :=
  mkSaleItem v_sale_id (Billing.ci_id item) (Billing.ci_name item)
    (Billing.ci_batchNumber item)
    (match Billing.ci_expiryDate item with
     | Some "" => None
     | x => x
     end)
    (Billing.ci_quantity item) (Billing.ci_sellingPrice item)
    (Billing.ci_total item) (Billing.ci_gstPercentage item).

(** The row of [sales] written for a call. *)
Definition sale_row (e : Billing.sale_env) (a : Billing.sale_args) (n : Z)
  : sale :=
  mkSale (Billing.fresh_sale_id e) (Billing.p_pharmacy_id a)
    (Billing.invoice_number e n) (Billing.p_customer_name a)
    (Billing.p_customer_phone a) (Billing.p_doctor_name a)
    (Billing.p_payment_method a) (Billing.p_subtotal a)
    (Billing.p_discount a) (Billing.p_taxable_amount a)
    (Billing.p_tax_amount a) (Billing.p_total a) "Completed".

(** Every invoice on file carries a sequence number the counter has
    already passed, and no two invoices on file carry the same number. *)
Definition numbered (d : db) : Prop :=
  (forall s, In s (sales d) ->
     exists n, Billing.invoice_sequence (sale_invoice_number s) = Some n
               /\ n < invoice_seq d)
  /\ NoDup (map sale_invoice_number (sales d)).

(** The calls of a run that are sales all happen on a calendar day. *)
Definition on_calendar (c : Engine.call) : Prop :=
  match c with
  | Engine.Sale e _ => Billing.calendar_day e
  | Engine.Review _ => True
  end.

(** The ratings on file for a pharmacy. *)
Definition ratings_of (d : db) (i : uuid) : list Z :=
  map rv_rating (filter (fun r => String.eqb (rv_pharmacy_id r) i) (reviews d)).

(** The stored count of pharmacy [p] agrees with the reviews on file: it is
    their number. *)
Definition in_step (d : db) (p : pharmacy) : Prop :=
  coalesce (ph_review_count p) 0
  = Z.of_nat (List.length (ratings_of d (ph_id p))).

(** Every pharmacy on file is in step with the reviews on file. *)
Definition all_in_step (d : db) : Prop :=
  forall i p, find_pharmacy d i = Some p -> in_step d p.

End Ledger.

(** * Properties *)

(** ** Billing *)

Section BillingFacts.
Import Sql Schema Billing.

Lemma text_of_int_inv (z : Z) : int_of_text (text_of_int z) = Some z.
Proof.
  unfold int_of_text, text_of_int.
  rewrite NilZero.isi.
  - cbn. now rewrite DecimalZ.of_to.
  - destruct z; cbn; try discriminate.
    intros [= H]. now apply DecimalPos.Unsigned.to_uint_nonnil in H.
  - destruct z; cbn; try discriminate.
    intros [= H]. now apply DecimalPos.Unsigned.to_uint_nonnil in H.
Qed.

Lemma substring_after (a b : string) :
  substring (String.length a) (String.length b) (a ++ b) = b.
Proof.
  induction a as [|c a IH]; cbn.
  - induction b as [|c b IHb]; cbn; [reflexivity | now rewrite IHb].
  - exact IH.
Qed.

Lemma text_append_assoc (a b c : string) : (a ++ b) ++ c = a ++ b ++ c.
Proof. induction a as [|x a IH]; cbn; [reflexivity | now rewrite IH]. Qed.

Lemma length_append (a b : string) :
  String.length (a ++ b) = (String.length a + String.length b)%nat.
Proof. induction a; cbn; auto. Qed.

Lemma two_digits_length (n : Z) :
  0 <= n < 100 -> String.length (two_digits n) = 2%nat.
Proof.
  intros H.
  assert (E : forallb (fun k => Nat.eqb (String.length (two_digits (Z.of_nat k))) 2)
                (seq 0 100) = true) by (vm_compute; reflexivity).
  rewrite forallb_forall in E.
  specialize (E (Z.to_nat n)).
  rewrite Z2Nat.id in E by lia.
  apply Nat.eqb_eq, E, in_seq. lia.
Qed.

Lemma to_char_YYMMDD_length (e : sale_env) :
  calendar_day e -> String.length (to_char_YYMMDD e) = 6%nat.
Proof.
  intros [Hm Hd]. unfold to_char_YYMMDD.
  assert (Hy : 0 <= now_year e mod 100 < 100) by (apply Z.mod_pos_bound; lia).
  rewrite !length_append, !two_digits_length by lia.
  reflexivity.
Qed.

Lemma invoice_sequence_of_number (e : sale_env) (n : Z) :
  calendar_day e -> invoice_sequence (invoice_number e n) = Some n.
Proof.
  intros H. unfold invoice_sequence, invoice_number.
  pose proof (to_char_YYMMDD_length e H) as L.
  replace ("INV-" ++ to_char_YYMMDD e ++ "-" ++ text_of_int n)
    with (("INV-" ++ to_char_YYMMDD e ++ "-") ++ text_of_int n).
  2:{ now rewrite !text_append_assoc. }
  assert (L11 : String.length ("INV-" ++ to_char_YYMMDD e ++ "-") = 11%nat).
  { rewrite !length_append, L. reflexivity. }
  rewrite length_append, L11.
  replace (11 + String.length (text_of_int n) - 11)%nat
    with (String.length (text_of_int n)) by lia.
  rewrite <- L11 at 1.
  rewrite substring_after. apply text_of_int_inv.
Qed.

Lemma insert_sale_seq d e a inv i d' :
  insert_sale d e a inv = Ok (i, d') -> invoice_seq d' = invoice_seq d.
Proof.
  unfold insert_sale.
  destruct (has_sale d (fresh_sale_id e)); [discriminate|].
  destruct (match p_pharmacy_id a with Some i0 => has_pharmacy d i0 | None => true end);
    [|discriminate].
  intros [= _ <-]. reflexivity.
Qed.

Lemma process_items_seq items : forall d e v d',
  process_items d e v items = Ok d' -> invoice_seq d' = invoice_seq d.
Proof.
  induction items as [|it rest IH]; intros d e v d'; cbn.
  - now intros [= <-].
  - unfold insert_sale_item.
    destruct (cast_expiry_date e it); cbn; [|discriminate].
    destruct (int4 (ci_quantity it)); cbn; [|discriminate].
    destruct (has_medicine d (ci_id it)); cbn; [|discriminate].
    destruct (decrease_stock _ _ _); cbn; [|discriminate].
    intros H. apply IH in H. exact H.
Qed.

(** A sale that goes through reports the number built from the stored
    sequence value and advances the sequence by one. *)
Lemma process_sale_ok d e a d' r :
  process_sale d e a = (d', Ok r) ->
  rc_invoice_number r = invoice_number e (invoice_seq d)
  /\ invoice_seq d' = invoice_seq d + 1.
Proof.
  unfold process_sale, nextval.
  destruct (invoice_seq d <=? int8_max); [|discriminate].
  destruct (sale_body _ e a _) as [[d2 r2]|err] eqn:B; [|discriminate].
  intros [= <- <-].
  unfold sale_body in B.
  destruct (insert_sale _ e a _) as [[i d3]|] eqn:I; cbn in B; [|discriminate].
  destruct (process_items d3 e i (p_items a)) as [d4|] eqn:P; cbn in B;
    [|discriminate].
  injection B as <- <-. cbn. split; [reflexivity|].
  apply process_items_seq in P. apply insert_sale_seq in I.
  rewrite P, I. reflexivity.
Qed.

(** Whatever the outcome, the sequence never steps back. *)
Lemma process_sale_seq_monotone d e a :
  invoice_seq d <= invoice_seq (fst (process_sale d e a)).
Proof.
  destruct (process_sale d e a) as [d' [r|err]] eqn:E.
  - apply process_sale_ok in E. cbn. lia.
  - unfold process_sale, nextval in E.
    destruct (invoice_seq d <=? int8_max).
    + destruct (sale_body _ e a _) as [[d2 r2]|err2]; [discriminate|].
      injection E as <- _. cbn. lia.
    + injection E as <- _. cbn. lia.
Qed.

End BillingFacts.

Section BillingClaims.
Import Sql Schema Billing.

(** A sale that is refused leaves every table as it was. *)
Lemma process_sale_rollback d e a d' err :
  process_sale d e a = (d', Raise err) ->
  pharmacies d' = pharmacies d /\ medicines d' = medicines d
  /\ bookings d' = bookings d /\ sales d' = sales d
  /\ sale_items d' = sale_items d /\ reviews d' = reviews d.
Proof.
  unfold process_sale, nextval.
  destruct (invoice_seq d <=? int8_max).
  - destruct (sale_body _ e a _) as [[d2 r2]|err2]; [discriminate|].
    intros [= <- _]. cbn. repeat split.
  - intros [= <- _]. repeat split.
Qed.

(** [UPDATE medicines SET stock = stock - q] subtracts without looking at
    the sign of the result. *)
Lemma decrease_stock_find ms i q : forall ms',
  decrease_stock ms i q = Ok ms' ->
  option_map med_stock (find (fun m => String.eqb (med_id m) i) ms')
  = option_map (fun m => option_map (fun s => s - q) (med_stock m))
      (find (fun m => String.eqb (med_id m) i) ms).
Proof.
  induction ms as [|m ms IH]; intros ms'; cbn.
  - now intros [= <-].
  - destruct (String.eqb (med_id m) i) eqn:E.
    + destruct (med_stock m) as [s|] eqn:S; cbn.
      * unfold int4. destruct (in_int4 (s - q)); cbn; [|discriminate].
        destruct (decrease_stock ms i q); cbn; [|discriminate].
        intros [= <-]. cbn. rewrite E. cbn. rewrite S. reflexivity.
      * destruct (decrease_stock ms i q); cbn; [|discriminate].
        intros [= <-]. cbn. rewrite E. cbn. rewrite S. reflexivity.
    + destruct (decrease_stock ms i q) as [rest|] eqn:D; cbn; [|discriminate].
      intros [= <-]. cbn. rewrite E. now apply IH.
Qed.

Lemma insert_sale_medicines d e a inv i d' :
  insert_sale d e a inv = Ok (i, d') -> medicines d' = medicines d.
Proof.
  unfold insert_sale.
  destruct (has_sale d (fresh_sale_id e)); [discriminate|].
  destruct (match p_pharmacy_id a with Some i0 => has_pharmacy d i0 | None => true end);
    [|discriminate].
  intros [= _ <-]. reflexivity.
Qed.

Lemma insert_sale_item_medicines d e v item d' :
  insert_sale_item d e v item = Ok d' -> medicines d' = medicines d.
Proof.
  unfold insert_sale_item.
  destruct (cast_expiry_date e item); cbn; [|discriminate].
  destruct (int4 (ci_quantity item)); cbn; [|discriminate].
  destruct (has_medicine d (ci_id item)); [|discriminate].
  intros [= <-]. reflexivity.
Qed.

(** A one-line cart that is accepted takes its quantity off the stock of
    the listing, whatever the stock was: nothing compares the two. *)
Lemma process_sale_one_line d e a item d' r :
  p_items a = [item] ->
  process_sale d e a = (d', Ok r) ->
  stock_of d' (ci_id item)
  = option_map (fun s => s - ci_quantity item) (stock_of d (ci_id item)).
Proof.
  intros Items. unfold process_sale, nextval.
  destruct (invoice_seq d <=? int8_max); [|discriminate].
  destruct (sale_body _ e a _) as [[d2 r2]|err] eqn:B; [|discriminate].
  intros [= <- <-]. unfold sale_body in B. rewrite Items in B.
  destruct (insert_sale _ e a _) as [[i d3]|] eqn:I; cbn in B; [|discriminate].
  apply insert_sale_medicines in I. cbn in I.
  destruct (insert_sale_item d3 e i item) as [d4|] eqn:SI; cbn in B;
    [|discriminate].
  apply insert_sale_item_medicines in SI.
  destruct (decrease_stock (medicines d4) (ci_id item) (ci_quantity item))
    as [ms|] eqn:D; cbn in B; [|discriminate].
  injection B as <- _.
  apply decrease_stock_find in D. rewrite SI, I in D.
  unfold stock_of, find_medicine. cbn.
  destruct (find _ ms) as [m'|]; destruct (find _ (medicines d)) as [m|];
    cbn in D; try discriminate; [|reflexivity].
  now injection D.
Qed.

(** So a cart that asks for more than the listing holds, once accepted,
    leaves the listing below zero. *)
Lemma process_sale_below_zero d e a item d' r s :
  p_items a = [item] ->
  stock_of d (ci_id item) = Some s ->
  s < ci_quantity item ->
  process_sale d e a = (d', Ok r) ->
  exists s', stock_of d' (ci_id item) = Some s' /\ s' < 0.
Proof.
  intros Items S L H.
  rewrite (process_sale_one_line d e a item d' r Items H), S. cbn.
  eexists. split; [reflexivity | lia].
Qed.

(** C1 (the routine at the input of the claim).  [process_sale] carries no
    stock guard: asked to sell 15 strips from a listing that holds 10, it
    answers with a receipt, not with an error, and the listing is left at
    -5. *)
Theorem process_sale_oversell :
  let out := process_sale Sample.shop (Sample.first_of_december "s1")
               (Sample.sell 15) in
  stock_of Sample.shop "m1" = Some 10
  /\ snd out = Ok (mkReceipt "s1" "INV-241201-1001")
  /\ stock_of (fst out) "m1" = Some (-5).
Proof. vm_compute. repeat split. Qed.

(** Between two sales the sequence can only have moved forward. *)
Lemma after_seq_monotone cs : forall d,
  invoice_seq d <= invoice_seq (Engine.after d cs).
Proof.
  unfold Engine.after.
  induction cs as [|c cs IH]; intros d; cbn; [lia|].
  etransitivity; [|apply IH].
  destruct c as [e a|a]; cbn.
  - apply process_sale_seq_monotone.
  - unfold Reviews.submit_review.
    destruct (Reviews.review_body d a) as [d'|] eqn:B; cbn; [|lia].
    unfold Reviews.review_body, Reviews.insert_review in B.
    destruct (negb _); cbn in B; [discriminate|].
    destruct (negb (has_pharmacy _ _)); cbn in B; [discriminate|].
    destruct (negb (has_user _ _)); cbn in B; [discriminate|].
    destruct (find _ (pharmacies d)); cbn in B.
    + destruct (Reviews.new_rating _ _ _); cbn in B; [|discriminate].
      destruct (int4 _); cbn in B; [|discriminate].
      injection B as <-. cbn. lia.
    + injection B as <-. cbn. lia.
Qed.

(** C5.  The invoice number of a sale that goes through reads
    [INV-<YYMMDD>-<sequence>], the sequence being the value of the one
    counter of the store, whatever the pharmacy; of two sales that go
    through, the later one carries the strictly larger sequence number,
    whether it follows at once ([between] empty) or after other sales and
    reviews, accepted or refused. *)
Theorem process_sale_invoice_numbers d e1 a1 d1 r1 between e2 a2 d2 r2 :
  calendar_day e1 -> calendar_day e2 ->
  process_sale d e1 a1 = (d1, Ok r1) ->
  process_sale (Engine.after d1 between) e2 a2 = (d2, Ok r2) ->
  rc_invoice_number r1
    = "INV-" ++ to_char_YYMMDD e1 ++ "-" ++ text_of_int (invoice_seq d)
  /\ rc_invoice_number r2
    = "INV-" ++ to_char_YYMMDD e2 ++ "-"
        ++ text_of_int (invoice_seq (Engine.after d1 between))
  /\ exists n1 n2,
       invoice_sequence (rc_invoice_number r1) = Some n1
       /\ invoice_sequence (rc_invoice_number r2) = Some n2
       /\ n1 < n2.
Proof.
  intros C1 C2 S1 S2.
  apply process_sale_ok in S1 as [N1 Q1].
  apply process_sale_ok in S2 as [N2 _].
  split; [exact N1|]. split; [exact N2|].
  exists (invoice_seq d), (invoice_seq (Engine.after d1 between)).
  rewrite N1, N2, !invoice_sequence_of_number by assumption.
  repeat split. pose proof (after_seq_monotone between d1). lia.
Qed.

Lemma process_sale_invoice_numbers_witness :
  calendar_day (Sample.first_of_december "s1")
  /\ calendar_day (Sample.first_of_december "s2")
  /\ process_sale Sample.shop (Sample.first_of_december "s1") (Sample.sell 3)
     = (Sample.after_first_sale, Ok (mkReceipt "s1" "INV-241201-1001"))
  /\ process_sale (Engine.after Sample.after_first_sale [])
       (Sample.first_of_december "s2") (Sample.sell 2)
     = (Sample.after_second_sale, Ok (mkReceipt "s2" "INV-241201-1002"))
  /\ ("INV-241201-1001"
        = "INV-" ++ to_char_YYMMDD (Sample.first_of_december "s1") ++ "-"
            ++ text_of_int (invoice_seq Sample.shop)
      /\ "INV-241201-1002"
        = "INV-" ++ to_char_YYMMDD (Sample.first_of_december "s2") ++ "-"
            ++ text_of_int
                 (invoice_seq (Engine.after Sample.after_first_sale []))
      /\ exists n1 n2,
           invoice_sequence "INV-241201-1001" = Some n1
           /\ invoice_sequence "INV-241201-1002" = Some n2
           /\ n1 < n2).
Proof.
  assert (H1 : calendar_day (Sample.first_of_december "s1"))
    by (unfold calendar_day; cbn; lia).
  assert (H2 : calendar_day (Sample.first_of_december "s2"))
    by (unfold calendar_day; cbn; lia).
  assert (S1 : process_sale Sample.shop (Sample.first_of_december "s1")
                 (Sample.sell 3)
               = (Sample.after_first_sale,
                  Ok (mkReceipt "s1" "INV-241201-1001")))
    by (vm_compute; reflexivity).
  assert (S2 : process_sale (Engine.after Sample.after_first_sale [])
                 (Sample.first_of_december "s2") (Sample.sell 2)
               = (Sample.after_second_sale,
                  Ok (mkReceipt "s2" "INV-241201-1002")))
    by (vm_compute; reflexivity).
  repeat (split; [assumption|]).
  exact (process_sale_invoice_numbers Sample.shop
           (Sample.first_of_december "s1") (Sample.sell 3)
           Sample.after_first_sale (mkReceipt "s1" "INV-241201-1001") []
           (Sample.first_of_december "s2") (Sample.sell 2)
           Sample.after_second_sale (mkReceipt "s2" "INV-241201-1002")
           H1 H2 S1 S2).
Defined.

(** Two sales in a row at the counter of the sample shop, and a refused
    sale in between: the numbers are 1001 and then 1003. *)
Example process_sale_numbers_skip :
  let d1 := fst (process_sale Sample.shop (Sample.first_of_december "s1")
                   (Sample.sell 3)) in
  let refused := Engine.Sale (Sample.first_of_december "s1") (Sample.sell 1) in
  snd (process_sale d1 (Sample.first_of_december "s1") (Sample.sell 1))
  = Raise UniqueViolation
  /\ snd (process_sale (Engine.after d1 [refused])
            (Sample.first_of_december "s2") (Sample.sell 2))
     = Ok (mkReceipt "s2" "INV-241201-1003").
Proof. vm_compute. split; reflexivity. Qed.

End BillingClaims.

(** ** Reviews *)

Section ReviewFacts.
Import Sql Schema Reviews.

Lemma find_pharmacy_has d i p :
  find_pharmacy d i = Some p -> has_pharmacy d i = true.
Proof.
  unfold find_pharmacy, has_pharmacy. intros H.
  apply find_some in H as [In E].
  apply existsb_exists. now exists p.
Qed.

Lemma find_update_stats ps i r c p :
  find (fun q => String.eqb (ph_id q) i) ps = Some p ->
  find (fun q => String.eqb (ph_id q) i) (update_stats ps i r c)
  = Some (set_stats p r c).
Proof.
  induction ps as [|q ps IH]; cbn; [discriminate|].
  destruct (String.eqb (ph_id q) i) eqn:E.
  - intros [= ->]. cbn. now rewrite E.
  - intros H. rewrite E. now apply IH.
Qed.

(** The two branches of the routine agree with the one formula. *)
Lemma new_rating_formula (avg : Q) (count rating : Z) :
  0 <= count < int4_max ->
  exists r, new_rating avg count rating = Ok r
    /\ (r == (avg * inject_Z count + inject_Z rating) / inject_Z (count + 1))%Q.
Proof.
  intros H. unfold new_rating.
  destruct (count =? 0) eqn:Z0.
  - apply Z.eqb_eq in Z0. subst count. eexists. split; [reflexivity|].
    cbn. field.
  - unfold int4, in_int4, int4_min.
    replace ((-2147483648 <=? count + 1) && (count + 1 <=? int4_max))%bool
      with true.
    2:{ symmetry. apply andb_true_iff. unfold int4_max in *.
        split; apply Z.leb_le; lia. }
    cbn. replace (count + 1 =? 0) with false by (symmetry; apply Z.eqb_neq; lia).
    eexists. split; [reflexivity|]. reflexivity.
Qed.

(** A review that is accepted adds exactly one row for its booking; the
    routine reads neither [is_rated] nor the rows already there. *)
Lemma submit_review_adds_row d a d' :
  submit_review d a = (d', Ok tt) ->
  reviews_of_booking d' (p_booking_id a)
  = S (reviews_of_booking d (p_booking_id a)).
Proof.
  unfold submit_review, review_body, insert_review.
  destruct (negb _); cbn; [discriminate|].
  destruct (negb (has_pharmacy _ _)); cbn; [discriminate|].
  destruct (negb (has_user _ _)); cbn; [discriminate|].
  destruct (find _ (pharmacies d)).
  - destruct (new_rating _ _ _); cbn; [|discriminate].
    destruct (int4 _); cbn; [|discriminate].
    intros [= <-]. unfold reviews_of_booking. cbn.
    rewrite filter_app, length_app. cbn. rewrite String.eqb_refl. cbn. lia.
  - intros [= <-]. unfold reviews_of_booking. cbn.
    rewrite filter_app, length_app. cbn. rewrite String.eqb_refl. cbn. lia.
Qed.

(** A review for a pharmacy and a user on record, with a rating from 1 to
    5, is accepted whatever the bookings and the earlier reviews are. *)
Lemma submit_review_accepted d a p :
  find_pharmacy d (p_pharmacy_id a) = Some p ->
  has_user d (p_user_id a) = true ->
  1 <= p_rating a <= 5 ->
  0 <= coalesce (ph_review_count p) 0 < int4_max ->
  snd (submit_review d a) = Ok tt
  /\ auth_users (fst (submit_review d a)) = auth_users d
  /\ exists p' newAverage,
       find_pharmacy (fst (submit_review d a)) (p_pharmacy_id a) = Some p'
       /\ ph_rating p' = Some newAverage
       /\ (newAverage
           == (coalesce (ph_rating p) 0
               * inject_Z (coalesce (ph_review_count p) 0%Z)
               + inject_Z (p_rating a))
              / inject_Z (coalesce (ph_review_count p) 0%Z + 1))%Q
       /\ ph_review_count p' = Some (coalesce (ph_review_count p) 0 + 1).
Proof.
  intros F U R C.
  unfold submit_review, review_body, insert_review.
  replace (negb ((1 <=? p_rating a) && (p_rating a <=? 5))) with false.
  2:{ symmetry. apply negb_false_iff, andb_true_iff.
      split; apply Z.leb_le; lia. }
  rewrite (find_pharmacy_has _ _ _ F), U. cbn.
  unfold find_pharmacy in *. cbn. rewrite F.
  destruct (new_rating_formula (coalesce (ph_rating p) 0%Q)
              (coalesce (ph_review_count p) 0) (p_rating a) C) as [r [N E]].
  rewrite N. cbn.
  unfold int4, in_int4, int4_min.
  replace ((-2147483648 <=? coalesce (ph_review_count p) 0 + 1)
           && (coalesce (ph_review_count p) 0 + 1 <=? int4_max))%bool
    with true.
  2:{ symmetry. apply andb_true_iff. unfold int4_max in *.
      split; apply Z.leb_le; lia. }
  cbn. split; [reflexivity|]. split; [reflexivity|].
  eexists. exists r. split.
  - apply find_update_stats. exact F.
  - cbn. repeat split. exact E.
Qed.

(** Asked twice for the same booking, the routine accepts twice. *)
Lemma submit_review_again d a p :
  find_pharmacy d (p_pharmacy_id a) = Some p ->
  has_user d (p_user_id a) = true ->
  1 <= p_rating a <= 5 ->
  0 <= coalesce (ph_review_count p) 0 < int4_max - 1 ->
  let d1 := fst (submit_review d a) in
  let d2 := fst (submit_review d1 a) in
  snd (submit_review d a) = Ok tt /\ snd (submit_review d1 a) = Ok tt
  /\ reviews_of_booking d2 (p_booking_id a)
     = S (S (reviews_of_booking d (p_booking_id a)))
  /\ exists p2, find_pharmacy d2 (p_pharmacy_id a) = Some p2
       /\ ph_review_count p2 = Some (coalesce (ph_review_count p) 0 + 2).
Proof.
  intros F U R C. cbn zeta.
  destruct (submit_review_accepted d a p F U R ltac:(lia))
    as [A1 [U1 [p1 [r1 [F1 [_ [_ C1]]]]]]].
  assert (U' : has_user (fst (submit_review d a)) (p_user_id a) = true).
  { unfold has_user in *. now rewrite U1. }
  destruct (submit_review_accepted (fst (submit_review d a)) a p1 F1 U' R)
    as [A2 [_ [p2 [r2 [F2 [_ [_ C2]]]]]]].
  { rewrite C1. cbn. lia. }
  split; [exact A1|]. split; [exact A2|]. split.
  - rewrite (submit_review_adds_row (fst (submit_review d a)) a _).
    + f_equal. apply submit_review_adds_row.
      rewrite <- A1. apply surjective_pairing.
    + rewrite <- A2. apply surjective_pairing.
  - exists p2. split; [exact F2|]. rewrite C2, C1. cbn. f_equal. lia.
Qed.

End ReviewFacts.

Section ReviewClaims.
Import Sql Schema Reviews.

(** C2 (the routine at the input of the claim).  [submit_review] has no
    test for a booking that is already rated: the second call on booking
    [b1] is accepted like the first, [reviews] ends with two rows for the
    booking and the review count of the pharmacy goes from 2 to 4. *)
Theorem submit_review_twice :
  let out1 := submit_review Sample.shop (Sample.rate 5) in
  let out2 := submit_review (fst out1) (Sample.rate 5) in
  snd out1 = Ok tt
  /\ bookings (fst out1) = [mkBooking "b1" (Some true)]
  /\ snd out2 = Ok tt
  /\ reviews_of_booking (fst out2) "b1" = 2%nat
  /\ option_map ph_review_count (find_pharmacy Sample.shop "ph1")
     = Some (Some 2)
  /\ option_map ph_review_count (find_pharmacy (fst out2) "ph1")
     = Some (Some 4).
Proof. vm_compute. repeat split. Qed.

(** C4.  For a pharmacy with average [oldAverage] and count [oldCount], a
    review with a rating from 1 to 5 is accepted and leaves the average at
    [(oldAverage * oldCount + rating) / (oldCount + 1)] and the count at
    [oldCount + 1]. *)
Theorem submit_review_running_average d a p :
  find_pharmacy d (p_pharmacy_id a) = Some p ->
  has_user d (p_user_id a) = true ->
  1 <= p_rating a <= 5 ->
  0 <= coalesce (ph_review_count p) 0 < int4_max ->
  let oldAverage := coalesce (ph_rating p) 0%Q in
  let oldCount := coalesce (ph_review_count p) 0 in
  snd (submit_review d a) = Ok tt
  /\ exists p' newAverage,
       find_pharmacy (fst (submit_review d a)) (p_pharmacy_id a) = Some p'
       /\ ph_rating p' = Some newAverage
       /\ (newAverage
           == (oldAverage * inject_Z oldCount + inject_Z (p_rating a))
              / inject_Z (oldCount + 1))%Q
       /\ ph_review_count p' = Some (oldCount + 1).
Proof.
  intros F U R C. cbn zeta.
  destruct (submit_review_accepted d a p F U R C) as [A [_ H]].
  split; [exact A | exact H].
Qed.

Lemma submit_review_running_average_witness :
  find_pharmacy Sample.shop (p_pharmacy_id (Sample.rate 5))
  = Some Sample.apollo
  /\ has_user Sample.shop (p_user_id (Sample.rate 5)) = true
  /\ 1 <= p_rating (Sample.rate 5) <= 5
  /\ 0 <= coalesce (ph_review_count Sample.apollo) 0 < int4_max
  /\ (snd (submit_review Sample.shop (Sample.rate 5)) = Ok tt
      /\ exists p' newAverage,
           find_pharmacy (fst (submit_review Sample.shop (Sample.rate 5)))
             (p_pharmacy_id (Sample.rate 5)) = Some p'
           /\ ph_rating p' = Some newAverage
           /\ (newAverage == (4 * inject_Z 2 + inject_Z 5) / inject_Z (2 + 1))%Q
           /\ ph_review_count p' = Some (2 + 1)).
Proof.
  assert (F : find_pharmacy Sample.shop (p_pharmacy_id (Sample.rate 5))
              = Some Sample.apollo) by reflexivity.
  assert (U : has_user Sample.shop (p_user_id (Sample.rate 5)) = true)
    by reflexivity.
  assert (R : 1 <= p_rating (Sample.rate 5) <= 5) by (cbn; lia).
  assert (C : 0 <= coalesce (ph_review_count Sample.apollo) 0 < int4_max)
    by (cbn; unfold int4_max; lia).
  repeat (split; [assumption|]).
  exact (submit_review_running_average Sample.shop (Sample.rate 5)
           Sample.apollo F U R C).
Defined.

(** The worked case of the specification: average 4.0 over 2 reviews and a
    new rating of 5 give 13/3 over 3 reviews. *)
Example submit_review_four_two_five :
  option_map (fun p => (ph_rating p, ph_review_count p))
    (find_pharmacy (fst (submit_review Sample.shop (Sample.rate 5))) "ph1")
  = Some (Some (13 # 3), Some 3).
Proof. vm_compute. reflexivity. Qed.

End ReviewClaims.

(** ** Distance and the two geographic queries *)

Section OrderingFacts.
Context {A : Type} (leb : A -> A -> bool).

Lemma in_insert_row (x y : A) (l : list A) :
  In y (insert_row leb x l) <-> y = x \/ In y l.
Proof.
  induction l as [|z l IH]; cbn.
  - intuition.
  - destruct (leb x z); cbn; [intuition|].
    rewrite IH. intuition.
Qed.

(** Ordering keeps exactly the rows it is given. *)
Lemma in_order_by (y : A) (l : list A) : In y (order_by leb l) <-> In y l.
Proof.
  induction l as [|x l IH]; cbn; [reflexivity|].
  rewrite in_insert_row, IH. intuition.
Qed.

Lemma length_insert_row (x : A) (l : list A) :
  List.length (insert_row leb x l) = S (List.length l).
Proof.
  induction l as [|z l IH]; cbn; [reflexivity|].
  destruct (leb x z); cbn; [reflexivity | now rewrite IH].
Qed.

Lemma length_order_by (l : list A) :
  List.length (order_by leb l) = List.length l.
Proof.
  unfold order_by.
  induction l as [|x l IH]; cbn; [reflexivity|].
  now rewrite length_insert_row, IH.
Qed.

End OrderingFacts.

Section GeoFacts.
Import Sql Schema Geo.
Local Open Scope R_scope.

Lemma distance_km_sym (a_lat a_lng b_lat b_lng : R) :
  distance_km a_lat a_lng b_lat b_lng = distance_km b_lat b_lng a_lat a_lng.
Proof.
  unfold distance_km. do 4 f_equal.
  replace (radians b_lng - radians a_lng)
    with (- (radians a_lng - radians b_lng)) by ring.
  rewrite cos_neg. ring.
Qed.

Lemma distance_km_same (a_lat a_lng : R) :
  distance_km a_lat a_lng a_lat a_lng = 0.
Proof.
  unfold distance_km.
  replace (radians a_lng - radians a_lng) with 0 by ring.
  rewrite cos_0.
  replace (cos (radians a_lat) * cos (radians a_lat) * 1
           + sin (radians a_lat) * sin (radians a_lat)) with 1.
  2:{ pose proof (sin2_cos2 (radians a_lat)) as H. unfold Rsqr in H. lra. }
  rewrite Rmax_right by lra.
  rewrite Rmin_left by lra.
  rewrite acos_1. ring.
Qed.

(** The clamp keeps the argument of [acos] inside its domain, so the
    distance lies between 0 and half the circumference. *)
Lemma distance_km_bounds (a_lat a_lng b_lat b_lng : R) :
  0 <= distance_km a_lat a_lng b_lat b_lng <= 6371 * PI.
Proof.
  unfold distance_km.
  set (x := Rmin 1 (Rmax (-1) _)).
  assert (Hx : -1 <= x <= 1).
  { unfold x. split.
    - apply Rmin_glb; [lra | apply Rmax_l].
    - apply Rmin_l. }
  pose proof (acos_bound x) as B.
  pose proof PI_RGT_0. nra.
Qed.

(** A row with both coordinates carries the distance to the point given. *)
Lemma row_distance_located user_lat user_lng p la lo :
  ph_latitude p = Some la -> ph_longitude p = Some lo ->
  row_distance user_lat user_lng p
  = Some (distance_km (Q2R user_lat) (Q2R user_lng) (Q2R la) (Q2R lo)).
Proof.
  intros La Lo. unfold row_distance, angle_cosine. now rewrite La, Lo.
Qed.

(** A row without longitude is carried at half the circumference. *)
Lemma row_distance_without_longitude user_lat user_lng p :
  ph_longitude p = None ->
  row_distance user_lat user_lng p = Some (6371 * acos (-1))%R.
Proof.
  intros Lo. unfold row_distance, angle_cosine. rewrite Lo.
  destruct (ph_latitude p); cbn [greatest];
    (replace (Rmin 1 (-1)) with (-1)%R; [reflexivity|]);
    unfold Rmin; destruct (Rle_dec 1 (-1)); lra.
Qed.

(** Every row carries a distance, between 0 and half the circumference. *)
Lemma row_distance_bounds user_lat user_lng p :
  exists x, row_distance user_lat user_lng p = Some x
            /\ (0 <= x <= 6371 * PI)%R.
Proof.
  unfold row_distance. eexists. split; [reflexivity|].
  set (x := Rmin 1 _).
  assert (Hx : (-1 <= x <= 1)%R).
  { unfold x. split; [|apply Rmin_l].
    apply Rmin_glb; [lra|]. unfold greatest.
    destruct (angle_cosine _ _ _); [apply Rmax_l | lra]. }
  pose proof (acos_bound x) as B.
  pose proof PI_RGT_0. nra.
Qed.

Lemma located_and_verified_spec (p : pharmacy) :
  located_and_verified p = true ->
  ph_verified p = Some true
  /\ exists la, ph_latitude p = Some la /\ ~ (la == 0)%Q.
Proof.
  unfold located_and_verified.
  destruct (ph_latitude p) as [la|]; [|discriminate].
  intros H. apply andb_true_iff in H as [L V]. split.
  - destruct (ph_verified p) as [[|]|]; cbn in V; congruence.
  - exists la. split; [reflexivity|].
    apply negb_true_iff in L. intros E.
    apply Qeq_bool_iff in E. congruence.
Qed.

Lemma in_joined d m p :
  In (m, p) (joined d) ->
  In m (medicines d) /\ In p (pharmacies d)
  /\ med_pharmacy_id m = Some (ph_id p).
Proof.
  unfold joined. intros H.
  apply in_flat_map in H as [m' [Hm H]].
  apply in_map_iff in H as [p' [E H]].
  injection E as -> ->.
  apply filter_In in H as [Hp J]. repeat split; try assumption.
  unfold eq_uuid in J. destruct (med_pharmacy_id m); [|discriminate].
  apply String.eqb_eq in J. now subst.
Qed.

(** Where a row of [get_nearby_pharmacies] comes from. *)
Lemma in_get_nearby_pharmacies d user_lat user_lng radius_km r :
  In r (get_nearby_pharmacies d user_lat user_lng radius_km) <->
  exists p, In p (pharmacies d) /\ located_and_verified p = true
    /\ r = nearby_of user_lat user_lng p /\ within radius_km r = true.
Proof.
  unfold get_nearby_pharmacies. rewrite in_order_by, filter_In, in_map_iff.
  split.
  - intros [[p [E H]] W]. apply filter_In in H as [H V].
    exists p. auto.
  - intros [p [H [V [E W]]]]. split; [|assumption].
    exists p. split; [auto|]. apply filter_In. auto.
Qed.

(** Where a row of [get_medicine_availability] comes from. *)
Lemma in_get_medicine_availability d search_name user_lat user_lng radius_km r :
  In r (get_medicine_availability d search_name user_lat user_lng radius_km)
  <->
  exists m p, In (m, p) (joined d) /\ available search_name m p = true
    /\ r = availability_of user_lat user_lng m p.
Proof.
  unfold get_medicine_availability. rewrite in_order_by, in_map_iff.
  split.
  - intros [[m p] [E H]]. apply filter_In in H as [H V].
    exists m, p. auto.
  - intros [m [p [H [V E]]]]. exists (m, p). split; [auto|].
    apply filter_In. auto.
Qed.

(** Under the rule of the trigger no shop that is unverified, pending or
    rejected is in the list of nearby pharmacies. *)
Lemma get_nearby_pharmacies_status d user_lat user_lng radius_km r :
  flag_follows_status d ->
  In r (get_nearby_pharmacies d user_lat user_lng radius_km) ->
  nr_verification_status r = "verified".
Proof.
  intros T H. apply in_get_nearby_pharmacies in H as [p [Hp [V [-> _]]]].
  apply located_and_verified_spec in V as [V _].
  cbn. now rewrite (T p Hp V).
Qed.

End GeoFacts.

Section GeoClaims.
Import Sql Schema Geo.

(** C9.  Every row of [get_medicine_availability] carries a stock that is
    strictly positive. *)
Theorem get_medicine_availability_in_stock d search_name user_lat user_lng
  radius_km r :
  In r (get_medicine_availability d search_name user_lat user_lng radius_km)
  -> exists q, ar_stock r = Some q /\ 0 < q.
Proof.
  intros H. apply in_get_medicine_availability in H as [m [p [_ [V ->]]]].
  unfold available in V.
  apply andb_true_iff in V as [V _]. apply andb_true_iff in V as [_ S].
  unfold in_stock in S. cbn.
  destruct (med_stock m) as [q|]; [|discriminate].
  exists q. split; [reflexivity|]. now apply Z.ltb_lt.
Qed.

Lemma get_medicine_availability_in_stock_witness :
  In (availability_of 0 0 Sample.crocin Sample.apollo)
     (get_medicine_availability Sample.shop "crocin" 0 0 50)
  /\ exists q,
       ar_stock (availability_of 0 0 Sample.crocin Sample.apollo) = Some q
       /\ 0 < q.
Proof.
  assert (H : In (availability_of 0 0 Sample.crocin Sample.apollo)
                (get_medicine_availability Sample.shop "crocin" 0 0 50)).
  { apply in_get_medicine_availability.
    exists Sample.crocin, Sample.apollo.
    split; [left; reflexivity|]. split; reflexivity. }
  split; [exact H|].
  exact (get_medicine_availability_in_stock Sample.shop "crocin" 0 0 50 _ H).
Defined.

(** C10.  Every row of [get_nearby_pharmacies] and of
    [get_medicine_availability] is the row of a pharmacy whose [verified]
    flag is true and whose latitude is set and is not 0.  The status is not
    read: a row of [get_nearby_pharmacies] carries the status on file,
    whatever it is, and it is [verified] on every row only where the flag is
    raised on no shop of another status. *)
Theorem geo_rows_verified_and_located d search_name user_lat user_lng
  radius_km :
  (forall r, In r (get_nearby_pharmacies d user_lat user_lng radius_km) ->
     exists p la, In p (pharmacies d) /\ nr_id r = ph_id p
       /\ ph_verified p = Some true /\ nr_verified r = true
       /\ ph_latitude p = Some la /\ nr_latitude r = Some la
       /\ ~ (la == 0)%Q
       /\ nr_verification_status r
          = coalesce (ph_verification_status p) "unverified")
  /\ (forall r,
        In r (get_medicine_availability d search_name user_lat user_lng
                radius_km) ->
        exists p la, In p (pharmacies d) /\ ar_pharmacy_id r = ph_id p
          /\ ph_verified p = Some true /\ ar_verified r = Some true
          /\ ph_latitude p = Some la /\ ar_latitude r = Some la
          /\ ~ (la == 0)%Q)
  /\ (flag_follows_status d ->
      forall r, In r (get_nearby_pharmacies d user_lat user_lng radius_km) ->
        nr_verification_status r = "verified").
Proof.
  split; [|split].
  - intros r H.
    apply in_get_nearby_pharmacies in H as [p [Hp [V [-> _]]]].
    apply located_and_verified_spec in V as [V [la [L N]]].
    exists p, la. cbn. rewrite V, L. cbn. repeat split; assumption.
  - intros r H.
    apply in_get_medicine_availability in H as [m [p [J [V ->]]]].
    apply in_joined in J as [_ [Hp _]].
    unfold available in V. apply andb_true_iff in V as [_ V].
    apply located_and_verified_spec in V as [V [la [L N]]].
    exists p, la. cbn. rewrite V, L. repeat split; assumption.
  - intros T r H. exact (get_nearby_pharmacies_status _ _ _ _ _ T H).
Qed.

(** C10 (an input where the claim fails).  A pharmacy whose status is
    [rejected] while its flag is still true is in the list of nearby
    pharmacies, with that status on its row, and in the availability list of
    a medicine it stocks. *)
Lemma geo_rows_rejected_pharmacy :
  (exists r,
     In r (get_nearby_pharmacies Sample.with_struck_off 12.96 77.58 50)
     /\ nr_id r = "ph3" /\ nr_verified r = true
     /\ nr_verification_status r = "rejected")
  /\ map (fun r => (ar_pharmacy_id r, ar_verified r, ar_stock r))
       (get_medicine_availability Sample.with_struck_off "Crocin"
          12.96 77.58 50)
     = [("ph3", Some true, Some 10)].
Proof.
  split; [|reflexivity].
  exists (nearby_of 12.96 77.58 Sample.struck_off).
  split; [|repeat split].
  apply in_get_nearby_pharmacies. exists Sample.struck_off.
  split; [left; reflexivity|]. split; [reflexivity|].
  split; [reflexivity|].
  unfold within, nearby_of. cbn [nr_distance_km].
  rewrite (row_distance_located 12.96 77.58 Sample.struck_off 12.96%Q
             77.58%Q eq_refl eq_refl).
  unfold Rleb. rewrite distance_km_same.
  destruct (Rle_dec 0 (Q2R 50)) as [_|C]; [reflexivity|].
  exfalso. apply C. unfold Q2R. cbn. lra.
Qed.

Lemma geo_rows_verified_and_located_witness :
  In (nearby_of 12.97 77.59 Sample.apollo)
     (get_nearby_pharmacies Sample.shop 12.97 77.59 50)
  /\ In (availability_of 12.97 77.59 Sample.crocin Sample.apollo)
       (get_medicine_availability Sample.shop "Crocin" 12.97 77.59 50)
  /\ flag_follows_status Sample.shop
  /\ (exists p la, In p (pharmacies Sample.shop)
        /\ nr_id (nearby_of 12.97 77.59 Sample.apollo) = ph_id p
        /\ ph_verified p = Some true
        /\ nr_verified (nearby_of 12.97 77.59 Sample.apollo) = true
        /\ ph_latitude p = Some la
        /\ nr_latitude (nearby_of 12.97 77.59 Sample.apollo) = Some la
        /\ ~ (la == 0)%Q
        /\ nr_verification_status (nearby_of 12.97 77.59 Sample.apollo)
           = coalesce (ph_verification_status p) "unverified")
  /\ (exists p la, In p (pharmacies Sample.shop)
        /\ ar_pharmacy_id
             (availability_of 12.97 77.59 Sample.crocin Sample.apollo)
           = ph_id p
        /\ ph_verified p = Some true
        /\ ar_verified
             (availability_of 12.97 77.59 Sample.crocin Sample.apollo)
           = Some true
        /\ ph_latitude p = Some la
        /\ ar_latitude
             (availability_of 12.97 77.59 Sample.crocin Sample.apollo)
           = Some la
        /\ ~ (la == 0)%Q)
  /\ nr_verification_status (nearby_of 12.97 77.59 Sample.apollo)
     = "verified".
Proof.
  assert (N : In (nearby_of 12.97 77.59 Sample.apollo)
                (get_nearby_pharmacies Sample.shop 12.97 77.59 50)).
  { apply in_get_nearby_pharmacies. exists Sample.apollo.
    split; [left; reflexivity|]. split; [reflexivity|].
    split; [reflexivity|].
    unfold within, nearby_of. cbn [nr_distance_km].
    rewrite (row_distance_located 12.97 77.59 Sample.apollo 12.97%Q 77.59%Q
               eq_refl eq_refl).
    unfold Rleb. rewrite distance_km_same.
    destruct (Rle_dec 0 (Q2R 50)) as [_|C]; [reflexivity|].
    exfalso. apply C. unfold Q2R. cbn. lra. }
  assert (A : In (availability_of 12.97 77.59 Sample.crocin Sample.apollo)
                (get_medicine_availability Sample.shop "Crocin" 12.97 77.59 50)).
  { apply in_get_medicine_availability.
    exists Sample.crocin, Sample.apollo.
    split; [left; reflexivity|]. split; reflexivity. }
  assert (T : flag_follows_status Sample.shop).
  { intros p [<-|[]] _. reflexivity. }
  split; [exact N|]. split; [exact A|]. split; [exact T|].
  destruct (geo_rows_verified_and_located Sample.shop "Crocin" 12.97 77.59 50)
    as [G1 [G2 G3]].
  split; [exact (G1 _ N)|]. split; [exact (G2 _ A) | exact (G3 T _ N)].
Defined.

End GeoClaims.

(** ** The distance in float8 *)

Section Float8Facts.
Import SpecFloat PrimFloat FloatOps FloatAxioms Float8.

Lemma float_mul_comm (a b : float) : (a * b)%float = (b * a)%float.
Proof.
  apply Prim2SF_inj. rewrite !mul_spec. unfold SF64mul, SFmul.
  destruct (Prim2SF a) as [sa|sa| |sa ma ea],
           (Prim2SF b) as [sb|sb| |sb mb eb];
    try reflexivity; try (now rewrite xorb_comm).
  now rewrite xorb_comm, Pos.mul_comm, Z.add_comm.
Qed.

Lemma isinf_opp (x : float) : isinf (- x) = isinf x.
Proof. unfold isinf. rewrite opp_spec. now destruct (Prim2SF x). Qed.

Lemma isnan_opp (x : float) : isnan (- x) = isnan x.
Proof. unfold isnan. rewrite opp_spec. now destruct (Prim2SF x). Qed.

Lemma float8_mul_comm (a b : float) : float8_mul a b = float8_mul b a.
Proof.
  unfold float8_mul. rewrite (float_mul_comm b a). cbv zeta.
  destruct (isinf (a * b)), (isinf a), (isinf b), (iszero (a * b)),
           (iszero a), (iszero b); reflexivity.
Qed.

Lemma times_comm (x y : option float) : times x y = times y x.
Proof.
  destruct x as [a|], y as [b|]; cbn; try reflexivity.
  apply float8_mul_comm.
Qed.

(** Rounding does not look at the sign. *)
Lemma SFopp_binary_round (s : bool) (m : positive) (e : Z) :
  SFopp (binary_round prec emax s m e) = binary_round prec emax (negb s) m e.
Proof.
  unfold binary_round.
  destruct (shl_align m e _) as [mz ez]. unfold binary_round_aux.
  destruct (shr_fexp prec emax (Zpos mz) ez loc_Exact) as [mrs' e'].
  destruct (shr_fexp prec emax _ e' loc_Exact) as [mrs'' e''].
  destruct (shr_m mrs''); try reflexivity.
  now destruct (Z.leb e'' (emax - prec)).
Qed.

Lemma SFopp_binary_normalize (z e : Z) :
  binary_normalize prec emax (- z) e false
  = match z with
    | Z0 => binary_normalize prec emax z e false
    | _ => SFopp (binary_normalize prec emax z e false)
    end.
Proof.
  destruct z; cbn [Z.opp binary_normalize]; [reflexivity| |];
    now rewrite SFopp_binary_round.
Qed.

(** A difference taken the other way round is the same number or its
    opposite. *)
Lemma SFsub_swap (x y : spec_float) :
  SF64sub y x = SF64sub x y \/ SF64sub y x = SFopp (SF64sub x y).
Proof.
  unfold SF64sub, SFsub.
  destruct x as [sx|sx| |sx mx ex], y as [sy|sy| |sy my ey];
    try (left; reflexivity); try (right; reflexivity);
    try (destruct sx, sy; (left; reflexivity) || (right; reflexivity)).
  rewrite (Z.min_comm ey ex).
  set (ez := Z.min ex ey).
  set (u := cond_Zopp sx (Zpos (fst (shl_align mx ex ez)))).
  set (v := cond_Zopp sy (Zpos (fst (shl_align my ey ez)))).
  replace (v - u) with (- (u - v)) by lia.
  rewrite SFopp_binary_normalize.
  destruct (u - v); [left | right | right]; reflexivity.
Qed.

Lemma float_sub_swap (a b : float) :
  (b - a)%float = (a - b)%float \/ (b - a)%float = (- (a - b))%float.
Proof.
  destruct (SFsub_swap (Prim2SF a) (Prim2SF b)) as [E|E].
  - left. apply Prim2SF_inj. now rewrite !sub_spec.
  - right. apply Prim2SF_inj. now rewrite opp_spec, !sub_spec.
Qed.

Lemma dcos_opp (L : libm) (x : float) :
  (forall y, cos L (- y) = cos L y) -> dcos L (- x) = dcos L x.
Proof.
  intros E. unfold dcos. now rewrite isnan_opp, isinf_opp, E.
Qed.

(** The cosine of a difference does not depend on the order. *)
Lemma dcos_minus_swap (L : libm) (x y : option float) :
  (forall z, cos L (- z) = cos L z) ->
  bind (minus y x) (dcos L) = bind (minus x y) (dcos L).
Proof.
  intros E. destruct x as [a|], y as [b|]; try reflexivity.
  cbn [minus bind]. unfold float8_mi. cbv zeta.
  destruct (float_sub_swap a b) as [-> | ->].
  - destruct (isinf (a - b)), (isinf a), (isinf b); reflexivity.
  - rewrite isinf_opp.
    destruct (isinf (a - b)), (isinf a), (isinf b); cbn [andb negb bind];
      try reflexivity; now apply dcos_opp.
Qed.

Lemma distance_km_float_sym (L : libm) (a_lat a_lng b_lat b_lng : float) :
  (forall z, cos L (- z) = cos L z) ->
  Float8.distance_km L a_lat a_lng b_lat b_lng
  = Float8.distance_km L b_lat b_lng a_lat a_lng.
Proof.
  intros E. unfold Float8.distance_km.
  rewrite (dcos_minus_swap L (radians a_lng) (radians b_lng) E).
  rewrite (times_comm (bind (radians a_lat) (dcos L))).
  rewrite (times_comm (bind (radians a_lat) (dsin L))).
  reflexivity.
Qed.

Lemma reduced_sign (s s' : bool) (m : positive) (e : Z) :
  reduced (S754_finite s m e) = reduced (S754_finite s' m e).
Proof. unfold reduced. cbv [magnitude]. reflexivity. Qed.

Lemma cos_of_opp (x : spec_float) : cos_of (SFopp x) = cos_of x.
Proof.
  destruct x as [s|s| |s m e]; cbv [SFopp cos_of];
    [reflexivity | reflexivity | reflexivity |].
  now rewrite (reduced_sign (negb s) s).
Qed.

(** The cosine that rounds correctly is even. *)
Lemma correctly_rounded_even (x : float) :
  cos correctly_rounded (- x) = cos correctly_rounded x.
Proof.
  change (cos_of (Prim2SF (- x)) = cos_of (Prim2SF x)).
  rewrite opp_spec. apply cos_of_opp.
Qed.

End Float8Facts.

Section DistanceClaims.
Import PrimFloat.

(** C8.  The distance the two routines compute does not depend on the
    order of the two points: in float8, as the server evaluates it, with any
    math library whose cosine is even, and in exact arithmetic.  From a
    point to itself it is zero in exact arithmetic. *)
Theorem distance_km_symmetric (L : Float8.libm)
  (a_lat a_lng b_lat b_lng : float) (p_lat p_lng q_lat q_lng : R) :
  (forall z, Float8.cos L (- z) = Float8.cos L z) ->
  Float8.distance_km L a_lat a_lng b_lat b_lng
  = Float8.distance_km L b_lat b_lng a_lat a_lng
  /\ Geo.distance_km p_lat p_lng q_lat q_lng
     = Geo.distance_km q_lat q_lng p_lat p_lng
  /\ Geo.distance_km p_lat p_lng p_lat p_lng = 0%R.
Proof.
  intros E. split; [now apply distance_km_float_sym|].
  split; [apply distance_km_sym | apply distance_km_same].
Qed.

(** C8 (an input where the claim fails).  In float8 the distance from the
    point (23.0225, 72.5714) to itself is not zero: the squares of the
    cosine and of the sine of the latitude add up to 0.9999999999999999,
    whose arc cosine is 2^-26, and the routines give 6371 * 2^-26 km, about
    9.49e-05.  The coordinates are written as the doubles nearest to
    them. *)
Lemma distance_km_same_point_float8 :
  Float8.distance_km Float8.correctly_rounded
    0x1.705c28f5c28f6p+4 0x1.22491d14e3bcdp+6
    0x1.705c28f5c28f6p+4 0x1.22491d14e3bcdp+6
  = Some 0x1.8e3p-14%float.
Proof. vm_compute. reflexivity. Qed.

Lemma distance_km_symmetric_witness :
  (forall z, Float8.cos Float8.correctly_rounded (- z)
             = Float8.cos Float8.correctly_rounded z)
  /\ Float8.distance_km Float8.correctly_rounded
       0x1.9f0a3d70a3d71p+3 0x1.365c28f5c28f6p+6
       0x1.705c28f5c28f6p+4 0x1.22491d14e3bcdp+6
     = Float8.distance_km Float8.correctly_rounded
         0x1.705c28f5c28f6p+4 0x1.22491d14e3bcdp+6
         0x1.9f0a3d70a3d71p+3 0x1.365c28f5c28f6p+6.
Proof.
  split; [exact correctly_rounded_even|].
  exact (proj1 (distance_km_symmetric Float8.correctly_rounded
                  0x1.9f0a3d70a3d71p+3 0x1.365c28f5c28f6p+6
                  0x1.705c28f5c28f6p+4 0x1.22491d14e3bcdp+6
                  0 0 0 0 correctly_rounded_even)).
Defined.

End DistanceClaims.

(** ** The client without a position *)

Section ClientClaims.
Import Sql Schema Geo Client.

(** With no position on hand both screens send the point (0, 0). *)
Lemma sent_without_location :
  sent_lat None = 0%Q /\ sent_lng None = 0%Q.
Proof. split; reflexivity. Qed.

(** [fetchPharmacies] has no path that refuses to run. *)
Lemma fetchPharmacies_length d userCoordinates medicine_name sortBy :
  List.length (fetchPharmacies d userCoordinates medicine_name sortBy all)
  = List.length (filter (fun mp => available medicine_name (fst mp) (snd mp))
                   (joined d)).
Proof.
  assert (K : forall l : list Pharmacy, filter (keep all) l = l).
  { induction l as [|x l IH]; cbn; [reflexivity | now rewrite IH]. }
  unfold fetchPharmacies, get_medicine_availability.
  now rewrite length_order_by, K, length_map, length_order_by, length_map.
Qed.

(** Every pharmacy on the medicine screen has stock on hand and is shown as
    in stock or low on stock, never as out of stock. *)
Lemma fetchPharmacies_stock_status d userCoordinates medicine_name sortBy
  stockFilter v :
  In v (fetchPharmacies d userCoordinates medicine_name sortBy stockFilter) ->
  exists q, stock v = Some q /\ 0 < q
    /\ stockStatus v = Some (if 10 <? q then InStock else LowStock).
Proof.
  unfold fetchPharmacies. rewrite in_order_by, filter_In, in_map_iff.
  intros [[r [<- H]] _].
  apply in_get_medicine_availability in H as [m [p [_ [A ->]]]].
  unfold available in A.
  apply andb_true_iff in A as [A _]. apply andb_true_iff in A as [_ S].
  unfold in_stock in S. cbn. unfold stock_status.
  destruct (med_stock m) as [q|]; [|discriminate].
  exists q. split; [reflexivity|]. split; [now apply Z.ltb_lt|].
  rewrite S. reflexivity.
Qed.

(** C3 (the screen at the input of the claim).  With [userCoordinates]
    absent, [fetchPharmacies] does not refuse the query: it sends latitude 0
    and longitude 0 and shows the pharmacy with the distance measured from
    that point.  The prescription screen, given the same absent position,
    stops and asks for the location. *)
Theorem fetchPharmacies_without_location :
  fetchPharmacies Sample.shop None "Crocin" nearest all
  = [mkPharmacyView "ph1" "Apollo" "MG Road" (Some 12.97%Q) (Some 77.59%Q)
       (Some (distance_km (Q2R 0) (Q2R 0) (Q2R 12.97) (Q2R 77.59)))
       4%Q 2 (Some 30%Q) (Some 10) (Some LowStock) None None]
  /\ forall items,
       Prescription.findShops Sample.shop None items
       = Prescription.EnableLocation.
Proof.
  split; [|reflexivity].
  reflexivity.
Qed.

End ClientClaims.

(** ** The catalogue *)

Section CatalogClaims.
Import Catalog.

(** The worked case of the specification: Crocin at 30, 25 and 28 in three
    pharmacies comes out as one entry at 25 found in 3 stores. *)
Example aggregateCatalog_crocin :
  map (fun m => (name m, sellingPrice m, availableStores m))
    (aggregateCatalog Sample.crocin_in_three_shops)
  = [("Crocin", Some 25%Q, Some 3)].
Proof. vm_compute. reflexivity. Qed.

(** C6 (the screen at an input where the claim fails).  The counter goes up
    by one for every listing of the name: two listings of Crocin held by the
    one pharmacy [ph1] come out as one entry at the lower price, marked as
    found in 2 stores, while one pharmacy carries it. *)
Theorem aggregateCatalog_counts_listings :
  map (fun m => (name m, sellingPrice m, availableStores m))
    (aggregateCatalog Sample.crocin_twice_in_one_shop)
  = [("Crocin", Some 25%Q, Some 2)]
  /\ carriers Sample.crocin_twice_in_one_shop "Crocin" = [Some "ph1"].
Proof. vm_compute. split; reflexivity. Qed.

End CatalogClaims.

(** ** Matching a prescription *)

Section PrescriptionFacts.
Import Sql Schema Geo Prescription.

Lemma covers_spec p it m :
  covers p it m = true <->
  med_pharmacy_id m = Some (ph_id p)
  /\ same_name (med_name m) (rq_name it) = true
  /\ exists s, med_stock m = Some s /\ rq_qty it <= s.
Proof.
  unfold covers, eq_uuid. rewrite !andb_true_iff. split.
  - intros [[I N] S]. destruct (med_pharmacy_id m) as [i|]; [|discriminate].
    apply String.eqb_eq in I. subst i.
    destruct (med_stock m) as [s|]; [|discriminate].
    repeat split; auto. exists s. split; [reflexivity | now apply Z.leb_le].
  - intros [I [N [s [S L]]]]. rewrite I, S, String.eqb_refl.
    repeat split; auto. now apply Z.leb_le.
Qed.

Lemma listing_for_supplies d p it :
  (exists m, listing_for d p it = Some m) <-> supplies d p it.
Proof.
  unfold listing_for, supplies. split.
  - intros [m F]. apply find_some in F as [I C]. apply covers_spec in C.
    exists m. tauto.
  - intros [m [I C]]. apply covers_spec in C.
    destruct (find (covers p it) (medicines d)) as [m'|] eqn:F.
    + now exists m'.
    + exfalso. pose proof (find_none _ _ F m I) as N. congruence.
Qed.

Lemma total_cost_supplies d p items :
  (exists c, total_cost d p items = Some c) <->
  forall it, In it items -> supplies d p it.
Proof.
  induction items as [|it rest IH]; cbn.
  - split; [intros _ it [] | intros _; now exists 0%Q].
  - split.
    + intros [c H] it' [<-|I].
      * apply listing_for_supplies.
        destruct (listing_for d p it) as [m|]; [now exists m | discriminate].
      * apply IH; [|exact I].
        destruct (listing_for d p it); [|discriminate].
        destruct (total_cost d p rest) as [c'|]; [now exists c' | discriminate].
    + intros H.
      destruct (proj2 (listing_for_supplies d p it) (H it (or_introl eq_refl)))
        as [m ->].
      destruct (proj2 IH (fun x I => H x (or_intror I))) as [c' ->].
      eexists. reflexivity.
Qed.

Lemma covers_same_id p p' it m :
  ph_id p = ph_id p' -> covers p it m = covers p' it m.
Proof. unfold covers. now intros ->. Qed.

Lemma total_cost_same_id d p p' items :
  ph_id p = ph_id p' -> total_cost d p items = total_cost d p' items.
Proof.
  intros E. induction items as [|it rest IH]; cbn; [reflexivity|].
  unfold listing_for.
  replace (find (covers p it) (medicines d))
    with (find (covers p' it) (medicines d)).
  - now rewrite IH.
  - induction (medicines d) as [|m ms IHm]; cbn; [reflexivity|].
    now rewrite (covers_same_id p p' it m E), IHm.
Qed.

(** Where a row of the answer comes from. *)
Lemma in_find_pharmacies d items user_lat user_lng r :
  In r (find_pharmacies_for_prescription d items user_lat user_lng) <->
  exists p c, In p (pharmacies d) /\ total_cost d p items = Some c
    /\ r = mkMatch (ph_id p) (ph_name p) (ph_address p) c
             (row_distance user_lat user_lng p).
Proof.
  unfold find_pharmacies_for_prescription.
  rewrite in_order_by, in_flat_map. unfold match_of. split.
  - intros [p [I H]].
    destruct (total_cost d p items) as [c|] eqn:T; [|destruct H].
    destruct H as [<-|[]]. now exists p, c.
  - intros [p [c [I [T ->]]]]. exists p. split; [exact I|].
    rewrite T. now left.
Qed.

Lemma total_cost_sum d p items c :
  total_cost d p items = Some c -> c = sum_of_lines d p items.
Proof.
  revert c. induction items as [|it rest IH]; cbn; intros c.
  - now intros [= <-].
  - unfold price_at. destruct (listing_for d p it) as [m|]; [|discriminate].
    destruct (total_cost d p rest) as [c'|]; [|discriminate].
    intros [= <-]. now rewrite (IH c' eq_refl).
Qed.

End PrescriptionFacts.

Section PrescriptionClaims.
Import Sql Schema Geo Prescription.

(** C7.  A pharmacy is in the answer exactly when it can supply every
    requested item in full, and its row carries the sum over the items of
    its own unit price times the requested quantity. *)
Theorem find_pharmacies_all_or_nothing d items user_lat user_lng :
  let answer := find_pharmacies_for_prescription d items user_lat user_lng in
  let row p := mkMatch (ph_id p) (ph_name p) (ph_address p)
                 (sum_of_lines d p items) (row_distance user_lat user_lng p) in
  (forall p, In p (pharmacies d) ->
     (forall it, In it items -> supplies d p it) -> In (row p) answer)
  /\ (forall r, In r answer ->
        exists p, In p (pharmacies d)
          /\ (forall it, In it items -> supplies d p it)
          /\ r = row p).
Proof.
  cbn zeta. split.
  - intros p I S. apply in_find_pharmacies.
    apply total_cost_supplies in S as [c T].
    exists p, c. split; [exact I|]. split; [exact T|].
    now rewrite (total_cost_sum _ _ _ _ T).
  - intros r H. apply in_find_pharmacies in H as [p [c [I [T ->]]]].
    exists p. split; [exact I|]. split.
    + apply total_cost_supplies. now exists c.
    + now rewrite (total_cost_sum _ _ _ _ T).
Qed.

Lemma find_pharmacies_all_or_nothing_witness :
  In Sample.apollo (pharmacies Sample.two_shops)
  /\ (forall it, In it Sample.prescription ->
        supplies Sample.two_shops Sample.apollo it)
  /\ In (mkMatch "ph1" "Apollo" "MG Road"
           (sum_of_lines Sample.two_shops Sample.apollo Sample.prescription)
           (row_distance 12.97 77.59 Sample.apollo))
       (find_pharmacies_for_prescription Sample.two_shops Sample.prescription
          12.97 77.59).
Proof.
  assert (I : In Sample.apollo (pharmacies Sample.two_shops))
    by (left; reflexivity).
  assert (S : forall it, In it Sample.prescription ->
                supplies Sample.two_shops Sample.apollo it).
  { intros it [<-|[<-|[]]].
    - exists (mkMedicine "a1" (Some "ph1") "Paracetamol" (Some 2%Q) (Some 40)).
      split; [left; reflexivity|]. split; [reflexivity|].
      split; [reflexivity|]. exists 40. split; [reflexivity | cbn; lia].
    - exists (mkMedicine "a2" (Some "ph1") "Amoxicillin" (Some 9%Q) (Some 6)).
      split; [right; left; reflexivity|]. split; [reflexivity|].
      split; [reflexivity|]. exists 6. split; [reflexivity | cbn; lia]. }
  split; [exact I|]. split; [exact S|].
  exact (proj1 (find_pharmacies_all_or_nothing Sample.two_shops
                  Sample.prescription 12.97 77.59) Sample.apollo I S).
Defined.

(** The worked case of the specification: the pharmacy without Amoxicillin
    is left out although it has the Paracetamol; the one with both is in,
    at 10 * 2 + 6 * 9. *)
Example find_pharmacies_paracetamol_amoxicillin :
  map (fun r => (mr_pharmacy_id r, mr_total_cost r))
    (find_pharmacies_for_prescription Sample.two_shops Sample.prescription
       12.97 77.59)
  = [("ph1", (2 * 10 + (9 * 6 + 0))%Q)].
Proof. reflexivity. Qed.

End PrescriptionClaims.

Section CatalogFacts.
Import Catalog.

Lemma get_in u k v : get u k = Some v -> In (k, v) u.
Proof.
  induction u as [|[k' v'] u IH]; cbn; [discriminate|].
  destruct (String.eqb k' k) eqn:E.
  - apply String.eqb_eq in E. intros [= ->]. subst. now left.
  - intros H. right. now apply IH.
Qed.

Lemma get_none u k : get u k = None -> ~ In k (map fst u).
Proof.
  induction u as [|[k' v'] u IH]; cbn; [tauto|].
  destruct (String.eqb k' k) eqn:E; [discriminate|].
  apply String.eqb_neq in E. intros H [C|C]; [congruence | now apply IH].
Qed.

Lemma keys_put_new u k v :
  ~ In k (map fst u) -> put u k v = (u ++ [(k, v)])%list.
Proof.
  induction u as [|[k' v'] u IH]; cbn; [reflexivity|].
  intros N. destruct (String.eqb k' k) eqn:E.
  - apply String.eqb_eq in E. tauto.
  - rewrite IH; tauto.
Qed.

Lemma keys_put_old u k v :
  In k (map fst u) -> map fst (put u k v) = map fst u.
Proof.
  induction u as [|[k' v'] u IH]; cbn; [tauto|].
  destruct (String.eqb k' k) eqn:E.
  - apply String.eqb_eq in E. now subst.
  - apply String.eqb_neq in E. intros [C|C]; [congruence|].
    cbn. now rewrite IH.
Qed.

Lemma in_put_old u k v k' v' :
  NoDup (map fst u) -> In k (map fst u) ->
  In (k', v') (put u k v) ->
  (k' = k /\ v' = v) \/ (k' <> k /\ In (k', v') u).
Proof.
  induction u as [|[k0 v0] u IH]; cbn; [tauto|].
  intros ND I. inversion ND as [|? ? N0 ND']; subst.
  destruct (String.eqb k0 k) eqn:E.
  - apply String.eqb_eq in E. subst k0. cbn. intros [[= -> ->]|H].
    + now left.
    + right. split; [|now right].
      intros ->. apply N0. apply (in_map fst) in H. exact H.
  - apply String.eqb_neq in E. cbn. intros [[= -> ->]|H].
    + right. split; [congruence | now left].
    + destruct I as [C|I]; [congruence|].
      destruct (IH ND' I H) as [L|[L R]]; [now left|].
      right. split; [exact L | now right].
Qed.

Lemma group_snoc seen m k :
  group (seen ++ [m]) k
  = (group seen k ++ (if String.eqb (name m) k then [m] else []))%list.
Proof. unfold group. rewrite filter_app. reflexivity. Qed.

Lemma group_nonempty seen k :
  In k (map name seen) -> (0 < List.length (group seen k))%nat.
Proof.
  intros H. apply in_map_iff in H as [m [E I]].
  assert (G : In m (group seen k)).
  { apply filter_In. split; [exact I|]. now apply String.eqb_eq. }
  destruct (group seen k); [destruct G | cbn; lia].
Qed.

Lemma group_empty seen k :
  ~ In k (map name seen) -> group seen k = [].
Proof.
  intros N. unfold group.
  induction seen as [|m seen IH]; cbn; [reflexivity|].
  destruct (String.eqb (name m) k) eqn:E.
  - apply String.eqb_eq in E. exfalso. apply N. now left.
  - apply IH. intros C. apply N. now right.
Qed.

Lemma entry_other seen m k v :
  name m <> k -> entry_of seen k v -> entry_of (seen ++ [m]) k v.
Proof.
  intros N. unfold entry_of. rewrite group_snoc.
  replace (String.eqb (name m) k) with false
    by (symmetry; now apply String.eqb_neq).
  now rewrite app_nil_r.
Qed.

Lemma names_snoc seen m k :
  In k (map name (seen ++ [m])) <-> In k (map name seen) \/ k = name m.
Proof.
  rewrite map_app, in_app_iff. cbn. intuition.
Qed.

Lemma put_old_summarises seen u m v :
  summarises seen u -> In (name m) (map fst u) ->
  entry_of (seen ++ [m]) (name m) v ->
  summarises (seen ++ [m]) (put u (name m) v).
Proof.
  intros [ND [K E]] I V. split; [|split].
  - now rewrite keys_put_old.
  - intros k. rewrite keys_put_old by exact I. rewrite names_snoc, K.
    split; [tauto|]. intros [H| ->]; [exact H | now apply K].
  - intros k' v' H.
    destruct (in_put_old _ _ _ _ _ ND I H) as [[-> ->]|[N O]]; [exact V|].
    apply entry_other; [congruence | now apply E].
Qed.

Lemma put_new_summarises seen u m v :
  summarises seen u -> ~ In (name m) (map fst u) ->
  entry_of (seen ++ [m]) (name m) v ->
  summarises (seen ++ [m]) (put u (name m) v).
Proof.
  intros [ND [K E]] N V. rewrite keys_put_new by exact N. split; [|split].
  - rewrite map_app. cbn. apply NoDup_app; [exact ND | | ].
    + constructor; [tauto | constructor].
    + intros k I [<-|[]]. tauto.
  - intros k. rewrite names_snoc, map_app, in_app_iff, K. cbn. intuition.
  - intros k' v' H. apply in_app_iff in H as [H|[[= <- <-]|[]]]; [|exact V].
    apply entry_other; [|now apply E].
    intros C. apply N. rewrite C. apply (in_map fst) in H. exact H.
Qed.

Lemma Qltb_lt a b : Qltb a b = true -> (a < b)%Q.
Proof.
  unfold Qltb. intros H. apply negb_true_iff in H.
  apply Qnot_le_lt. intros C. apply Qle_bool_iff in C. congruence.
Qed.

Lemma Qltb_ge a b : Qltb a b = false -> (b <= a)%Q.
Proof.
  unfold Qltb. intros H. apply negb_false_iff in H. now apply Qle_bool_iff.
Qed.

(** One listing more keeps the record a summary of what was visited. *)
Lemma visit_summarises seen u m :
  summarises seen u -> summarises (seen ++ [m]) (visit u m).
Proof.
  intros S. pose proof S as [ND [K E]]. unfold visit.
  destruct (get u (name m)) as [cur|] eqn:G.
  - pose proof (get_in _ _ _ G) as I.
    assert (Ik : In (name m) (map fst u)) by (apply (in_map fst) in I; exact I).
    destruct (E _ _ I) as [Nc [[m0 [Im0 Ec]] Min]].
    pose proof (group_nonempty seen (name m) (proj1 (K _) Ik)) as Pos.
    assert (G' : group (seen ++ [m]) (name m)
                 = (group seen (name m) ++ [m])%list)
      by (now rewrite group_snoc, String.eqb_refl).
    assert (Cnt : stores_or_one cur + 1
                  = Z.of_nat (List.length (group (seen ++ [m]) (name m)))).
    { rewrite G', length_app. cbn. subst cur. unfold stores_or_one. cbn.
      destruct (Z.of_nat (List.length (group seen (name m))) =? 0) eqn:Z0;
        [apply Z.eqb_eq in Z0|]; lia. }
    assert (P : price_or_zero (with_availableStores cur (stores_or_one cur + 1))
                = price_or_zero cur) by reflexivity.
    rewrite P.
    destruct (Qltb (price_or_zero m) (price_or_zero cur)) eqn:L;
      apply put_old_summarises; try assumption.
    + apply Qltb_lt in L. split; [reflexivity|]. split.
      * exists m. rewrite G'. split; [apply in_app_iff; right; now left|].
        now rewrite Cnt, G'.
      * rewrite G'. intros m' H. apply in_app_iff in H as [H|[<-|[]]].
        -- change (price_or_zero m <= price_or_zero m')%Q.
           apply Qlt_le_weak. eapply Qlt_le_trans; [exact L | now apply Min].
        -- apply Qle_refl.
    + apply Qltb_ge in L. split; [exact Nc|]. split.
      * exists m0. rewrite G'. split; [apply in_app_iff; now left|].
        rewrite Cnt, G'. now subst cur.
      * rewrite G'. intros m' H. apply in_app_iff in H as [H|[<-|[]]].
        -- now apply Min.
        -- exact L.
  - apply get_none in G. apply put_new_summarises; try assumption.
    assert (G' : group (seen ++ [m]) (name m) = [m]).
    { rewrite group_snoc, String.eqb_refl, group_empty; [reflexivity|].
      intros C. apply G. now apply K. }
    split; [reflexivity|]. rewrite G'. split.
    + exists m. split; [now left | reflexivity].
    + intros m' [<-|[]]. apply Qle_refl.
Qed.

Lemma fold_visit_summarises l : forall seen u,
  summarises seen u -> summarises (seen ++ l) (fold_left visit l u).
Proof.
  induction l as [|m l IH]; intros seen u S; cbn.
  - now rewrite app_nil_r.
  - replace (seen ++ m :: l)%list with ((seen ++ [m]) ++ l)%list
      by (now rewrite <- app_assoc).
    apply IH. now apply visit_summarises.
Qed.

(** What [aggregateCatalog] returns: one entry for each name among the
    listings and no other; the entry is a listing of that name at the lowest
    price of its group, and [availableStores] is the number of listings in
    the group. *)
Lemma aggregateCatalog_summary filtered :
  NoDup (map name (aggregateCatalog filtered))
  /\ (forall n, In n (map name (aggregateCatalog filtered))
                <-> In n (map name filtered))
  /\ forall e, In e (aggregateCatalog filtered) ->
       (exists m, In m (group filtered (name e))
          /\ e = with_availableStores m
                   (Z.of_nat (List.length (group filtered (name e)))))
       /\ forall m, In m (group filtered (name e)) ->
            (price_or_zero e <= price_or_zero m)%Q.
Proof.
  assert (S0 : summarises [] []).
  { split; [constructor|]. split; [reflexivity | intros k v []]. }
  pose proof (fold_visit_summarises filtered [] [] S0) as [ND [K E]].
  cbn in ND, K, E. unfold aggregateCatalog.
  set (u := fold_left visit filtered []) in *.
  assert (N : map name (map snd u) = map fst u).
  { rewrite map_map. apply map_ext_in. intros [k v] I. cbn.
    now destruct (E k v I) as [Nv _]. }
  rewrite N. split; [exact ND|]. split; [exact K|].
  intros e H. apply in_map_iff in H as [[k v] [<- I]]. cbn.
  destruct (E k v I) as [Nv [R M]]. now rewrite Nv.
Qed.

(** Where no pharmacy lists a name twice, the counter is the number of
    pharmacies that carry the name. *)
Lemma carriers_one_listing_each filtered n :
  NoDup (map pharmacyId (group filtered n)) ->
  List.length (carriers filtered n) = List.length (group filtered n).
Proof.
  intros H. unfold carriers.
  rewrite (nodup_fixed_point pharmacyId_dec H). apply length_map.
Qed.

End CatalogFacts.

(** ** The ledger: what a sale writes *)

Section LedgerFacts.
Import Sql Schema Billing Ledger.

(** The stock on file for key [j] in a list of listings. *)
Lemma stock_of_medicines d ms j :
  stock_of (with_medicines d ms) j
  = match find (fun m => String.eqb (med_id m) j) ms with
    | Some m => med_stock m
    | None => None
    end.
Proof. reflexivity. Qed.

Lemma decrease_stock_ids ms i q : forall ms',
  decrease_stock ms i q = Ok ms' -> map med_id ms' = map med_id ms.
Proof.
  induction ms as [|m ms IH]; intros ms'; cbn.
  - now intros [= <-].
  - destruct (String.eqb (med_id m) i).
    + destruct (med_stock m) as [s|]; cbn.
      * unfold int4. destruct (in_int4 (s - q)); cbn; [|discriminate].
        destruct (decrease_stock ms i q) as [rest|]; cbn; [|discriminate].
        intros [= <-]. cbn. now rewrite (IH rest).
      * destruct (decrease_stock ms i q) as [rest|]; cbn; [|discriminate].
        intros [= <-]. cbn. now rewrite (IH rest).
    + destruct (decrease_stock ms i q) as [rest|]; cbn; [|discriminate].
      intros [= <-]. cbn. now rewrite (IH rest).
Qed.

Lemma decrease_stock_other ms i q j : forall ms',
  decrease_stock ms i q = Ok ms' -> String.eqb i j = false ->
  option_map med_stock (find (fun m => String.eqb (med_id m) j) ms')
  = option_map med_stock (find (fun m => String.eqb (med_id m) j) ms).
Proof.
  induction ms as [|m ms IH]; intros ms' D N; cbn in D.
  - now injection D as <-.
  - assert (K : forall m', med_id m' = med_id m ->
              (String.eqb (med_id m) i = false -> m' = m) ->
              forall rest, decrease_stock ms i q = Ok rest ->
              option_map med_stock
                (find (fun x => String.eqb (med_id x) j) (m' :: rest))
              = option_map med_stock
                  (find (fun x => String.eqb (med_id x) j) (m :: ms))).
    { intros m' Im Eq rest R. cbn. rewrite Im.
      destruct (String.eqb (med_id m) j) eqn:E.
      - apply String.eqb_eq in E.
        rewrite Eq; [reflexivity|].
        rewrite E. apply String.eqb_neq. apply String.eqb_neq in N. congruence.
      - now apply IH. }
    destruct (String.eqb (med_id m) i) eqn:E.
    + destruct (med_stock m) as [s|]; cbn in D.
      * unfold int4 in D. destruct (in_int4 (s - q)); cbn in D; [|discriminate].
        destruct (decrease_stock ms i q) as [rest|]; cbn in D; [|discriminate].
        injection D as <-. apply K; [reflexivity | discriminate | reflexivity].
      * destruct (decrease_stock ms i q) as [rest|]; cbn in D; [|discriminate].
        injection D as <-. apply K; [reflexivity | reflexivity | reflexivity].
    + destruct (decrease_stock ms i q) as [rest|]; cbn in D; [|discriminate].
      injection D as <-. apply K; [reflexivity | reflexivity | reflexivity].
Qed.

(** One [UPDATE] on the stock read through [stock_of]. *)
Lemma decrease_stock_effect d ms i q j :
  decrease_stock (medicines d) i q = Ok ms ->
  stock_of (with_medicines d ms) j
  = option_map (fun s => s - (if String.eqb i j then q else 0)) (stock_of d j).
Proof.
  intros D. rewrite stock_of_medicines. unfold stock_of, find_medicine.
  destruct (String.eqb i j) eqn:E.
  - apply String.eqb_eq in E. subst j.
    pose proof (decrease_stock_find _ _ _ _ D) as F.
    destruct (find _ ms) as [m'|]; destruct (find _ (medicines d)) as [m|];
      cbn in F; try discriminate.
    + now injection F.
    + reflexivity.
  - pose proof (decrease_stock_other _ _ _ _ _ D E) as F.
    destruct (find _ ms) as [m'|]; destruct (find _ (medicines d)) as [m|];
      cbn in F; try discriminate.
    + injection F as ->. destruct (med_stock m); cbn; [f_equal; lia | reflexivity].
    + reflexivity.
Qed.

(** What it takes for one more line of the cart to go through. *)
Lemma process_items_step d e v item rest d' :
  process_items d e v (item :: rest) = Ok d' ->
  in_int4 (ci_quantity item) = true
  /\ has_medicine d (ci_id item) = true
  /\ exists ms,
       decrease_stock (medicines d) (ci_id item) (ci_quantity item) = Ok ms
       /\ process_items
            (with_medicines
               (with_sale_items d (sale_items d ++ [sale_item_row v item])) ms)
            e v rest = Ok d'.
Proof.
  cbn. unfold insert_sale_item, int4.
  destruct (cast_expiry_date e item) as [[]|]; cbn; [|discriminate].
  destruct (in_int4 (ci_quantity item)); cbn; [|discriminate].
  destruct (has_medicine d (ci_id item)); cbn; [|discriminate].
  destruct (decrease_stock (medicines d) (ci_id item) (ci_quantity item))
    as [ms|] eqn:D; cbn; [|discriminate].
  intros H. repeat split. exists ms. split; [reflexivity | exact H].
Qed.

Lemma process_items_stock items : forall d e v d' j,
  process_items d e v items = Ok d' ->
  stock_of d' j = option_map (fun s => s - asked items j) (stock_of d j).
Proof.
  induction items as [|item rest IH]; intros d e v d' j H.
  - cbn in H. injection H as <-. cbn.
    destruct (stock_of d j); cbn; [f_equal; lia | reflexivity].
  - apply process_items_step in H as [_ [_ [ms [D H]]]].
    rewrite (IH _ _ _ _ j H).
    rewrite (decrease_stock_effect
               (with_sale_items d (sale_items d ++ [sale_item_row v item]))
               ms (ci_id item) (ci_quantity item) j D).
    change (stock_of (with_sale_items d _) j) with (stock_of d j).
    cbn [asked]. destruct (stock_of d j); cbn; [f_equal; lia | reflexivity].
Qed.

Lemma process_items_tables items : forall d e v d',
  process_items d e v items = Ok d' ->
  sale_items d' = (sale_items d ++ map (sale_item_row v) items)%list
  /\ sales d' = sales d /\ pharmacies d' = pharmacies d
  /\ bookings d' = bookings d /\ reviews d' = reviews d
  /\ auth_users d' = auth_users d
  /\ map med_id (medicines d') = map med_id (medicines d).
Proof.
  induction items as [|item rest IH]; intros d e v d' H.
  - cbn in H. injection H as <-. cbn. rewrite app_nil_r. repeat split.
  - apply process_items_step in H as [_ [_ [ms [D H]]]].
    apply IH in H as [S [A [B [C [R [U M]]]]]]. cbn in *.
    rewrite S, A, B, C, R, U, M, <- app_assoc.
    rewrite (decrease_stock_ids _ _ _ _ D). repeat split.
Qed.

Lemma process_items_lines items : forall d e v d',
  process_items d e v items = Ok d' ->
  forall item, In item items ->
    in_int4 (ci_quantity item) = true /\ has_medicine d (ci_id item) = true.
Proof.
  induction items as [|it rest IH]; intros d e v d' H item I; [destruct I|].
  apply process_items_step in H as [Q [M [ms [D H]]]].
  destruct I as [<-|I]; [now split|].
  destruct (IH _ _ _ _ H item I) as [Q' M']. split; [exact Q'|].
  unfold has_medicine in *. cbn in M'.
  rewrite existsb_exists in *. destruct M' as [m [Im E]].
  apply (in_map med_id) in Im. rewrite (decrease_stock_ids _ _ _ _ D) in Im.
  apply in_map_iff in Im as [m0 [E0 I0]]. exists m0. split; [exact I0|].
  now rewrite E0.
Qed.

(** What it takes for a sale to go through, and the store it then works
    on. *)
Lemma process_sale_accepted d e a d' r :
  process_sale d e a = (d', Ok r) ->
  invoice_seq d <= int8_max
  /\ has_sale d (fresh_sale_id e) = false
  /\ (forall i, p_pharmacy_id a = Some i -> has_pharmacy d i = true)
  /\ r = mkReceipt (fresh_sale_id e) (invoice_number e (invoice_seq d))
  /\ process_items
       (with_sales (with_invoice_seq d (invoice_seq d + 1))
          (sales d ++ [sale_row e a (invoice_seq d)]))
       e (fresh_sale_id e) (p_items a) = Ok d'.
Proof.
  unfold process_sale, nextval.
  destruct (invoice_seq d <=? int8_max) eqn:L; [|discriminate].
  apply Z.leb_le in L.
  destruct (sale_body _ e a _) as [[d2 r2]|err] eqn:B; [|discriminate].
  intros [= <- <-]. unfold sale_body, insert_sale in B.
  change (has_sale (with_invoice_seq d (invoice_seq d + 1)) (fresh_sale_id e))
    with (has_sale d (fresh_sale_id e)) in B.
  destruct (has_sale d (fresh_sale_id e)) eqn:S; [discriminate|].
  destruct (p_pharmacy_id a) as [i|] eqn:P.
  - change (has_pharmacy (with_invoice_seq d (invoice_seq d + 1)) i)
      with (has_pharmacy d i) in B.
    destruct (has_pharmacy d i) eqn:Hp; [|discriminate].
    cbn [bind fst snd] in B.
    destruct (process_items _ _ _) as [d4|] eqn:I; cbn in B; [|discriminate].
    injection B as <- <-. repeat split; try assumption.
    + intros i' [= <-]. exact Hp.
    + unfold sale_row. rewrite P. exact I.
  - cbn [bind fst snd] in B.
    destruct (process_items _ _ _) as [d4|] eqn:I; cbn in B; [|discriminate].
    injection B as <- <-. repeat split; try assumption.
    + discriminate.
    + unfold sale_row. rewrite P. exact I.
Qed.

End LedgerFacts.

Section LedgerProperties.
Import Sql Schema Billing Ledger.

(** X1.  A sale that goes through takes from every listing the quantity the
    cart asks of it, all lines together, and leaves the other listings as
    they were; a listing asked for no more than it holds does not go below
    zero. *)
Theorem process_sale_takes_stock d e a d' r i :
  process_sale d e a = (d', Ok r) ->
  stock_of d' i
  = option_map (fun s => s - asked (p_items a) i) (stock_of d i)
  /\ (asked (p_items a) i = 0 -> stock_of d' i = stock_of d i)
  /\ (forall s, stock_of d i = Some s -> asked (p_items a) i <= s ->
        exists s', stock_of d' i = Some s' /\ 0 <= s').
Proof.
  intros H. apply process_sale_accepted in H as [_ [_ [_ [_ H]]]].
  pose proof (process_items_stock _ _ _ _ _ i H) as E.
  change (stock_of (with_sales _ _) i) with (stock_of d i) in E.
  split; [exact E|]. split.
  - intros Z0. rewrite E, Z0. destruct (stock_of d i); cbn;
      [f_equal; lia | reflexivity].
  - intros s S L. rewrite E, S. cbn. eexists. split; [reflexivity | lia].
Qed.

Lemma process_sale_takes_stock_witness :
  process_sale Sample.shop (Sample.first_of_december "s1") (Sample.sell 3)
  = (Sample.after_first_sale, Ok (mkReceipt "s1" "INV-241201-1001"))
  /\ stock_of Sample.after_first_sale "m1"
     = option_map (fun s => s - asked (p_items (Sample.sell 3)) "m1")
         (stock_of Sample.shop "m1")
  /\ stock_of Sample.after_first_sale "m1" = Some 7.
Proof.
  assert (H : process_sale Sample.shop (Sample.first_of_december "s1")
                (Sample.sell 3)
              = (Sample.after_first_sale,
                 Ok (mkReceipt "s1" "INV-241201-1001")))
    by (vm_compute; reflexivity).
  split; [exact H|]. split.
  - exact (proj1 (process_sale_takes_stock _ _ _ _ _ "m1" H)).
  - vm_compute. reflexivity.
Defined.

(** X2.  A sale that goes through writes one row of [sales], carrying the
    key and the invoice number of the receipt, and one row of [sale_items]
    for each line of the cart, in the order of the cart, all under that key;
    pharmacies, bookings and reviews are not touched and no listing is
    added or removed. *)
Theorem process_sale_writes d e a d' r :
  process_sale d e a = (d', Ok r) ->
  sales d' = (sales d ++ [sale_row e a (invoice_seq d)])%list
  /\ sale_id (sale_row e a (invoice_seq d)) = rc_id r
  /\ sale_invoice_number (sale_row e a (invoice_seq d)) = rc_invoice_number r
  /\ sale_items d'
     = (sale_items d ++ map (sale_item_row (rc_id r)) (p_items a))%list
  /\ pharmacies d' = pharmacies d /\ bookings d' = bookings d
  /\ reviews d' = reviews d
  /\ map med_id (medicines d') = map med_id (medicines d).
Proof.
  intros H. apply process_sale_accepted in H as [_ [_ [_ [-> H]]]].
  apply process_items_tables in H as [S [A [B [C [R [U M]]]]]].
  cbn in *. repeat split; assumption.
Qed.

Lemma process_sale_writes_witness :
  process_sale Sample.shop (Sample.first_of_december "s1") (Sample.sell 3)
  = (Sample.after_first_sale, Ok (mkReceipt "s1" "INV-241201-1001"))
  /\ List.length (sales Sample.after_first_sale) = 1%nat
  /\ map si_quantity (sale_items Sample.after_first_sale) = [3].
Proof.
  assert (H : process_sale Sample.shop (Sample.first_of_december "s1")
                (Sample.sell 3)
              = (Sample.after_first_sale,
                 Ok (mkReceipt "s1" "INV-241201-1001")))
    by (vm_compute; reflexivity).
  destruct (process_sale_writes _ _ _ _ _ H) as [S [_ [_ [I _]]]].
  split; [exact H|]. rewrite S, I. split; reflexivity.
Defined.


(** X4.  A sale goes through only if the key of the new sale is not on
    file, the pharmacy (when given) is on file, every line of the cart names
    a listing on file and carries a quantity in the range of [int], and the
    sequence has not run out. *)
Theorem process_sale_needs d e a d' r :
  process_sale d e a = (d', Ok r) ->
  invoice_seq d <= int8_max
  /\ has_sale d (fresh_sale_id e) = false
  /\ (forall i, p_pharmacy_id a = Some i -> has_pharmacy d i = true)
  /\ forall item, In item (p_items a) ->
       has_medicine d (ci_id item) = true
       /\ int4_min <= ci_quantity item <= int4_max.
Proof.
  intros H. apply process_sale_accepted in H as [L [S [P [_ H]]]].
  split; [exact L|]. split; [exact S|]. split; [exact P|].
  intros item I.
  destruct (process_items_lines _ _ _ _ _ H item I) as [Q M].
  split; [exact M|].
  unfold in_int4 in Q. apply andb_true_iff in Q as [Q1 Q2].
  split; now apply Z.leb_le.
Qed.

Lemma process_sale_needs_witness :
  process_sale Sample.shop (Sample.first_of_december "s1") (Sample.sell 3)
  = (Sample.after_first_sale, Ok (mkReceipt "s1" "INV-241201-1001"))
  /\ has_sale Sample.shop "s1" = false
  /\ has_pharmacy Sample.shop "ph1" = true.
Proof.
  assert (H : process_sale Sample.shop (Sample.first_of_december "s1")
                (Sample.sell 3)
              = (Sample.after_first_sale,
                 Ok (mkReceipt "s1" "INV-241201-1001")))
    by (vm_compute; reflexivity).
  destruct (process_sale_needs _ _ _ _ _ H) as [_ [S [P _]]].
  split; [exact H|]. split; [exact S|]. exact (P "ph1" eq_refl).
Defined.

End LedgerProperties.

(** ** The ledger: what a review writes *)

Section ReviewLedgerFacts.
Import Sql Schema Reviews Ledger.

(** What it takes for a review to go through, and the store it leaves. *)
Lemma submit_review_inversion d a d' :
  submit_review d a = (d', Ok tt) ->
  1 <= p_rating a <= 5
  /\ has_user d (p_user_id a) = true
  /\ exists p r,
       find_pharmacy d (p_pharmacy_id a) = Some p
       /\ new_rating (coalesce (ph_rating p) 0%Q)
            (coalesce (ph_review_count p) 0) (p_rating a) = Ok r
       /\ in_int4 (coalesce (ph_review_count p) 0 + 1) = true
       /\ d' = with_pharmacies
                 (with_bookings
                    (with_reviews d
                       (reviews d ++ [mkReview (p_booking_id a)
                          (p_pharmacy_id a) (p_user_id a) (p_rating a)
                          (p_comment a)]))
                    (mark_rated (bookings d) (p_booking_id a)))
                 (update_stats (pharmacies d) (p_pharmacy_id a) r
                    (coalesce (ph_review_count p) 0 + 1)).
Proof.
  unfold submit_review, review_body, insert_review.
  destruct ((1 <=? p_rating a) && (p_rating a <=? 5))%bool eqn:R; cbn;
    [|discriminate].
  destruct (has_pharmacy d (p_pharmacy_id a)) eqn:P; cbn; [|discriminate].
  destruct (has_user d (p_user_id a)) eqn:U; cbn; [|discriminate].
  apply andb_true_iff in R as [R1 R2]. apply Z.leb_le in R1, R2.
  unfold find_pharmacy.
  destruct (find _ (pharmacies d)) as [p|] eqn:F.
  - cbv zeta.
    destruct (new_rating (coalesce (ph_rating p) 0%Q)
                (coalesce (ph_review_count p) 0) (p_rating a))
      as [r|] eqn:N; cbn [bind]; [|discriminate].
    unfold int4.
    destruct (in_int4 (coalesce (ph_review_count p) 0 + 1)) eqn:I;
      cbn [bind]; [|discriminate].
    intros [= <-]. split; [lia|]. split; [reflexivity|].
    exists p, r. repeat split; assumption.
  - exfalso. unfold has_pharmacy in *.
    apply existsb_exists in P as [q [Iq Eq]].
    pose proof (find_none _ _ F q Iq) as C. cbn in C. congruence.
Qed.

(** Whatever the outcome, a review leaves the sales, the listings and the
    sequence alone. *)
Lemma submit_review_frame d a :
  sales (fst (submit_review d a)) = sales d
  /\ sale_items (fst (submit_review d a)) = sale_items d
  /\ medicines (fst (submit_review d a)) = medicines d
  /\ auth_users (fst (submit_review d a)) = auth_users d
  /\ invoice_seq (fst (submit_review d a)) = invoice_seq d.
Proof.
  destruct (submit_review d a) as [d' [[]|err]] eqn:E.
  - apply submit_review_inversion in E
      as [_ [_ [p [r [_ [_ [_ ->]]]]]]]. cbn. repeat split.
  - unfold submit_review in E. destruct (review_body d a); [discriminate|].
    injection E as <- _. repeat split.
Qed.

Lemma submit_review_refused d a d' err :
  submit_review d a = (d', Raise err) -> d' = d.
Proof.
  unfold submit_review. destruct (review_body d a); [discriminate|].
  now intros [= <- _].
Qed.

Lemma find_update_stats_other ps i r c j :
  String.eqb i j = false ->
  find (fun q => String.eqb (ph_id q) j) (update_stats ps i r c)
  = find (fun q => String.eqb (ph_id q) j) ps.
Proof.
  intros N. induction ps as [|q ps IH]; cbn; [reflexivity|].
  destruct (String.eqb (ph_id q) i) eqn:E; cbn.
  - apply String.eqb_eq in E. rewrite E, N. exact IH.
  - destruct (String.eqb (ph_id q) j); [reflexivity | exact IH].
Qed.

Lemma find_pharmacy_id d i p : find_pharmacy d i = Some p -> ph_id p = i.
Proof.
  unfold find_pharmacy. intros H. apply find_some in H as [_ E].
  now apply String.eqb_eq.
Qed.

Lemma ratings_of_with_pharmacies d ps i :
  ratings_of (with_pharmacies d ps) i = ratings_of d i.
Proof. reflexivity. Qed.

(** The two branches of the routine give the one quotient, whenever they
    give a value. *)
Lemma new_rating_value avg count rating r :
  0 <= count -> new_rating avg count rating = Ok r ->
  (r * inject_Z (count + 1) == avg * inject_Z count + inject_Z rating)%Q.
Proof.
  intros C. unfold new_rating.
  destruct (count =? 0) eqn:Z0.
  - apply Z.eqb_eq in Z0. subst count. intros [= <-]. cbn. ring.
  - unfold int4. destruct (in_int4 (count + 1)); cbn; [|discriminate].
    replace (count + 1 =? 0) with false by (symmetry; apply Z.eqb_neq; lia).
    intros [= <-]. field.
    intros E. unfold Qeq in E. cbn in E. lia.
Qed.

End ReviewLedgerFacts.

Section InvariantProperties.
Import Sql Schema Billing Reviews Ledger.

Lemma numbered_process_sale d e a :
  calendar_day e -> numbered d -> numbered (fst (process_sale d e a)).
Proof.
  intros C [N U].
  destruct (process_sale d e a) as [d' [r|err]] eqn:E; cbn.
  - pose proof (process_sale_ok _ _ _ _ _ E) as [_ Q].
    apply process_sale_accepted in E as [_ [_ [_ [_ H]]]].
    apply process_items_tables in H as [_ [S _]]. cbn in S.
    assert (New : invoice_sequence (invoice_number e (invoice_seq d))
                  = Some (invoice_seq d))
      by now apply invoice_sequence_of_number.
    split.
    + intros s I. rewrite S in I. apply in_app_iff in I as [I|[<-|[]]].
      * destruct (N s I) as [n [P L]]. exists n. split; [exact P | lia].
      * exists (invoice_seq d). split; [exact New | lia].
    + rewrite S, map_app. cbn. apply NoDup_app; [exact U | | ].
      * constructor; [intros [] | constructor].
      * intros x I [<-|[]]. apply in_map_iff in I as [s [Es Is]].
        destruct (N s Is) as [n [P L]].
        change (sale_invoice_number s = invoice_number e (invoice_seq d))
          in Es.
        rewrite Es, New in P. injection P as <-. lia.
  - pose proof (process_sale_seq_monotone d e a) as M. rewrite E in M.
    cbn in M.
    apply process_sale_rollback in E as [_ [_ [_ [S _]]]].
    split.
    + intros s I. rewrite S in I. destruct (N s I) as [n [P L]].
      exists n. split; [exact P | lia].
    + now rewrite S.
Qed.

Lemma numbered_submit_review d a :
  numbered d -> numbered (fst (submit_review d a)).
Proof.
  intros [N U]. destruct (submit_review_frame d a) as [S [_ [_ [_ Q]]]].
  split.
  - intros s I. rewrite S in I. rewrite Q. exact (N s I).
  - now rewrite S.
Qed.

(** X5.  Starting from a ledger whose invoices carry distinct numbers below
    the counter, any run of sales and reviews, accepted or refused, leaves a
    ledger of that kind: no invoice number is ever issued twice. *)
Theorem invoice_numbers_stay_distinct d cs :
  numbered d -> Forall on_calendar cs -> numbered (Engine.after d cs).
Proof.
  revert d. unfold Engine.after.
  induction cs as [|c cs IH]; intros d N F; cbn; [exact N|].
  inversion F as [|? ? Hc Hcs]; subst.
  apply IH; [|exact Hcs].
  destruct c as [e a|a]; cbn.
  - now apply numbered_process_sale.
  - now apply numbered_submit_review.
Qed.

Lemma invoice_numbers_stay_distinct_witness :
  numbered Sample.shop
  /\ Forall on_calendar
       [Engine.Sale (Sample.first_of_december "s1") (Sample.sell 3);
        Engine.Sale (Sample.first_of_december "s2") (Sample.sell 2)]
  /\ numbered
       (Engine.after Sample.shop
          [Engine.Sale (Sample.first_of_december "s1") (Sample.sell 3);
           Engine.Sale (Sample.first_of_december "s2") (Sample.sell 2)]).
Proof.
  assert (N : numbered Sample.shop).
  { split; [intros s [] | constructor]. }
  assert (F : Forall on_calendar
                [Engine.Sale (Sample.first_of_december "s1") (Sample.sell 3);
                 Engine.Sale (Sample.first_of_december "s2") (Sample.sell 2)]).
  { repeat constructor; cbn; lia. }
  split; [exact N|]. split; [exact F|].
  exact (invoice_numbers_stay_distinct _ _ N F).
Defined.

(** X6.  When the stored average of a pharmacy lies between 1 and 5 (or no
    review is counted yet), an accepted review leaves it between 1 and
    5. *)
Theorem submit_review_keeps_range d a p :
  find_pharmacy d (p_pharmacy_id a) = Some p ->
  0 <= coalesce (ph_review_count p) 0 ->
  (coalesce (ph_review_count p) 0 = 0
   \/ (1 <= coalesce (ph_rating p) 0 <= 5)%Q) ->
  snd (submit_review d a) = Ok tt ->
  exists p' x,
    find_pharmacy (fst (submit_review d a)) (p_pharmacy_id a) = Some p'
    /\ ph_rating p' = Some x /\ (1 <= x <= 5)%Q.
Proof.
  intros F C B A.
  destruct (submit_review d a) as [d' [[]|err]] eqn:E; [|discriminate].
  apply submit_review_inversion in E
    as [R [_ [p0 [r [F0 [N [_ ->]]]]]]].
  rewrite F in F0. injection F0 as <-.
  exists (set_stats p r (coalesce (ph_review_count p) 0%Z + 1)%Z), r.
  split; [|split; [reflexivity|]].
  - unfold find_pharmacy in *. cbn. now apply find_update_stats.
  - pose proof (new_rating_value _ _ _ _ C N) as V.
    rewrite inject_Z_plus in V.
    assert (C' : (0 <= inject_Z (coalesce (ph_review_count p) 0%Z))%Q)
      by (rewrite <- (Zle_Qle 0); exact C).
    assert (R1 : (1 <= inject_Z (p_rating a))%Q)
      by (rewrite <- (Zle_Qle 1); lia).
    assert (R5 : (inject_Z (p_rating a) <= 5)%Q)
      by (rewrite <- (Zle_Qle _ 5); lia).
    set (c := inject_Z (coalesce (ph_review_count p) 0)) in *.
    set (g := inject_Z (p_rating a)) in *.
    set (v := coalesce (ph_rating p) 0%Q) in *.
    change (inject_Z 1) with 1%Q in V.
    assert (HZ : coalesce (ph_review_count p) 0 = 0 -> (c == 0)%Q)
      by (intros Z0; unfold c; rewrite Z0; reflexivity).
    clearbody c g v.
    assert (K : (0 < c + 1)%Q) by lra.
    destruct B as [Z0|[B1 B5]].
    + pose proof (HZ Z0) as H.
      rewrite H in V. assert (r == g)%Q by lra. split; lra.
    + assert (H1 : (0 <= (v - 1) * c)%Q) by (apply Qmult_le_0_compat; lra).
      assert (H5 : (0 <= (5 - v) * c)%Q) by (apply Qmult_le_0_compat; lra).
      split; apply (Qmult_lt_0_le_reg_r _ _ (c + 1) K); rewrite V; lra.
Qed.

Lemma submit_review_keeps_range_witness :
  find_pharmacy Sample.shop (p_pharmacy_id (Sample.rate 5))
  = Some Sample.apollo
  /\ 0 <= coalesce (ph_review_count Sample.apollo) 0
  /\ (coalesce (ph_review_count Sample.apollo) 0 = 0
      \/ (1 <= coalesce (ph_rating Sample.apollo) 0 <= 5)%Q)
  /\ snd (submit_review Sample.shop (Sample.rate 5)) = Ok tt
  /\ exists p' x,
       find_pharmacy (fst (submit_review Sample.shop (Sample.rate 5)))
         (p_pharmacy_id (Sample.rate 5)) = Some p'
       /\ ph_rating p' = Some x /\ (1 <= x <= 5)%Q.
Proof.
  assert (F : find_pharmacy Sample.shop (p_pharmacy_id (Sample.rate 5))
              = Some Sample.apollo) by reflexivity.
  assert (C : 0 <= coalesce (ph_review_count Sample.apollo) 0) by (cbn; lia).
  assert (B : coalesce (ph_review_count Sample.apollo) 0 = 0
              \/ (1 <= coalesce (ph_rating Sample.apollo) 0 <= 5)%Q).
  { right. cbn. split; unfold Qle; cbn; lia. }
  assert (A : snd (submit_review Sample.shop (Sample.rate 5)) = Ok tt)
    by (vm_compute; reflexivity).
  repeat (split; [assumption|]).
  exact (submit_review_keeps_range _ _ _ F C B A).
Defined.

End InvariantProperties.

Section ReviewProperties.
Import Sql Schema Billing Reviews Ledger.

Lemma ratings_of_after_review d a bs ps j :
  ratings_of
    (with_pharmacies
       (with_bookings
          (with_reviews d
             (reviews d ++ [mkReview (p_booking_id a) (p_pharmacy_id a)
                              (p_user_id a) (p_rating a) (p_comment a)]))
          bs) ps) j
  = (ratings_of d j
     ++ (if String.eqb (p_pharmacy_id a) j then [p_rating a] else []))%list.
Proof.
  unfold ratings_of. cbn. rewrite filter_app, map_app. cbn.
  destruct (String.eqb (p_pharmacy_id a) j); reflexivity.
Qed.

Lemma all_in_step_submit_review d a :
  all_in_step d -> all_in_step (fst (submit_review d a)).
Proof.
  intros S.
  destruct (submit_review d a) as [d' [[]|err]] eqn:E; cbn.
  2:{ now rewrite (submit_review_refused _ _ _ _ E). }
  apply submit_review_inversion in E as [R [_ [p [r [F [N [_ ->]]]]]]].
  intros j q Fq. unfold find_pharmacy in Fq. cbn in Fq.
  pose proof (S _ _ F) as Cnt. unfold in_step in Cnt.
  pose proof (find_pharmacy_id _ _ _ F) as Ip.
  destruct (String.eqb (p_pharmacy_id a) j) eqn:J.
  - apply String.eqb_eq in J. subst j.
    unfold find_pharmacy in F.
    rewrite (find_update_stats _ _ _ _ _ F) in Fq. injection Fq as <-.
    unfold in_step. cbn [set_stats ph_id ph_rating ph_review_count coalesce].
    rewrite Ip, ratings_of_after_review, String.eqb_refl.
    rewrite Ip in Cnt.
    rewrite length_app. cbn [List.length]. lia.
  - rewrite (find_update_stats_other _ _ _ _ _ J) in Fq.
    pose proof (S j q Fq) as Cq. unfold in_step in Cq.
    pose proof (find_pharmacy_id _ _ _ Fq) as Iq.
    unfold in_step. rewrite Iq in *.
    now rewrite ratings_of_after_review, J, app_nil_r.
Qed.

Lemma all_in_step_process_sale d e a :
  all_in_step d -> all_in_step (fst (process_sale d e a)).
Proof.
  intros S.
  assert (K : pharmacies (fst (process_sale d e a)) = pharmacies d
              /\ reviews (fst (process_sale d e a)) = reviews d).
  { destruct (process_sale d e a) as [d' [r|err]] eqn:E; cbn.
    - apply process_sale_accepted in E as [_ [_ [_ [_ H]]]].
      apply process_items_tables in H as [_ [_ [P [_ [R _]]]]]. now split.
    - apply process_sale_rollback in E as [P [_ [_ [_ [_ R]]]]]. now split. }
  destruct K as [P R]. intros j q Fq.
  unfold find_pharmacy in Fq. rewrite P in Fq.
  pose proof (S j q Fq) as C. unfold in_step, ratings_of in *.
  now rewrite R.
Qed.

(** X7.  The review count counts the reviews: if for every pharmacy the
    stored count is the number of its reviews on file, this is so again
    after any run of sales and reviews, accepted or refused. *)
Theorem review_count_stays_in_step d cs :
  all_in_step d -> all_in_step (Engine.after d cs).
Proof.
  revert d. unfold Engine.after.
  induction cs as [|c cs IH]; intros d S; cbn; [exact S|].
  apply IH. destruct c as [e a|a]; cbn.
  - now apply all_in_step_process_sale.
  - now apply all_in_step_submit_review.
Qed.

Lemma review_count_stays_in_step_witness :
  all_in_step Sample.opening
  /\ all_in_step
       (Engine.after Sample.opening
          [Engine.Review (Sample.rate_medplus "k1" 4);
           Engine.Review (Sample.rate_medplus "k2" 5)]).
Proof.
  assert (S : all_in_step Sample.opening).
  { intros i p F. unfold find_pharmacy in F.
    apply find_some in F as [[<-|[]] _]. reflexivity. }
  split; [exact S|].
  exact (review_count_stays_in_step _ _ S).
Defined.

(** X8.  An accepted review flags every booking with the key it names and
    no other booking, whether or not such a booking is on file; it adds one
    row to [reviews] and leaves the listings and the sales alone. *)
Theorem submit_review_flags_booking d a d' :
  submit_review d a = (d', Ok tt) ->
  map bk_id (bookings d') = map bk_id (bookings d)
  /\ (forall b, In b (bookings d') -> bk_id b = p_booking_id a ->
        bk_is_rated b = Some true)
  /\ (forall b, bk_id b <> p_booking_id a ->
        (In b (bookings d') <-> In b (bookings d)))
  /\ reviews d'
     = (reviews d ++ [mkReview (p_booking_id a) (p_pharmacy_id a)
                        (p_user_id a) (p_rating a) (p_comment a)])%list
  /\ medicines d' = medicines d /\ sales d' = sales d.
Proof.
  intros H.
  apply submit_review_inversion in H as [_ [_ [p [r [_ [_ [_ ->]]]]]]].
  cbn. unfold mark_rated. split.
  { rewrite map_map. apply map_ext. intros b.
    destruct (String.eqb (bk_id b) (p_booking_id a)); reflexivity. }
  split.
  { intros b I E. apply in_map_iff in I as [b0 [Eb I0]].
    destruct (String.eqb (bk_id b0) (p_booking_id a)) eqn:K.
    - now subst b.
    - subst b. apply String.eqb_neq in K. congruence. }
  split; [|repeat split].
  intros b N. rewrite in_map_iff. split.
  - intros [b0 [Eb I0]].
    destruct (String.eqb (bk_id b0) (p_booking_id a)) eqn:K.
    + subst b. cbn in N. apply String.eqb_eq in K. congruence.
    + now subst b.
  - intros I. exists b. split; [|exact I].
    replace (String.eqb (bk_id b) (p_booking_id a)) with false; [reflexivity|].
    symmetry. now apply String.eqb_neq.
Qed.

Lemma submit_review_flags_booking_witness :
  submit_review Sample.opening (Sample.rate_medplus "k2" 5)
  = (fst (submit_review Sample.opening (Sample.rate_medplus "k2" 5)), Ok tt)
  /\ bookings (fst (submit_review Sample.opening (Sample.rate_medplus "k2" 5)))
     = [mkBooking "k1" (Some false); mkBooking "k2" (Some true)].
Proof.
  assert (H : submit_review Sample.opening (Sample.rate_medplus "k2" 5)
              = (fst (submit_review Sample.opening
                        (Sample.rate_medplus "k2" 5)), Ok tt))
    by (vm_compute; reflexivity).
  pose proof (submit_review_flags_booking _ _ _ H) as K.
  split; [exact H|]. vm_compute. reflexivity.
Defined.

End ReviewProperties.

(** ** Ordering: sortedness *)

Section SortedFacts.
Context {A : Type} (leb : A -> A -> bool).
Hypothesis leb_total : forall a b, leb a b = true \/ leb b a = true.
Hypothesis leb_trans :
  forall a b c, leb a b = true -> leb b c = true -> leb a c = true.

Lemma hdrel_insert_row (a x : A) (l : list A) :
  HdRel (fun u v => leb u v = true) a l -> leb a x = true ->
  HdRel (fun u v => leb u v = true) a (insert_row leb x l).
Proof.
  intros H L. destruct l as [|y l]; cbn.
  - now constructor.
  - destruct (leb x y); constructor; [exact L|].
    now inversion H.
Qed.

Lemma insert_row_sorted (x : A) (l : list A) :
  Sorted (fun u v => leb u v = true) l ->
  Sorted (fun u v => leb u v = true) (insert_row leb x l).
Proof.
  induction l as [|y l IH]; intros S; cbn.
  - repeat constructor.
  - destruct (leb x y) eqn:E.
    + constructor; [exact S | now constructor].
    + inversion S as [|? ? S' H]; subst. constructor; [now apply IH|].
      apply hdrel_insert_row; [exact H|].
      destruct (leb_total x y) as [C|C]; [congruence | exact C].
Qed.

Lemma order_by_sorted (l : list A) :
  StronglySorted (fun u v => leb u v = true) (order_by leb l).
Proof.
  apply Sorted_StronglySorted.
  - intros a b c. apply leb_trans.
  - unfold order_by. induction l as [|x l IH]; cbn; [constructor|].
    now apply insert_row_sorted.
Qed.

End SortedFacts.

Lemma strongly_sorted_weaken {A : Type} (P Q : A -> A -> Prop) (l : list A) :
  (forall a b, P a b -> Q a b) -> StronglySorted P l -> StronglySorted Q l.
Proof.
  intros W S. induction S as [|a l S IH F]; constructor; [exact IH|].
  eapply Forall_impl; [|exact F]. intros b. apply W.
Qed.

Section PermutationFacts.
Context {A : Type} (leb : A -> A -> bool).

Lemma insert_row_permutation (x : A) (l : list A) :
  Permutation (insert_row leb x l) (x :: l).
Proof.
  induction l as [|y l IH]; cbn; [reflexivity|].
  destruct (leb x y); [reflexivity|].
  rewrite IH. apply perm_swap.
Qed.

Lemma order_by_permutation (l : list A) : Permutation (order_by leb l) l.
Proof.
  unfold order_by. induction l as [|x l IH]; cbn; [reflexivity|].
  rewrite insert_row_permutation. now constructor.
Qed.

End PermutationFacts.

Section GeoProperties.
Import Sql Schema Geo.

Lemma Rleb_true a b : Rleb a b = true <-> (a <= b)%R.
Proof.
  unfold Rleb. destruct (Rle_dec a b); split; intros; try assumption;
    try reflexivity; try discriminate. contradiction.
Qed.

Lemma distance_leb_total a b :
  distance_leb a b = true \/ distance_leb b a = true.
Proof.
  destruct a as [x|], b as [y|]; cbn; auto.
  rewrite !Rleb_true. destruct (Rle_dec x y); [left | right]; lra.
Qed.

Lemma distance_leb_trans a b c :
  distance_leb a b = true -> distance_leb b c = true ->
  distance_leb a c = true.
Proof.
  destruct a as [x|], b as [y|], c as [z|]; cbn; try congruence.
  rewrite !Rleb_true. lra.
Qed.

(** X9.  The list of nearby pharmacies comes nearest first, and every row
    carries a distance that is set, is not negative and does not exceed the
    radius asked for. *)
Theorem get_nearby_pharmacies_nearest_first d user_lat user_lng radius_km :
  StronglySorted
    (fun a b => forall x y, nr_distance_km a = Some x ->
                  nr_distance_km b = Some y -> (x <= y)%R)
    (get_nearby_pharmacies d user_lat user_lng radius_km)
  /\ Forall
       (fun r => exists x, nr_distance_km r = Some x
                   /\ (0 <= x <= Q2R radius_km)%R)
       (get_nearby_pharmacies d user_lat user_lng radius_km).
Proof.
  split.
  - unfold get_nearby_pharmacies.
    eapply strongly_sorted_weaken; [|apply order_by_sorted].
    + intros a b L x y Ex Ey. cbv beta in L. rewrite Ex, Ey in L.
      now apply Rleb_true.
    + intros a b. apply distance_leb_total.
    + intros a b c. apply distance_leb_trans.
  - apply Forall_forall. intros r H.
    apply in_get_nearby_pharmacies in H as [p [_ [_ [-> W]]]].
    unfold within in W. cbn [nearby_of nr_distance_km] in *.
    destruct (row_distance_bounds user_lat user_lng p) as [x [E [B _]]].
    rewrite E in *. exists x. split; [reflexivity|].
    apply Rleb_true in W. split; assumption.
Qed.

(** X10.  A pharmacy on file that is verified and has its latitude set and
    not 0 is in the list of nearby pharmacies exactly when the distance its
    row carries is within the radius, whatever its status; a row without
    longitude carries 6371 * acos(-1) km, half the circumference.  A wider
    radius loses no row, and a negative radius gives an empty list. *)
Theorem get_nearby_pharmacies_complete d user_lat user_lng radius_km :
  (forall p la x, In p (pharmacies d) -> ph_verified p = Some true ->
     ph_latitude p = Some la -> ~ (la == 0)%Q ->
     nr_distance_km (nearby_of user_lat user_lng p) = Some x ->
     (In (nearby_of user_lat user_lng p)
         (get_nearby_pharmacies d user_lat user_lng radius_km)
      <-> (x <= Q2R radius_km)%R))
  /\ (forall p, ph_longitude p = None ->
        nr_distance_km (nearby_of user_lat user_lng p)
        = Some (6371 * acos (-1))%R)
  /\ (forall wider r, (Q2R radius_km <= Q2R wider)%R ->
        In r (get_nearby_pharmacies d user_lat user_lng radius_km) ->
        In r (get_nearby_pharmacies d user_lat user_lng wider))
  /\ ((Q2R radius_km < 0)%R ->
      get_nearby_pharmacies d user_lat user_lng radius_km = []).
Proof.
  split; [|split; [|split]].
  - intros p la x I V La N Ex. split.
    + intros H. apply in_get_nearby_pharmacies in H as [p' [_ [_ [_ W]]]].
      unfold within in W. rewrite Ex in W.
      now apply Rleb_true.
    + intros D. apply in_get_nearby_pharmacies.
      exists p. split; [exact I|]. split.
      * unfold located_and_verified. rewrite La, V. cbn.
        rewrite andb_true_r. apply negb_true_iff.
        destruct (Qeq_bool la 0) eqn:E; [|reflexivity].
        apply Qeq_bool_iff in E. contradiction.
      * split; [reflexivity|]. unfold within. rewrite Ex.
        now apply Rleb_true.
  - intros p Lo. cbn [nearby_of nr_distance_km].
    exact (row_distance_without_longitude _ _ _ Lo).
  - intros wider r L H.
    apply in_get_nearby_pharmacies in H as [p [I [V [-> W]]]].
    apply in_get_nearby_pharmacies. exists p. repeat split; try assumption.
    unfold within in *. destruct (nr_distance_km _); [|discriminate].
    apply Rleb_true in W. apply Rleb_true. lra.
  - intros Neg.
    destruct (get_nearby_pharmacies d user_lat user_lng radius_km)
      as [|r l] eqn:E; [reflexivity|].
    exfalso.
    assert (H : In r (get_nearby_pharmacies d user_lat user_lng radius_km))
      by (rewrite E; now left).
    apply in_get_nearby_pharmacies in H as [p [_ [_ [-> W]]]].
    unfold within in W. cbn [nearby_of nr_distance_km] in W.
    destruct (row_distance_bounds user_lat user_lng p) as [x [Ex [B _]]].
    rewrite Ex in W. apply Rleb_true in W. lra.
Qed.

Lemma get_nearby_pharmacies_complete_witness :
  In Sample.apollo (pharmacies Sample.shop)
  /\ ph_verified Sample.apollo = Some true
  /\ ph_latitude Sample.apollo = Some 12.97%Q /\ ~ (12.97 == 0)%Q
  /\ nr_distance_km (nearby_of 12.97 77.59 Sample.apollo)
     = Some (distance_km (Q2R 12.97) (Q2R 77.59) (Q2R 12.97) (Q2R 77.59))
  /\ (distance_km (Q2R 12.97) (Q2R 77.59) (Q2R 12.97) (Q2R 77.59)
      <= Q2R 50)%R
  /\ In (nearby_of 12.97 77.59 Sample.apollo)
       (get_nearby_pharmacies Sample.shop 12.97 77.59 50).
Proof.
  assert (I : In Sample.apollo (pharmacies Sample.shop)) by (left; reflexivity).
  assert (N : ~ (12.97 == 0)%Q) by (unfold Qeq; cbn; lia).
  assert (X : nr_distance_km (nearby_of 12.97 77.59 Sample.apollo)
              = Some (distance_km (Q2R 12.97) (Q2R 77.59) (Q2R 12.97)
                        (Q2R 77.59))) by reflexivity.
  assert (D : (distance_km (Q2R 12.97) (Q2R 77.59) (Q2R 12.97) (Q2R 77.59)
               <= Q2R 50)%R).
  { rewrite distance_km_same. unfold Q2R. cbn. lra. }
  repeat (split; [first [assumption | reflexivity]|]).
  exact (proj2 (proj1 (get_nearby_pharmacies_complete Sample.shop 12.97 77.59
                         50)
                  Sample.apollo 12.97%Q _ I eq_refl eq_refl N X) D).
Defined.

End GeoProperties.

(** ** The counter of the shop *)

Section PosFacts.
Import Pos.

Lemma line_id_with_quantity item q : line_id (with_quantity item q) = line_id item.
Proof. reflexivity. Qed.

Lemma nodup_key {A B : Type} (f : A -> B) (l : list A) (a b : A) :
  NoDup (map f l) -> In a l -> In b l -> f a = f b -> a = b.
Proof.
  induction l as [|x l IH]; cbn; [tauto|].
  intros N Ia Ib E. inversion N as [|? ? Nx N']; subst.
  destruct Ia as [<-|Ia], Ib as [<-|Ib]; [reflexivity | | |now apply IH].
  - exfalso. apply Nx. rewrite E. now apply in_map.
  - exfalso. apply Nx. rewrite <- E. now apply in_map.
Qed.

Lemma addToCart_in_order inventory m cart :
  find (fun x => String.eqb (id x) (id m)) inventory = Some m ->
  in_order inventory cart -> in_order inventory (addToCart m cart).
Proof.
  intros O [N L]. unfold addToCart.
  destruct (stock_or_zero m <=? 0) eqn:S0; [now split|].
  apply Z.leb_gt in S0.
  assert (Sh : shown_stock inventory (id m) = stock_or_zero m)
    by (unfold shown_stock; now rewrite O).
  destruct (find _ cart) as [existing|] eqn:F.
  - destruct (stock_or_zero m <=? quantity existing) eqn:Q; [now split|].
    apply Z.leb_gt in Q. apply find_some in F as [Ie Ee].
    apply String.eqb_eq in Ee. split.
    + rewrite map_map.
      replace (map _ cart) with (map line_id cart); [exact N|].
      apply map_ext. intros item.
      destruct (String.eqb (line_id item) (id m)); reflexivity.
    + intros item I. apply in_map_iff in I as [item0 [E I0]].
      destruct (String.eqb (line_id item0) (id m)) eqn:K.
      * apply String.eqb_eq in K.
        assert (item0 = existing) by
          (apply (nodup_key line_id cart); congruence).
        subst item0 item. rewrite line_id_with_quantity, K, Sh. cbn.
        split; [|reflexivity].
        destruct (L existing Ie) as [[L1 _] _]. lia.
      * subst item. now apply L.
  - split.
    + rewrite map_app. cbn. apply NoDup_app; [exact N | | ].
      * constructor; [intros [] | constructor].
      * intros k I [<-|[]]. apply in_map_iff in I as [item [E I]].
        pose proof (find_none _ _ F item I) as C. cbn in C.
        apply String.eqb_neq in C. unfold line_id in *. cbn in E. congruence.
    + intros item I. apply in_app_iff in I as [I|[<-|[]]]; [now apply L|].
      cbn. unfold line_id. cbn. rewrite Sh. split; [lia|].
      unfold inject_Z. ring.
Qed.

Lemma updateQuantity_in_order inventory i delta cart :
  in_order inventory cart -> in_order inventory (updateQuantity inventory i delta cart).
Proof.
  intros [N L]. unfold updateQuantity. split.
  - rewrite map_map.
    replace (map _ cart) with (map line_id cart); [exact N|].
    apply map_ext. intros item.
    destruct (String.eqb (line_id item) i); [|reflexivity].
    cbv zeta. destruct (_ && _)%bool; reflexivity.
  - intros item I. apply in_map_iff in I as [item0 [E I0]].
    destruct (L item0 I0) as [[L1 L2] T].
    destruct (String.eqb (line_id item0) i) eqn:K; [|subst item; now split].
    apply String.eqb_eq in K. cbv zeta in E.
    change (match find (fun m => String.eqb (id m) i) inventory with
            | Some med => stock_or_zero med
            | None => 0
            end) with (shown_stock inventory i) in E.
    destruct ((0 <? delta)
              && (shown_stock inventory i <? Z.max 1 (quantity item0 + delta)))%bool
      eqn:G; subst item; [now split|].
    rewrite line_id_with_quantity, K. cbn. split; [|reflexivity].
    rewrite K in L2.
    apply andb_false_iff in G as [G|G]; apply Z.ltb_ge in G; lia.
Qed.

Lemma removeFromCart_in_order inventory i cart :
  in_order inventory cart -> in_order inventory (removeFromCart i cart).
Proof.
  intros [N L]. unfold removeFromCart. split.
  - clear L. induction cart as [|c cart IH]; cbn; [constructor|].
    inversion N as [|? ? Nc N']; subst.
    destruct (negb _); cbn; [|now apply IH].
    constructor; [|now apply IH].
    intros C. apply Nc. apply in_map_iff in C as [x [E I]].
    apply filter_In in I as [I _]. apply in_map_iff. now exists x.
  - intros item I. apply filter_In in I as [I _]. now apply L.
Qed.

End PosFacts.

Section PosProperties.
Import Pos.

(** X11.  Whatever the clerk does at the counter (adding a medicine of the
    stock list, stepping a quantity up or down, removing a line), the cart
    stays in order: one line per medicine, each line for at least one unit
    and no more than the stock shown, its total the price times the
    quantity. *)
Theorem cart_stays_in_order inventory actions : forall cart,
  in_order inventory cart -> Forall (offered inventory) actions ->
  in_order inventory (fold_left (act inventory) actions cart).
Proof.
  induction actions as [|a actions IH]; intros cart O F; cbn; [exact O|].
  inversion F as [|? ? Ha Hs]; subst. apply IH; [|exact Hs].
  destruct a as [m|i delta|i]; cbn.
  - now apply addToCart_in_order.
  - now apply updateQuantity_in_order.
  - now apply removeFromCart_in_order.
Qed.

Lemma cart_stays_in_order_witness :
  in_order [mkMedicine "m1" "Crocin" (Some 2) (Some 30%Q) (Some 12%Q)] []
  /\ Forall (offered [mkMedicine "m1" "Crocin" (Some 2) (Some 30%Q) (Some 12%Q)])
       [Add (mkMedicine "m1" "Crocin" (Some 2) (Some 30%Q) (Some 12%Q));
        Update "m1" 1; Update "m1" 1; Update "m1" (-5)]
  /\ in_order [mkMedicine "m1" "Crocin" (Some 2) (Some 30%Q) (Some 12%Q)]
       (fold_left
          (act [mkMedicine "m1" "Crocin" (Some 2) (Some 30%Q) (Some 12%Q)])
          [Add (mkMedicine "m1" "Crocin" (Some 2) (Some 30%Q) (Some 12%Q));
           Update "m1" 1; Update "m1" 1; Update "m1" (-5)] []).
Proof.
  assert (O : in_order
                [mkMedicine "m1" "Crocin" (Some 2) (Some 30%Q) (Some 12%Q)] []).
  { split; [constructor | intros item []]. }
  assert (F : Forall
                (offered [mkMedicine "m1" "Crocin" (Some 2) (Some 30%Q)
                            (Some 12%Q)])
                [Add (mkMedicine "m1" "Crocin" (Some 2) (Some 30%Q) (Some 12%Q));
                 Update "m1" 1; Update "m1" 1; Update "m1" (-5)]).
  { repeat constructor. }
  split; [exact O|]. split; [exact F|].
  exact (cart_stays_in_order _ _ _ O F).
Defined.

End PosProperties.

Section MirrorFacts.
Import Sql Schema Billing Ledger Pos.

Lemma asked_of_cart : forall cart items,
  sent_as cart items -> NoDup (map line_id cart) ->
  forall j,
    asked items j
    = match find (fun c => String.eqb (line_id c) j) cart with
      | Some c => quantity c
      | None => 0
      end.
Proof.
  unfold sent_as.
  induction cart as [|c cart IH]; intros [|x items] S N j;
    try discriminate; [reflexivity|].
  cbn in S. injection S as Ei Eq S.
  inversion N as [|? ? Nc N']; subst.
  cbn [asked find]. rewrite <- Ei, <- Eq, (IH items S N' j).
  destruct (String.eqb (line_id c) j) eqn:E; [|reflexivity].
  apply String.eqb_eq in E. subst j.
  destruct (find _ cart) as [c'|] eqn:F; [|lia].
  apply find_some in F as [I E]. apply String.eqb_eq in E.
  exfalso. apply Nc. rewrite <- E. now apply in_map.
Qed.

Lemma take_one_id c m : id (take_one c m) = id m.
Proof. unfold take_one. now destruct (String.eqb _ _). Qed.

Lemma fold_take_one : forall cart m,
  NoDup (map line_id cart) ->
  fold_left (fun x c => take_one c x) cart m
  = match find (fun c => String.eqb (line_id c) (id m)) cart with
    | Some c => take_one c m
    | None => m
    end.
Proof.
  induction cart as [|c cart IH]; intros m N; [reflexivity|].
  inversion N as [|? ? Nc N']; subst.
  cbn [fold_left find]. rewrite (IH _ N'), take_one_id.
  destruct (String.eqb (line_id c) (id m)) eqn:E.
  - apply String.eqb_eq in E.
    destruct (find _ cart) as [c'|] eqn:F; [|reflexivity].
    apply find_some in F as [I E']. apply String.eqb_eq in E'.
    exfalso. apply Nc. rewrite E, <- E'. now apply in_map.
  - assert (T : take_one c m = m).
    { unfold take_one. rewrite String.eqb_sym, E. reflexivity. }
    now rewrite T.
Qed.

Lemma take_all_map : forall cart inventory,
  take_all inventory cart
  = map (fun m => fold_left (fun x c => take_one c x) cart m) inventory.
Proof.
  unfold take_all.
  induction cart as [|c cart IH]; intros inventory; cbn [fold_left].
  - now rewrite map_id.
  - rewrite IH. unfold take at 1. rewrite map_map. reflexivity.
Qed.

Lemma find_by_id inventory m :
  NoDup (map id inventory) -> In m inventory ->
  find (fun x => String.eqb (id x) (id m)) inventory = Some m.
Proof.
  intros N I.
  destruct (find _ inventory) as [x|] eqn:F.
  - apply find_some in F as [Ix E]. apply String.eqb_eq in E.
    f_equal. exact (nodup_key id inventory x m N Ix I E).
  - exfalso. apply (find_none _ _ F) in I.
    now rewrite String.eqb_refl in I.
Qed.

Lemma stock_of_during_sale d n s j :
  stock_of (with_sales (with_invoice_seq d n) s) j = stock_of d j.
Proof. reflexivity. Qed.

End MirrorFacts.

Section MirrorProperties.
Import Sql Schema Billing Ledger Pos.

(** X13.  The billing screen and the transaction fit together.  Let the
    stock list of the screen show what the table holds, one entry per
    listing, and let the cart be in order (one line per medicine, each for
    at least one unit and at most the stock shown).  If [process_sale]
    accepts the lines of that cart, then the stock list as [handleAddSale]
    updates it again shows what the table holds, and no listing that was
    sold is left with a negative stock. *)
Theorem sale_from_cart_keeps_mirror inventory cart d e a d' r :
  NoDup (map id inventory) ->
  in_order inventory cart ->
  mirrors inventory d ->
  sent_as cart (p_items a) ->
  process_sale d e a = (d', Ok r) ->
  mirrors (take_all inventory cart) d'
  /\ forall item, In item cart ->
       exists s, stock_of d' (line_id item) = Some s /\ 0 <= s.
Proof.
  intros Ni [Nc L] M S P.
  apply process_sale_accepted in P as (_ & _ & _ & _ & P).
  assert (St : forall j,
    stock_of d' j
    = option_map
        (fun s => s - match find (fun c => String.eqb (line_id c) j) cart with
                      | Some c => quantity c
                      | None => 0
                      end) (stock_of d j)).
  { intros j. rewrite (process_items_stock _ _ _ _ _ j P).
    rewrite stock_of_during_sale, (asked_of_cart cart _ S Nc j).
    reflexivity. }
  assert (Sold : forall item m, In item cart -> In m inventory ->
            id m = line_id item ->
            exists s, stock m = Some s /\ quantity item <= s
                      /\ 1 <= quantity item).
  { intros item m Ic Im E. destruct (L item Ic) as [[Q1 Q2] _].
    unfold shown_stock in Q2. rewrite <- E, (find_by_id _ _ Ni Im) in Q2.
    unfold stock_or_zero in Q2. destruct (stock m) as [s|]; [|lia].
    exists s. repeat split; lia. }
  split.
  - intros m' I'. rewrite take_all_map in I'.
    apply in_map_iff in I' as [m [<- Im]].
    rewrite (fold_take_one _ _ Nc), St.
    destruct (find (fun c => String.eqb (line_id c) (id m)) cart)
      as [c|] eqn:F.
    + rewrite take_one_id, F, <- (M m Im).
      apply find_some in F as [Ic E]. apply String.eqb_eq in E.
      destruct (Sold c m Ic Im (eq_sym E)) as (s & Es & Q & _).
      unfold take_one. rewrite <- E, String.eqb_refl. cbn [stock].
      unfold stock_or_zero. rewrite Es. cbn [option_map]. f_equal. lia.
    + rewrite F, <- (M m Im). destruct (stock m) as [s|]; [|reflexivity].
      cbn [option_map]. f_equal. lia.
  - intros item Ic. destruct (L item Ic) as [[Q1 Q2] _].
    unfold shown_stock in Q2.
    destruct (find (fun m => String.eqb (id m) (line_id item)) inventory)
      as [m|] eqn:F; [|lia].
    apply find_some in F as [Im E]. apply String.eqb_eq in E.
    destruct (Sold item m Ic Im E) as (s & Es & Q & _).
    assert (Fc : find (fun c => String.eqb (line_id c) (line_id item)) cart
                 = Some item).
    { destruct (find (fun c => String.eqb (line_id c) (line_id item)) cart)
        as [c|] eqn:G.
      - apply find_some in G as [Ig Eg]. apply String.eqb_eq in Eg.
        f_equal. exact (nodup_key line_id cart c item Nc Ig Ic Eg).
      - exfalso. apply (find_none _ _ G) in Ic.
        now rewrite String.eqb_refl in Ic. }
    rewrite St, Fc, <- E, <- (M m Im), Es. cbn [option_map].
    exists (s - quantity item). split; [reflexivity | lia].
Qed.

Lemma sale_from_cart_keeps_mirror_witness :
  NoDup (map id [mkMedicine "m1" "Crocin" (Some 10) (Some 30%Q) (Some 12%Q)])
  /\ in_order [mkMedicine "m1" "Crocin" (Some 10) (Some 30%Q) (Some 12%Q)]
       [with_quantity
          (new_line (mkMedicine "m1" "Crocin" (Some 10) (Some 30%Q)
                       (Some 12%Q))) 3]
  /\ mirrors [mkMedicine "m1" "Crocin" (Some 10) (Some 30%Q) (Some 12%Q)]
       Sample.shop
  /\ sent_as
       [with_quantity
          (new_line (mkMedicine "m1" "Crocin" (Some 10) (Some 30%Q)
                       (Some 12%Q))) 3]
       (p_items (Sample.sell 3))
  /\ process_sale Sample.shop (Sample.first_of_december "s1") (Sample.sell 3)
     = (Sample.after_first_sale, Ok (mkReceipt "s1" "INV-241201-1001"))
  /\ mirrors
       (take_all [mkMedicine "m1" "Crocin" (Some 10) (Some 30%Q) (Some 12%Q)]
          [with_quantity
             (new_line (mkMedicine "m1" "Crocin" (Some 10) (Some 30%Q)
                          (Some 12%Q))) 3])
       Sample.after_first_sale
  /\ map stock
       (take_all [mkMedicine "m1" "Crocin" (Some 10) (Some 30%Q) (Some 12%Q)]
          [with_quantity
             (new_line (mkMedicine "m1" "Crocin" (Some 10) (Some 30%Q)
                          (Some 12%Q))) 3])
     = [Some 7].
Proof.
  assert (Ni : NoDup (map id [mkMedicine "m1" "Crocin" (Some 10) (Some 30%Q)
                                (Some 12%Q)])).
  { repeat constructor. intros []. }
  assert (O : in_order
                [mkMedicine "m1" "Crocin" (Some 10) (Some 30%Q) (Some 12%Q)]
                [with_quantity
                   (new_line (mkMedicine "m1" "Crocin" (Some 10) (Some 30%Q)
                                (Some 12%Q))) 3]).
  { split.
    - repeat constructor. intros [].
    - intros item [<-|[]]. split; [vm_compute; split; discriminate|].
      reflexivity. }
  assert (M : mirrors
                [mkMedicine "m1" "Crocin" (Some 10) (Some 30%Q) (Some 12%Q)]
                Sample.shop).
  { intros m [<-|[]]. reflexivity. }
  assert (S : sent_as
                [with_quantity
                   (new_line (mkMedicine "m1" "Crocin" (Some 10) (Some 30%Q)
                                (Some 12%Q))) 3]
                (p_items (Sample.sell 3))) by reflexivity.
  assert (P : process_sale Sample.shop (Sample.first_of_december "s1")
                (Sample.sell 3)
              = (Sample.after_first_sale,
                 Ok (mkReceipt "s1" "INV-241201-1001")))
    by (vm_compute; reflexivity).
  split; [exact Ni|]. split; [exact O|]. split; [exact M|].
  split; [exact S|]. split; [exact P|]. split.
  - exact (proj1 (sale_from_cart_keeps_mirror _ _ _ _ _ _ _ Ni O M S P)).
  - reflexivity.
Defined.

End MirrorProperties.

Section CarouselFacts.
Import Carousel.

Lemma images_of_length images imageUrl :
  (0 < List.length (images_of images imageUrl))%nat.
Proof. destruct images as [[|x l]|]; cbn; lia. Qed.

Lemma nextImage_in_range images s :
  in_range images s -> in_range images (nextImage images s).
Proof.
  unfold in_range, nextImage. cbn. intros H.
  apply Z.rem_bound_pos; lia.
Qed.

Lemma prevImage_in_range images s :
  in_range images s -> in_range images (prevImage images s).
Proof.
  unfold in_range, prevImage. cbn. intros H.
  apply Z.rem_bound_pos; lia.
Qed.

Lemma handle_in_range images s ev :
  in_range images s -> in_range images (handle images s ev).
Proof.
  intros H. destruct ev; cbn [handle].
  - now apply nextImage_in_range.
  - now apply prevImage_in_range.
  - exact H.
  - exact H.
  - unfold onTouchEnd. destruct (_ || _)%bool; [exact H|]. cbv zeta.
    destruct (Catalog.Qltb minSwipeDistance _),
             (Catalog.Qltb _ (- minSwipeDistance));
      auto using nextImage_in_range, prevImage_in_range.
Qed.

Lemma run_in_range images events : forall s,
  in_range images s -> in_range images (fold_left (handle images) events s).
Proof.
  induction events as [|ev events IH]; intros s H; [exact H|].
  cbn. apply IH. now apply handle_in_range.
Qed.

Lemma next_index images s :
  in_range images s ->
  currentImageIndex (nextImage images s)
  = (currentImageIndex s + 1) mod Z.of_nat (List.length images).
Proof.
  unfold in_range, nextImage. cbn. intros H. apply Z.rem_mod_nonneg; lia.
Qed.

Lemma prev_index images s :
  in_range images s ->
  currentImageIndex (prevImage images s)
  = (currentImageIndex s - 1) mod Z.of_nat (List.length images).
Proof.
  unfold in_range, prevImage. cbn. intros H.
  rewrite Z.rem_mod_nonneg by lia.
  rewrite <- (Z.mod_add (currentImageIndex s - 1) 1) by lia.
  f_equal. lia.
Qed.

Lemma next_run images k : forall s,
  in_range images s ->
  currentImageIndex (fold_left (handle images) (repeat Next k) s)
  = (currentImageIndex s + Z.of_nat k) mod Z.of_nat (List.length images).
Proof.
  induction k as [|k IH]; intros s H.
  - cbn [repeat fold_left]. unfold in_range in H.
    rewrite Z.add_0_r, Z.mod_small; [reflexivity | exact H].
  - cbn [repeat fold_left handle].
    rewrite (IH _ (nextImage_in_range _ _ H)), (next_index _ _ H).
    unfold in_range in H.
    rewrite Zplus_mod_idemp_l. f_equal. lia.
Qed.

End CarouselFacts.

Section CarouselProperties.
Import Carousel.

(** X15.  Whatever the medicine carries for pictures and whatever is
    pressed or swiped, the carousel has a picture to show: the index stays
    inside the list of pictures. *)
Theorem carousel_always_shows_a_picture images imageUrl events :
  exists url,
    shown (images_of images imageUrl)
          (fold_left (handle (images_of images imageUrl)) events initial)
    = Some url.
Proof.
  pose proof (images_of_length images imageUrl) as L.
  assert (R : in_range (images_of images imageUrl) initial)
    by (unfold in_range; cbn; lia).
  apply (run_in_range _ events) in R. unfold in_range in R.
  unfold shown.
  destruct (currentImageIndex _ <? 0) eqn:N; [apply Z.ltb_lt in N; lia|].
  destruct (nth_error _ _) as [url|] eqn:E; [now exists url|].
  apply nth_error_None in E. lia.
Qed.

(** X16.  On an index inside the list, the two arrows undo each other, and
    pressing the forward arrow once for every picture comes back to the
    picture one started from. *)
Theorem carousel_goes_round images s :
  in_range images s ->
  currentImageIndex (prevImage images (nextImage images s))
  = currentImageIndex s
  /\ currentImageIndex (nextImage images (prevImage images s))
     = currentImageIndex s
  /\ currentImageIndex
       (fold_left (handle images) (repeat Next (List.length images)) s)
     = currentImageIndex s.
Proof.
  intros H. pose proof H as H'. unfold in_range in H'.
  split; [|split].
  - rewrite (prev_index _ _ (nextImage_in_range _ _ H)), (next_index _ _ H).
    rewrite Zminus_mod_idemp_l.
    replace (currentImageIndex s + 1 - 1) with (currentImageIndex s) by lia.
    now apply Z.mod_small.
  - rewrite (next_index _ _ (prevImage_in_range _ _ H)), (prev_index _ _ H).
    rewrite Zplus_mod_idemp_l.
    replace (currentImageIndex s - 1 + 1) with (currentImageIndex s) by lia.
    now apply Z.mod_small.
  - rewrite (next_run _ _ _ H).
    rewrite <- (Z.mul_1_l (Z.of_nat (List.length images))) at 1.
    rewrite Z.mod_add by lia. now apply Z.mod_small.
Qed.

Lemma carousel_goes_round_witness :
  in_range ["a"; "b"; "c"] (mkState 2 None None)
  /\ currentImageIndex
       (fold_left (handle ["a"; "b"; "c"]) [Next; Next; Next]
          (mkState 2 None None)) = 2.
Proof.
  assert (H : in_range ["a"; "b"; "c"] (mkState 2 None None))
    by (unfold in_range; cbn; lia).
  split; [exact H|].
  exact (proj2 (proj2 (carousel_goes_round _ _ H))).
Defined.

(** X17.  What a touch does to the carousel.  A touch that begins and ends
    without moving never changes the picture, whatever touch came before.
    A touch that moves from [x] to [y] changes nothing when either
    coordinate is 0 or when the two are 50 or less apart; with both
    coordinates other than 0 it acts as the forward arrow when [x] is more
    than 50 beyond [y], and as the backward arrow when [y] is more than 50
    beyond [x]. *)
Theorem carousel_swipe images s x y :
  currentImageIndex (onTouchEnd images (onTouchStart x s))
  = currentImageIndex s
  /\ (((x == 0)%Q \/ (y == 0)%Q \/ (Qabs (x - y) <= 50)%Q) ->
      currentImageIndex
        (onTouchEnd images (onTouchMove y (onTouchStart x s)))
      = currentImageIndex s)
  /\ (~ (x == 0)%Q -> ~ (y == 0)%Q ->
      ((50 < x - y)%Q ->
       currentImageIndex
         (onTouchEnd images (onTouchMove y (onTouchStart x s)))
       = currentImageIndex (nextImage images s))
      /\ ((50 < y - x)%Q ->
          currentImageIndex
            (onTouchEnd images (onTouchMove y (onTouchStart x s)))
          = currentImageIndex (prevImage images s))).
Proof.
  split; [|split].
  - unfold onTouchEnd, onTouchStart. cbn [touchStart touchEnd falsy].
    now rewrite orb_true_r.
  - intros H. unfold onTouchEnd, onTouchMove, onTouchStart.
    cbn [touchStart touchEnd falsy currentImageIndex Client.or_zero].
    destruct (Qeq_bool x 0) eqn:Ex; [reflexivity|].
    destruct (Qeq_bool y 0) eqn:Ey; [reflexivity|].
    cbn [orb]. cbv zeta.
    destruct H as [H|[H|H]];
      [apply Qeq_bool_iff in H; congruence
      |apply Qeq_bool_iff in H; congruence|].
    apply Qabs_Qle_condition in H as [H1 H2].
    unfold Catalog.Qltb, minSwipeDistance.
    assert (L : Qle_bool (x - y) 50 = true) by (apply Qle_bool_iff; lra).
    assert (R : Qle_bool (- (50)) (x - y) = true)
      by (apply Qle_bool_iff; lra).
    rewrite L, R. reflexivity.
  - intros Nx Ny.
    assert (Ex : Qeq_bool x 0 = false).
    { destruct (Qeq_bool x 0) eqn:E; [|reflexivity].
      apply Qeq_bool_iff in E. contradiction. }
    assert (Ey : Qeq_bool y 0 = false).
    { destruct (Qeq_bool y 0) eqn:E; [|reflexivity].
      apply Qeq_bool_iff in E. contradiction. }
    unfold onTouchEnd, onTouchMove, onTouchStart.
    cbn [touchStart touchEnd falsy currentImageIndex Client.or_zero].
    rewrite Ex, Ey. cbn [orb]. cbv zeta.
    unfold Catalog.Qltb, minSwipeDistance.
    split; intros H.
    + assert (L : Qle_bool (x - y) 50 = false).
      { destruct (Qle_bool (x - y) 50) eqn:E; [|reflexivity].
        apply Qle_bool_iff in E. lra. }
      assert (R : Qle_bool (- (50)) (x - y) = true)
        by (apply Qle_bool_iff; lra).
      rewrite L, R. reflexivity.
    + assert (L : Qle_bool (x - y) 50 = true) by (apply Qle_bool_iff; lra).
      assert (R : Qle_bool (- (50)) (x - y) = false).
      { destruct (Qle_bool (- (50)) (x - y)) eqn:E; [|reflexivity].
        apply Qle_bool_iff in E. lra. }
      rewrite L, R. reflexivity.
Qed.

Lemma carousel_swipe_witness :
  ~ (300 == 0)%Q /\ ~ (120 == 0)%Q /\ (50 < 300 - 120)%Q
  /\ currentImageIndex
       (onTouchEnd ["a"; "b"; "c"]
          (onTouchMove 120 (onTouchStart 300 (mkState 2 None None)))) = 0.
Proof.
  assert (Nx : ~ (300 == 0)%Q) by discriminate.
  assert (Ny : ~ (120 == 0)%Q) by discriminate.
  assert (H : (50 < 300 - 120)%Q) by reflexivity.
  split; [exact Nx|]. split; [exact Ny|]. split; [exact H|].
  exact (proj1 (proj2 (proj2
           (carousel_swipe ["a"; "b"; "c"] (mkState 2 None None) 300 120))
           Nx Ny) H).
Defined.

End CarouselProperties.

Section LocationFacts.
Import Client Location.

Lemma isSignificant_false t prev la lo :
  isSignificant t prev la lo = false ->
  exists p, prev = Some p
            /\ (Qabs (lat p - la) <= t)%Q /\ (Qabs (lng p - lo) <= t)%Q.
Proof.
  unfold isSignificant. destruct prev as [p|]; [|discriminate].
  intros H. apply orb_false_elim in H as [H1 H2].
  unfold Catalog.Qltb in H1, H2.
  apply negb_false_iff in H1, H2. apply Qle_bool_iff in H1, H2.
  now exists p.
Qed.

Lemma isSignificant_same t la lo :
  (0 <= t)%Q -> isSignificant t (Some (mkCoordinates la lo)) la lo = false.
Proof.
  intros T. unfold isSignificant, Catalog.Qltb. cbn [lat lng].
  assert (A : forall x, Qle_bool (Qabs (x - x)) t = true).
  { intros x. apply Qle_bool_iff. apply Qabs_Qle_condition. split; lra. }
  now rewrite !A.
Qed.

Lemma handle_keeps_ref s ev :
  prevCoordsRef s = userCoordinates s ->
  prevCoordsRef (handle s ev) = userCoordinates (handle s ev).
Proof.
  intros H. destruct ev as [la lo|la lo a|la lo a]; cbn [handle].
  - unfold onPosition. now destruct (isSignificant _ _ _ _).
  - unfold updateLocationState. now destruct (isSignificant _ _ _ _).
  - unfold fromProfile.
    destruct la as [la|], lo as [lo|]; cbv zeta;
      try destruct (Qeq_bool la 0 || Qeq_bool lo 0)%bool;
      destruct a as [a|]; try destruct (String.eqb a "");
      first [exact H | reflexivity].
Qed.

Lemma run_keeps_ref events : forall s,
  prevCoordsRef s = userCoordinates s ->
  prevCoordsRef (fold_left handle events s)
  = userCoordinates (fold_left handle events s).
Proof.
  induction events as [|ev events IH]; intros s H; [exact H|].
  cbn. apply IH. now apply handle_keeps_ref.
Qed.

End LocationFacts.

Section LocationProperties.
Import Client Location.

(** X18.  However position reports, located addresses and profile reads
    follow one another, the reference the handlers compare against and the
    coordinates of the state hold the same position. *)
Theorem location_ref_follows_state events :
  prevCoordsRef (fold_left handle events initial)
  = userCoordinates (fold_left handle events initial).
Proof.
  assert (Start : prevCoordsRef initial = userCoordinates initial)
    by reflexivity.
  revert Start. generalize initial.
  induction events as [|ev events IH]; intros s H; [exact H|].
  cbn [fold_left]. apply IH. now apply handle_keeps_ref.
Qed.

(** X19.  After every report of the position watcher the state holds
    coordinates, and they are within 0.0002 degrees of the reported ones in
    latitude and in longitude: small movements that are skipped do not add
    up. *)
Theorem watcher_stays_close events latitude longitude :
  exists c,
    userCoordinates
      (fold_left handle (events ++ [Position latitude longitude])%list initial)
    = Some c
    /\ (Qabs (lat c - latitude) <= 0.0002)%Q
    /\ (Qabs (lng c - longitude) <= 0.0002)%Q.
Proof.
  rewrite fold_left_app. cbn [fold_left handle].
  pose proof (run_keeps_ref events initial eq_refl) as R.
  set (s := fold_left handle events initial) in *. clearbody s.
  unfold onPosition.
  destruct (isSignificant 0.0002 (prevCoordsRef s) latitude longitude) eqn:E.
  - exists (mkCoordinates latitude longitude). cbn [userCoordinates lat lng].
    split; [reflexivity|].
    split; apply Qabs_Qle_condition; split; lra.
  - apply isSignificant_false in E as (p & Ep & A & B).
    exists p. rewrite <- R. now split.
Qed.

(** X20.  A report that repeats the one just handled changes nothing, for
    the position watcher and for [updateLocationState] alike. *)
Theorem repeated_report_is_ignored s la lo address :
  onPosition (onPosition s la lo) la lo = onPosition s la lo
  /\ updateLocationState (updateLocationState s la lo address) la lo address
     = updateLocationState s la lo address.
Proof.
  split.
  - unfold onPosition at 2 3.
    destruct (isSignificant 0.0002 (prevCoordsRef s) la lo) eqn:E.
    + unfold onPosition. cbn [prevCoordsRef].
      rewrite isSignificant_same; [reflexivity | discriminate].
    + unfold onPosition. now rewrite E.
  - unfold updateLocationState at 2 3.
    destruct (isSignificant 0.0001 (prevCoordsRef s) la lo) eqn:E.
    + unfold updateLocationState. cbn [prevCoordsRef].
      rewrite isSignificant_same; [reflexivity | discriminate].
    + unfold updateLocationState. now rewrite E.
Qed.

End LocationProperties.

Section AvailabilityProperties.
Import Sql Schema Geo.

Lemma joined_of d m p :
  In m (medicines d) -> In p (pharmacies d) ->
  med_pharmacy_id m = Some (ph_id p) -> In (m, p) (joined d).
Proof.
  intros Hm Hp E. unfold joined. apply in_flat_map. exists m.
  split; [exact Hm|]. apply in_map. apply filter_In. split; [exact Hp|].
  unfold eq_uuid. rewrite E. apply String.eqb_refl.
Qed.

(** X21.  The availability list comes nearest first, and every row carries
    a distance, between 0 and half the circumference.  It is complete
    whatever the radius asked for: for a pattern and a name within ASCII,
    every listing with stock on hand whose name matches, at a pharmacy that
    is verified and has its latitude set and not 0, is listed, however far
    away the pharmacy is. *)
Theorem get_medicine_availability_complete d search_name user_lat user_lng
  radius_km :
  StronglySorted
    (fun a b => forall x y, ar_distance_km a = Some x ->
                  ar_distance_km b = Some y -> (x <= y)%R)
    (get_medicine_availability d search_name user_lat user_lng radius_km)
  /\ Forall
       (fun r => exists x, ar_distance_km r = Some x
                   /\ (0 <= x <= 6371 * PI)%R)
       (get_medicine_availability d search_name user_lat user_lng radius_km)
  /\ forall m p s la,
       In m (medicines d) -> In p (pharmacies d) ->
       med_pharmacy_id m = Some (ph_id p) ->
       ascii_text search_name = true -> ascii_text (med_name m) = true ->
       ilike search_name (med_name m) = true ->
       med_stock m = Some s -> 0 < s ->
       ph_verified p = Some true ->
       ph_latitude p = Some la -> ~ (la == 0)%Q ->
       In (availability_of user_lat user_lng m p)
          (get_medicine_availability d search_name user_lat user_lng
             radius_km).
Proof.
  split; [|split].
  - unfold get_medicine_availability.
    eapply strongly_sorted_weaken; [|apply order_by_sorted].
    + intros a b L x y Ex Ey. cbv beta in L. rewrite Ex, Ey in L.
      now apply Rleb_true.
    + intros a b. apply distance_leb_total.
    + intros a b c. apply distance_leb_trans.
  - apply Forall_forall. intros r H.
    apply in_get_medicine_availability in H as [m [p [_ [_ ->]]]].
    cbn [availability_of ar_distance_km]. apply row_distance_bounds.
  - intros m p s la Hm Hp J _ _ N S Pos V La Nz.
    apply in_get_medicine_availability. exists m, p.
    split; [now apply joined_of|]. split; [|reflexivity].
    unfold available, in_stock, located_and_verified.
    rewrite N, S, La, V. cbn.
    apply andb_true_iff. split; [now apply Z.ltb_lt|].
    rewrite andb_true_r. apply negb_true_iff.
    destruct (Qeq_bool la 0) eqn:E; [|reflexivity].
    apply Qeq_bool_iff in E. contradiction.
Qed.

Lemma get_medicine_availability_complete_witness :
  In Sample.crocin (medicines Sample.shop)
  /\ In Sample.apollo (pharmacies Sample.shop)
  /\ ascii_text "cro%" = true /\ ascii_text (med_name Sample.crocin) = true
  /\ ilike "cro%" (med_name Sample.crocin) = true
  /\ ~ (12.97 == 0)%Q
  /\ In (availability_of 28.61 77.2 Sample.crocin Sample.apollo)
       (get_medicine_availability Sample.shop "cro%" 28.61 77.2 1).
Proof.
  assert (Hm : In Sample.crocin (medicines Sample.shop))
    by (left; reflexivity).
  assert (Hp : In Sample.apollo (pharmacies Sample.shop))
    by (left; reflexivity).
  assert (N : ilike "cro%" (med_name Sample.crocin) = true) by reflexivity.
  assert (Nz : ~ (12.97 == 0)%Q) by (unfold Qeq; cbn; lia).
  split; [exact Hm|]. split; [exact Hp|].
  split; [reflexivity|]. split; [reflexivity|]. split; [exact N|].
  split; [exact Nz|].
  exact (proj2 (proj2 (get_medicine_availability_complete Sample.shop "cro%"
                         28.61 77.2 1))
           Sample.crocin Sample.apollo 10 12.97%Q Hm Hp eq_refl eq_refl
           eq_refl N eq_refl eq_refl eq_refl eq_refl Nz).
Defined.

End AvailabilityProperties.

Section ScreenFacts.
Import Sql Schema Geo Client.

Lemma sort_leb_total s a b : sort_leb s a b = true \/ sort_leb s b a = true.
Proof.
  destruct s; cbn.
  - rewrite !Rleb_true.
    destruct (Rle_dec (distance_or_far (distance a))
                      (distance_or_far (distance b))); [left | right]; lra.
  - rewrite !Qle_bool_iff.
    destruct (Qlt_le_dec (coalesce (price b) 0%Q) (coalesce (price a) 0%Q));
      [right; now apply Qlt_le_weak | left; assumption].
  - rewrite !Qle_bool_iff.
    destruct (Qlt_le_dec (rating a) (rating b));
      [right; now apply Qlt_le_weak | left; assumption].
Qed.

Lemma sort_leb_trans s a b c :
  sort_leb s a b = true -> sort_leb s b c = true -> sort_leb s a c = true.
Proof.
  destruct s; cbn.
  - rewrite !Rleb_true. lra.
  - rewrite !Qle_bool_iff. apply Qle_trans.
  - rewrite !Qle_bool_iff. intros H1 H2. eapply Qle_trans; eassumption.
Qed.

Lemma availability_status d search_name user_lat user_lng radius_km :
  Forall (fun v => stockStatus v = Some InStock
                   \/ stockStatus v = Some LowStock)
    (map view_of_availability
       (get_medicine_availability d search_name user_lat user_lng radius_km)).
Proof.
  apply Forall_forall. intros v H. apply in_map_iff in H as [r [<- H]].
  apply in_get_medicine_availability in H as [m [p [_ [A ->]]]].
  unfold available in A.
  apply andb_true_iff in A as [A _]. apply andb_true_iff in A as [_ S].
  unfold in_stock in S. cbn. unfold stock_status.
  destruct (med_stock m) as [q|]; [|discriminate].
  rewrite S. destruct (10 <? q); auto.
Qed.

Lemma split_by_status (l : list Pharmacy) :
  Forall (fun v => stockStatus v = Some InStock
                   \/ stockStatus v = Some LowStock) l ->
  List.length (filter (keep all) l)
  = (List.length (filter (keep (only InStock)) l)
     + List.length (filter (keep (only LowStock)) l))%nat
  /\ filter (keep (only OutOfStock)) l = [].
Proof.
  induction 1 as [|v l E _ [IH1 IH2]]; [split; reflexivity|].
  assert (Ka : keep all v = true) by reflexivity.
  assert (Ko : keep (only OutOfStock) v = false)
    by (unfold keep; destruct E as [-> | ->]; reflexivity).
  cbn [filter]. rewrite Ka, Ko. cbn [List.length]. split; [|exact IH2].
  rewrite IH1.
  destruct E as [E|E].
  - assert (K1 : keep (only InStock) v = true)
      by (unfold keep; now rewrite E).
    assert (K2 : keep (only LowStock) v = false)
      by (unfold keep; now rewrite E).
    rewrite K1, K2. cbn [List.length]. lia.
  - assert (K1 : keep (only InStock) v = false)
      by (unfold keep; now rewrite E).
    assert (K2 : keep (only LowStock) v = true)
      by (unfold keep; now rewrite E).
    rewrite K1, K2. cbn [List.length]. lia.
Qed.

Lemma nodup_map_filter {A B : Type} (f : A -> B) (g : A -> bool)
  (l : list A) :
  NoDup (map f l) -> NoDup (map f (filter g l)).
Proof.
  induction l as [|x l IH]; cbn; [auto|].
  intros N. inversion N as [|? ? Nx N']; subst.
  destruct (g x); cbn; [|now apply IH].
  constructor; [|now apply IH].
  intros C. apply Nx. apply in_map_iff in C as [y [E I]].
  apply filter_In in I as [I _]. apply in_map_iff. now exists y.
Qed.

End ScreenFacts.

Section ScreenProperties.
Import Sql Schema Geo Client.

(** X22.  The pharmacies on the medicine screen come in the order asked
    for: by distance with a missing or zero distance counted as 99999, by
    price with a missing price counted as 0, or by rating from the best
    down; and under a stock filter every pharmacy shown has the status
    asked for. *)
Theorem fetchPharmacies_ordered_and_filtered d userCoordinates medicine_name
  sortBy stockFilter :
  StronglySorted
    (fun a b =>
       match sortBy with
       | nearest => (distance_or_far (distance a)
                     <= distance_or_far (distance b))%R
       | cheapest => (coalesce (price a) 0 <= coalesce (price b) 0)%Q
       | by_rating => (rating b <= rating a)%Q
       end)
    (fetchPharmacies d userCoordinates medicine_name sortBy stockFilter)
  /\ forall v s, stockFilter = only s ->
       In v (fetchPharmacies d userCoordinates medicine_name sortBy
               stockFilter) ->
       stockStatus v = Some s.
Proof.
  split.
  - unfold fetchPharmacies.
    eapply strongly_sorted_weaken; [|apply order_by_sorted].
    + intros a b L. cbv beta in L. destruct sortBy; cbn in L.
      * now apply Rleb_true.
      * now apply Qle_bool_iff.
      * now apply Qle_bool_iff.
    + intros a b. apply sort_leb_total.
    + intros a b c. apply sort_leb_trans.
  - intros v s -> H. unfold fetchPharmacies in H.
    apply in_order_by in H. apply filter_In in H as [_ K].
    unfold keep in K. destruct (stockStatus v) as [t|]; [|discriminate].
    destruct t, s; cbn in K; congruence.
Qed.

Lemma fetchPharmacies_ordered_and_filtered_witness :
  In (mkPharmacyView "ph1" "Apollo" "MG Road" (Some 12.97%Q) (Some 77.59%Q)
        (Some (distance_km (Q2R 0) (Q2R 0) (Q2R 12.97) (Q2R 77.59)))
        4%Q 2 (Some 30%Q) (Some 10) (Some LowStock) None None)
     (fetchPharmacies Sample.shop None "Crocin" cheapest (only LowStock))
  /\ stockStatus
       (mkPharmacyView "ph1" "Apollo" "MG Road" (Some 12.97%Q)
          (Some 77.59%Q)
          (Some (distance_km (Q2R 0) (Q2R 0) (Q2R 12.97) (Q2R 77.59)))
          4%Q 2 (Some 30%Q) (Some 10) (Some LowStock) None None)
     = Some LowStock.
Proof.
  assert (I : In (mkPharmacyView "ph1" "Apollo" "MG Road" (Some 12.97%Q)
                    (Some 77.59%Q)
                    (Some (distance_km (Q2R 0) (Q2R 0) (Q2R 12.97)
                             (Q2R 77.59)))
                    4%Q 2 (Some 30%Q) (Some 10) (Some LowStock) None None)
                 (fetchPharmacies Sample.shop None "Crocin" cheapest
                    (only LowStock))) by (left; reflexivity).
  split; [exact I|].
  exact (proj2 (fetchPharmacies_ordered_and_filtered Sample.shop None
                  "Crocin" cheapest (only LowStock)) _ LowStock eq_refl I).
Defined.

(** X23.  The two stock filters of the medicine screen split the full list
    between them: the pharmacies shown as in stock and those shown as low
    on stock together are as many as the unfiltered list holds, and a
    filter on out of stock shows nothing. *)
Theorem fetchPharmacies_filters_split d userCoordinates medicine_name sortBy :
  List.length (fetchPharmacies d userCoordinates medicine_name sortBy all)
  = (List.length (fetchPharmacies d userCoordinates medicine_name sortBy
                    (only InStock))
     + List.length (fetchPharmacies d userCoordinates medicine_name sortBy
                      (only LowStock)))%nat
  /\ fetchPharmacies d userCoordinates medicine_name sortBy (only OutOfStock)
     = [].
Proof.
  unfold fetchPharmacies. rewrite !length_order_by.
  destruct (split_by_status _
              (availability_status d medicine_name
                 (sent_lat userCoordinates) (sent_lng userCoordinates) 50%Q))
    as [A B].
  split; [exact A|]. now rewrite B.
Qed.

(** X24.  When no two pharmacies on file share a key, the store count of
    the home screen is the number of pharmacies it lists, and no pharmacy
    is listed twice. *)
Theorem fetchNearbyStores_counts_the_list d userCoordinates :
  NoDup (map ph_id (pharmacies d)) ->
  snd (fetchNearbyStores d userCoordinates)
  = List.length (fst (fetchNearbyStores d userCoordinates))
  /\ NoDup (map Client.id (fst (fetchNearbyStores d userCoordinates))).
Proof.
  intros N. unfold fetchNearbyStores. cbn [fst snd].
  set (data := get_nearby_pharmacies d (sent_lat userCoordinates)
                 (sent_lng userCoordinates) 50%Q).
  assert (K : NoDup (map nr_id data)).
  { unfold data, get_nearby_pharmacies.
    eapply Permutation_NoDup.
    - apply Permutation_map. symmetry. apply order_by_permutation.
    - apply nodup_map_filter. rewrite map_map. cbn [nearby_of nr_id].
      now apply nodup_map_filter. }
  split.
  - rewrite (nodup_fixed_point string_dec K). now rewrite !length_map.
  - rewrite map_map. exact K.
Qed.

Lemma fetchNearbyStores_counts_the_list_witness :
  NoDup (map ph_id (pharmacies Sample.two_shops))
  /\ snd (fetchNearbyStores Sample.two_shops
            (Some (mkCoordinates 12.97 77.59)))
     = List.length (fst (fetchNearbyStores Sample.two_shops
                           (Some (mkCoordinates 12.97 77.59)))).
Proof.
  assert (N : NoDup (map ph_id (pharmacies Sample.two_shops))).
  { cbn. repeat constructor; cbn; [|tauto].
    intros [H|[]]. discriminate. }
  split; [exact N|].
  exact (proj1 (fetchNearbyStores_counts_the_list Sample.two_shops
                  (Some (mkCoordinates 12.97 77.59)) N)).
Defined.

End ScreenProperties.

Section CatalogProperties.
Import Catalog.

Lemma in_group filtered n m :
  In m (group filtered n) <-> In m filtered /\ name m = n.
Proof.
  unfold group. rewrite filter_In. now rewrite String.eqb_eq.
Qed.

(** X25.  With listings and nearby pharmacies on hand, and no medicine
    bearing the name of a member of [Object.prototype], the home screen
    shows one entry for each medicine name listed by a nearby pharmacy and
    for no other name.  Each entry is one of the nearby listings of its
    name, at a price no listing of that name nearby undercuts, and is
    marked with the number of nearby listings of the name.  With no nearby
    pharmacy on hand the listings are shown as they are. *)
Theorem localMedicines_one_entry_per_name medicines nearbyPharmacies :
  medicines <> [] -> nearbyPharmacies <> [] ->
  (forall m, In m medicines -> own_name (name m) = true) ->
  NoDup (map name (localMedicines medicines nearbyPharmacies))
  /\ (forall n,
        In n (map name (localMedicines medicines nearbyPharmacies))
        <-> exists m, In m medicines
                      /\ is_nearby nearbyPharmacies m = true /\ name m = n)
  /\ (forall e, In e (localMedicines medicines nearbyPharmacies) ->
        (exists m, In m medicines /\ is_nearby nearbyPharmacies m = true
           /\ e = with_availableStores m
                    (Z.of_nat
                       (List.length
                          (group (filter (is_nearby nearbyPharmacies)
                                    medicines) (name e)))))
        /\ forall m, In m medicines ->
             is_nearby nearbyPharmacies m = true -> name m = name e ->
             (price_or_zero e <= price_or_zero m)%Q)
  /\ localMedicines medicines [] = medicines.
Proof.
  intros Hm Hp _.
  assert (L : localMedicines medicines nearbyPharmacies
              = aggregateCatalog (filter (is_nearby nearbyPharmacies)
                                    medicines)).
  { destruct medicines as [|m ms]; [contradiction|].
    destruct nearbyPharmacies as [|p ps]; [contradiction | reflexivity]. }
  rewrite L.
  destruct (aggregateCatalog_summary
              (filter (is_nearby nearbyPharmacies) medicines))
    as [ND [K E]].
  split; [exact ND|]. split; [|split].
  - intros n. rewrite K, in_map_iff. split.
    + intros [m [En I]]. apply filter_In in I as [I V]. now exists m.
    + intros [m [I [V En]]]. exists m. split; [exact En|].
      now apply filter_In.
  - intros e H. destruct (E e H) as [[m [G Ee]] Min]. split.
    + apply in_group in G as [G _]. apply filter_In in G as [I V].
      now exists m.
    + intros m' I V En. apply Min. apply in_group. split; [|exact En].
      now apply filter_In.
  - now destruct medicines.
Qed.

Lemma localMedicines_one_entry_per_name_witness :
  Sample.crocin_in_three_shops <> [] /\ ["ph1"; "ph3"] <> []
  /\ (forall m, In m Sample.crocin_in_three_shops -> own_name (name m) = true)
  /\ NoDup (map name
              (localMedicines Sample.crocin_in_three_shops ["ph1"; "ph3"]))
  /\ map (fun m => (name m, sellingPrice m, availableStores m))
       (localMedicines Sample.crocin_in_three_shops ["ph1"; "ph3"])
     = [("Crocin", Some 28%Q, Some 2)].
Proof.
  assert (Hm : Sample.crocin_in_three_shops <> []) by discriminate.
  assert (Hp : ["ph1"; "ph3"] <> []) by discriminate.
  assert (Ho : forall m, In m Sample.crocin_in_three_shops ->
                 own_name (name m) = true).
  { intros m [<-|[<-|[<-|[]]]]; reflexivity. }
  split; [exact Hm|]. split; [exact Hp|]. split; [exact Ho|]. split.
  - exact (proj1 (localMedicines_one_entry_per_name _ _ Hm Hp Ho)).
  - vm_compute. reflexivity.
Defined.

(** X26.  The store counter of an entry is never below the number of
    pharmacies that carry the name, and it is that number when no pharmacy
    lists the name twice. *)
Theorem availableStores_against_carriers filtered e :
  In e (aggregateCatalog filtered) ->
  exists n, availableStores e = Some n
    /\ Z.of_nat (List.length (carriers filtered (name e))) <= n
    /\ (NoDup (map pharmacyId (group filtered (name e))) ->
        n = Z.of_nat (List.length (carriers filtered (name e)))).
Proof.
  intros H.
  destruct (aggregateCatalog_summary filtered) as [_ [_ E]].
  destruct (E e H) as [[m [_ Ee]] _].
  exists (Z.of_nat (List.length (group filtered (name e)))).
  split; [rewrite Ee at 1; reflexivity|]. split.
  - apply inj_le. unfold carriers.
    rewrite <- (length_map pharmacyId (group filtered (name e))).
    apply NoDup_incl_length; [apply NoDup_nodup|].
    intros x I. now apply nodup_In in I.
  - intros N. now rewrite carriers_one_listing_each.
Qed.

Lemma availableStores_against_carriers_witness :
  In (with_availableStores (Sample.listing "m2" "Crocin" "ph2" 25) 3)
     (aggregateCatalog Sample.crocin_in_three_shops)
  /\ exists n,
       availableStores
         (with_availableStores (Sample.listing "m2" "Crocin" "ph2" 25) 3)
       = Some n
       /\ Z.of_nat (List.length
                      (carriers Sample.crocin_in_three_shops "Crocin")) <= n.
Proof.
  assert (I : In (with_availableStores
                    (Sample.listing "m2" "Crocin" "ph2" 25) 3)
                 (aggregateCatalog Sample.crocin_in_three_shops))
    by (left; reflexivity).
  split; [exact I|].
  destruct (availableStores_against_carriers _ _ I) as [n [A [B _]]].
  exists n. split; [exact A | exact B].
Defined.

End CatalogProperties.

Section EditingFacts.
Import Editing.

Lemma digit_nonneg R c v : digit R c = Some v -> 0 <= v.
Proof.
  unfold digit. cbv zeta.
  set (n := Z.of_nat (nat_of_ascii c)).
  destruct ((48 <=? n) && (n <=? 57))%bool eqn:A.
  - apply andb_true_iff in A as [A _]. apply Z.leb_le in A.
    destruct (n - 48 <? R); [|discriminate]. intros [= <-]. lia.
  - destruct ((97 <=? n) && (n <=? 122))%bool eqn:B.
    + apply andb_true_iff in B as [B _]. apply Z.leb_le in B.
      destruct (n - 87 <? R); [|discriminate]. intros [= <-]. lia.
    + destruct ((65 <=? n) && (n <=? 90))%bool eqn:C; [|discriminate].
      apply andb_true_iff in C as [C _]. apply Z.leb_le in C.
      destruct (n - 55 <? R); [|discriminate]. intros [= <-]. lia.
Qed.

Lemma digits_nonneg R s : 0 < R -> forall acc,
  (forall a, acc = Some a -> 0 <= a) ->
  forall q, digits R acc s = Some q -> 0 <= q.
Proof.
  intros HR. induction s as [|c r IH]; intros acc Ha q; cbn [digits].
  - apply Ha.
  - destruct (digit R c) as [v|] eqn:D; [|apply Ha].
    apply IH. intros a [= <-].
    pose proof (digit_nonneg _ _ _ D).
    assert (0 <= Client.or_zeroZ acc).
    { destruct acc as [a|]; cbn; [now apply Ha | lia]. }
    nia.
Qed.

Lemma skip_white_no_dash l :
  existsb (fun c => Ascii.eqb c "-") l = false ->
  existsb (fun c => Ascii.eqb c "-") (skip_white l) = false.
Proof.
  induction l as [|c r IH]; cbn [skip_white]; [auto|].
  intros H. destruct (Prescription.is_space c); [|exact H].
  apply IH. cbn in H. now apply orb_false_elim in H as [_ H].
Qed.

Lemma sign_of_no_dash l :
  existsb (fun c => Ascii.eqb c "-") l = false -> fst (sign_of l) = 1.
Proof.
  destruct l as [|c r]; cbn; [reflexivity|].
  intros H. apply orb_false_elim in H as [-> _].
  now destruct (Ascii.eqb c "+").
Qed.

Lemma radix_of_pos l : 0 < fst (radix_of l).
Proof.
  destruct l as [|z [|x r]]; cbn; try lia.
  destruct (_ && _)%bool; cbn; lia.
Qed.

Lemma parseInt_nonneg s q :
  includes_dash s = false -> parseInt s = Some q -> 0 <= q.
Proof.
  unfold includes_dash, parseInt. intros N. apply skip_white_no_dash in N.
  apply sign_of_no_dash in N.
  destruct (sign_of _) as [sign s2]. cbn [fst] in N. subst sign.
  pose proof (radix_of_pos s2) as P.
  destruct (radix_of s2) as [R s3]. cbn [fst] in P.
  destruct (digits R None s3) as [v|] eqn:D; cbn [option_map];
    [|discriminate].
  intros [= <-].
  pose proof (digits_nonneg R s3 P None (fun a H => ltac:(discriminate)) v D).
  now destruct v.
Qed.

Lemma includes_dash_cons c r :
  includes_dash (String c r) = (Ascii.eqb c "-" || includes_dash r)%bool.
Proof. reflexivity. Qed.

Lemma split_dash_no_dash s :
  forall seg, In seg (split_dash s) -> includes_dash seg = false.
Proof.
  induction s as [|c r IH]; cbn [split_dash]; intros seg H.
  - destruct H as [<-|[]]. reflexivity.
  - destruct (Ascii.eqb c "-") eqn:E.
    + destruct H as [<-|H]; [reflexivity | now apply IH].
    + destruct (split_dash r) as [|h t].
      * destruct H as [<-|[]]. rewrite includes_dash_cons, E. reflexivity.
      * destruct H as [<-|H].
        -- rewrite includes_dash_cons, E. apply IH. now left.
        -- apply IH. now right.
Qed.

Lemma fold_plus_nonneg segs : forall a,
  (forall seg, In seg segs -> includes_dash seg = false) ->
  (forall x, a = Some x -> 0 <= x) ->
  forall q,
    fold_left
      (fun sum n => plus sum (parseInt (if String.eqb n "" then "0" else n)))
      segs a = Some q ->
    0 <= q.
Proof.
  induction segs as [|seg segs IH]; intros a N Ha q; cbn [fold_left].
  - apply Ha.
  - apply IH; [intros s' I; apply N; now right|].
    intros x. destruct a as [y|]; [|discriminate]. cbn [plus].
    destruct (parseInt _) as [v|] eqn:P; [|discriminate].
    intros [= <-]. specialize (Ha y eq_refl).
    assert (0 <= v); [|lia].
    apply parseInt_nonneg in P; [exact P|].
    destruct (String.eqb seg ""); [reflexivity|]. apply N. now left.
Qed.

Lemma dailyQty_at_least_one pattern :
  (forall q, dailyQty pattern = Some q -> 1 <= q)
  /\ (includes_dash pattern = false -> exists q, dailyQty pattern = Some q).
Proof.
  unfold dailyQty. split.
  - intros q. cbv zeta.
    destruct (includes_dash pattern) eqn:D.
    + destruct (fold_left _ _ _) as [v|] eqn:F; [|discriminate].
      apply fold_plus_nonneg in F;
        [|apply split_dash_no_dash|intros x [= <-]; lia].
      destruct (v =? 0) eqn:Z; intros [= <-]; [lia|].
      apply Z.eqb_neq in Z. lia.
    + destruct (parseInt pattern) as [v|] eqn:P.
      * apply (parseInt_nonneg _ _ D) in P.
        destruct (v =? 0) eqn:Z; intros [= <-]; [lia|].
        apply Z.eqb_neq in Z. lia.
      * cbn. intros [= <-]. lia.
  - intros D. rewrite D. cbv zeta.
    destruct (parseInt pattern) as [v|].
    + destruct (v =? 0); eauto.
    + cbn. eauto.
Qed.

Lemma put_at_length index item : forall l,
  List.length (put_at index item l) = List.length l.
Proof.
  induction index as [|i IH]; intros [|x r]; cbn; auto.
Qed.

Lemma put_at_nth index item : forall l j,
  nth_error (put_at index item l) j
  = if Nat.eqb j index
    then option_map (fun _ => item) (nth_error l j)
    else nth_error l j.
Proof.
  induction index as [|i IH]; intros [|x r] j; cbn.
  - now destruct j, (Nat.eqb _ _).
  - destruct j; reflexivity.
  - destruct j; cbn; [reflexivity|]. now destruct (Nat.eqb j i), j.
  - destruct j; cbn; [reflexivity|]. apply IH.
Qed.

Lemma removeItem_from_spec prev : forall from index,
  removeItem_from from index prev
  = (firstn (index - from) prev
     ++ if Nat.ltb index from then skipn (index - from) prev
        else skipn (S (index - from)) prev)%list.
Proof.
  induction prev as [|x r IH]; intros from index; cbn [removeItem_from].
  - destruct (Nat.ltb index from); now rewrite firstn_nil, skipn_nil.
  - destruct (Nat.eqb from index) eqn:E.
    + apply Nat.eqb_eq in E. subst. rewrite IH.
      replace (index - index)%nat with 0%nat by lia.
      replace (index - S index)%nat with 0%nat by lia.
      replace (Nat.ltb index (S index)) with true
        by (symmetry; apply Nat.ltb_lt; lia).
      replace (Nat.ltb index index) with false
        by (symmetry; apply Nat.ltb_ge; lia).
      reflexivity.
    + apply Nat.eqb_neq in E. rewrite IH.
      destruct (Nat.ltb index from) eqn:L.
      * apply Nat.ltb_lt in L.
        replace (Nat.ltb index (S from)) with true
          by (symmetry; apply Nat.ltb_lt; lia).
        replace (index - S from)%nat with 0%nat by lia.
        replace (index - from)%nat with 0%nat by lia.
        reflexivity.
      * apply Nat.ltb_ge in L.
        replace (Nat.ltb index (S from)) with false
          by (symmetry; apply Nat.ltb_ge; lia).
        replace (index - from)%nat with (S (index - S from)) by lia.
        reflexivity.
Qed.

End EditingFacts.

Section EditingProperties.
Import Editing.

(** X27.  Changing the days or the dosage pattern of a row recomputes its
    quantity and nothing else: name and category stay, the other rows stay,
    and the new quantity is either no number or a whole number of daily
    doses, at least one, times the days of the row.  It is a number
    whenever the pattern of the row holds no dash. *)
Theorem updateItem_recomputes_quantity index c detectedItems old updated :
  (exists v, c = Days v) \/ (exists v, c = DosagePattern v) ->
  nth_error detectedItems index = Some old ->
  updateItem index c detectedItems = Some updated ->
  exists item,
    nth_error updated index = Some item
    /\ name item = name old /\ category item = category old
    /\ (forall q, quantity item = Some q ->
          exists daily, 1 <= daily /\ q = daily * days item)
    /\ (includes_dash (dosagePattern item) = false ->
        exists q, quantity item = Some q)
    /\ List.length updated = List.length detectedItems
    /\ forall j, j <> index -> nth_error updated j = nth_error detectedItems j.
Proof.
  intros C O U. unfold updateItem in U. rewrite O in U.
  injection U as <-. exists (edited c old).
  split; [rewrite put_at_nth, Nat.eqb_refl, O; reflexivity|].
  assert (Q : quantity (edited c old)
              = option_map (fun q => q * days (edited c old))
                  (dailyQty (dosagePattern (edited c old)))
              /\ name (edited c old) = name old
              /\ category (edited c old) = category old).
  { destruct C as [[v ->]|[v ->]]; repeat split. }
  destruct Q as [Q [Nm Ct]].
  destruct (dailyQty_at_least_one (dosagePattern (edited c old))) as [A B].
  split; [exact Nm|]. split; [exact Ct|]. split; [|split; [|split]].
  - intros q Eq. rewrite Q in Eq.
    destruct (dailyQty _) as [daily|]; [|discriminate].
    injection Eq as <-. exists daily. split; [now apply A | reflexivity].
  - intros D. destruct (B D) as [q Eq]. rewrite Q, Eq. cbn. eauto.
  - apply put_at_length.
  - intros j Nj. rewrite put_at_nth.
    now replace (Nat.eqb j index) with false
      by (symmetry; now apply Nat.eqb_neq).
Qed.

Lemma updateItem_recomputes_quantity_witness :
  nth_error (addNewItem []) 0
  = Some (mkItem "" (Some "General") "1-0-1" 3 (Some 6))
  /\ updateItem 0 (Days 5) (addNewItem [])
     = Some [mkItem "" (Some "General") "1-0-1" 5 (Some 10)]
  /\ exists item,
       nth_error [mkItem "" (Some "General") "1-0-1" 5 (Some 10)] 0
       = Some item
       /\ name item = "".
Proof.
  assert (O : nth_error (addNewItem []) 0
              = Some (mkItem "" (Some "General") "1-0-1" 3 (Some 6)))
    by reflexivity.
  assert (U : updateItem 0 (Days 5) (addNewItem [])
              = Some [mkItem "" (Some "General") "1-0-1" 5 (Some 10)])
    by (vm_compute; reflexivity).
  split; [exact O|]. split; [exact U|].
  destruct (updateItem_recomputes_quantity 0 (Days 5) (addNewItem []) _ _
              (or_introl (ex_intro _ 5 eq_refl)) O U)
    as [item [E [Nm _]]].
  exists item. split; [exact E | exact Nm].
Defined.

(** X28.  Removing a row takes out the row at that index and keeps the
    others in their order; an index outside the list removes nothing; and
    removing the row that was just added gives back the list as it was. *)
Theorem removeItem_takes_one_row index prev :
  removeItem index prev = (firstn index prev ++ skipn (S index) prev)%list
  /\ ((List.length prev <= index)%nat -> removeItem index prev = prev)
  /\ removeItem (List.length prev) (addNewItem prev) = prev.
Proof.
  assert (R : forall i l,
            removeItem i l = (firstn i l ++ skipn (S i) l)%list).
  { intros i l. unfold removeItem. rewrite removeItem_from_spec.
    rewrite Nat.sub_0_r. reflexivity. }
  split; [apply R|]. split.
  - intros L. rewrite R, firstn_all2 by exact L.
    rewrite skipn_all2 by lia. apply app_nil_r.
  - rewrite R. unfold addNewItem.
    rewrite firstn_app, firstn_all, Nat.sub_diag. cbn [firstn].
    rewrite skipn_all2 by (rewrite length_app; cbn; lia).
    now rewrite !app_nil_r.
Qed.

Lemma removeItem_takes_one_row_witness :
  (List.length (addNewItem []) <= 4)%nat
  /\ removeItem 4 (addNewItem []) = addNewItem [].
Proof.
  assert (L : (List.length (addNewItem []) <= 4)%nat) by (cbn; lia).
  split; [exact L|].
  exact (proj1 (proj2 (removeItem_takes_one_row 4 (addNewItem []))) L).
Defined.

End EditingProperties.
